(** * RondevuFunctions: the three Firestore-triggered cloud functions

    A shallow embedding of [functions/src/index.ts]:
    - [sendNotificationToUser]  (document creation trigger),
    - [updateBadgeCount]        (document update trigger),
    - [sendEventReminders]      (hourly schedule).

    The handlers are [async] functions that talk to Firestore and to
    the messaging service.  They are embedded in a state-and-exception
    monad over a [World]: the contents of the store, the list of
    external calls issued so far, the console, a schedule saying how
    each of the upcoming external calls behaves (it succeeds, throws, or
    returns a promise that rejects), and the rejections of promises
    that nothing has subscribed to.

    What the embedding takes from the libraries the source calls:
    - numbers are IEEE 754 doubles, and [String] and [JSON.stringify]
      print them as ECMA-262 says;
    - Firestore's [add] checks its argument before anything is sent and
      throws on a field whose value is [undefined];
    - a range query answers in the order of the field it filters on,
      documents with the same value in the order of their ids.

    What the embedding leaves out:
    - other writers: one invocation runs in isolation, so a read sees
      the store as the previous step left it;
    - the timing of un-awaited calls: the write of an [add] is applied
      where the call is issued, and a rejection counts as unhandled
      when the handler ends without ever having subscribed to the
      promise (the runtime also reports a rejection that arrives before
      [Promise.all] subscribes to it);
    - values read from Firestore that are neither of the JSON kinds nor
      [undefined] (timestamps, references, bytes) inside [metadata]. *)

From Stdlib Require Import SpecFloat.
From stdpp Require Import sorting.
From stdpp Require Import base option list gmap gmultiset strings pretty fin_maps.
From Stdlib Require Import ZArith Ascii String.

Local Open Scope string_scope.
Local Open Scope list_scope.
Local Open Scope Z_scope.
Set Warnings "-register-all".

(** ** JavaScript numbers *)

(** A JavaScript number is an IEEE 754 binary64 value. *)
Definition Number : Type := spec_float.

(** The Number value for [mantissa * 2 ^ exponent]: the nearest double,
    ties to the even mantissa. *)
Definition Number_of (mantissa exponent : Z) : Number :=
  binary_normalize 53 1024 mantissa exponent false.

Definition Number_of_Z (z : Z) : Number := Number_of z 0.

(** [x / y] on numbers. *)
Definition Number_div (x y : Number) : Number := SFdiv 53 1024 x y.

(** The double an inhabitant of [spec_float] stands for. *)
Definition canonical (x : Number) : Number :=
  match x with
  | S754_finite s m e => binary_normalize 53 1024 (cond_Zopp s (Zpos m)) e s
  | _ => x
  end.

(** [a * 2 ^ E] and [s * 10 ^ q] are compared as integers: each side is
    multiplied by the powers of two and ten the other side divides
    by. *)
Definition binary_side (a E q : Z) : Z := a * 2 ^ Z.max E 0 * 10 ^ Z.max (- q) 0.
Definition decimal_side (s E q : Z) : Z := s * 10 ^ Z.max q 0 * 2 ^ Z.max (- E) 0.

(** The least [n], from [n] on, with [V * 2 ^ E < 10 ^ n]. *)
Fixpoint decimal_exponent (fuel : nat) (V E n : Z) : Z :=
  match fuel with
  | O => n
  | S fuel' =>
      if binary_side V E n <? decimal_side 1 E n then n
      else decimal_exponent fuel' V E (n + 1)
  end.

(** [s * 10 ^ q] rounds to the double whose rounding interval is from
    [L * 2 ^ E] to [H * 2 ^ E], the ends included when the double's
    mantissa is even. *)
Definition rounds_to (L H E : Z) (inclusive : bool) (s q : Z) : bool :=
  let c := decimal_side s E q in
  if inclusive then (binary_side L E q <=? c) && (c <=? binary_side H E q)
  else (binary_side L E q <? c) && (c <? binary_side H E q).

(** Of the two multiples of [10 ^ q] around [V * 2 ^ E], one that
    rounds to the double: the closer one when both do, the even one
    when they are as close. *)
Definition digits_at (V L H E : Z) (inclusive : bool) (q : Z) : option Z :=
  let lo := binary_side V E q / decimal_side 1 E q in
  let hi := lo + 1 in
  let below := binary_side V E q - decimal_side lo E q in
  let above := decimal_side hi E q - binary_side V E q in
  match rounds_to L H E inclusive lo q, rounds_to L H E inclusive hi q with
  | true, true =>
      Some (if below <? above then lo
            else if above <? below then hi
            else if Z.even lo then lo else hi)
  | true, false => Some lo
  | false, true => Some hi
  | false, false => None
  end.

(** The shortest decimal that rounds to the double: one digit, then
    two, and so on; seventeen always do. *)
Fixpoint shortest_digits (fuel : nat) (V L H E : Z) (inclusive : bool) (q : Z)
  : Z * Z :=
  match fuel with
  | O => (binary_side V E q / decimal_side 1 E q, q)
  | S fuel' =>
      match digits_at V L H E inclusive q with
      | Some s => (s, q)
      | None => shortest_digits fuel' V L H E inclusive (q - 1)
      end
  end.

Fixpoint strip_zeros (fuel : nat) (s q : Z) : Z * Z :=
  match fuel with
  | O => (s, q)
  | S fuel' => if s mod 10 =? 0 then strip_zeros fuel' (s / 10) (q + 1) else (s, q)
  end.

Fixpoint zeros (n : nat) : string :=
  match n with
  | O => EmptyString
  | S n' => String "0" (zeros n')
  end.

(** Steps 6 to 10 of [Number::toString]: the digits [s] (there are
    [k]) of a number between [10 ^ (n - 1)] and [10 ^ n]. *)
Definition place_digits (s : string) (n : Z) : string :=
  let k := Z.of_nat (String.length s) in
  if (k <=? n) && (n <=? 21) then s +:+ zeros (Z.to_nat (n - k))
  else if (0 <? n) && (n <=? 21) then
    substring 0 (Z.to_nat n) s +:+ "." +:+ substring (Z.to_nat n) (Z.to_nat (k - n)) s
  else if (-6 <? n) && (n <=? 0) then "0." +:+ zeros (Z.to_nat (- n)) +:+ s
  else
    let exponent := (if n - 1 <? 0 then "-" else "+") +:+ pretty (Z.abs (n - 1)) in
    if k =? 1 then s +:+ "e" +:+ exponent
    else substring 0 1 s +:+ "." +:+ substring 1 (Z.to_nat (k - 1)) s
         +:+ "e" +:+ exponent.

(** The string of a positive double [m * 2 ^ e], [m] and [e] as the
    format has them.  In units of [2 ^ (e - 2)] the double is [4 * m]
    and its rounding interval ends half a gap away: [2] above, and [2]
    below unless [m] is the least mantissa of a normal number, where the
    gap below is half as wide. *)
Definition positive_toString (m : positive) (e : Z) : string :=
  let V := 4 * Zpos m in
  let L := if (Zpos m =? 2 ^ 52) && (-1074 <? e) then V - 1 else V - 2 in
  let H := V + 2 in
  let E := e - 2 in
  let n := decimal_exponent 8 V E ((Z.log2 V + E) * 30103 / 100000) in
  let sq := shortest_digits 17 V L H E (Z.even (Zpos m)) (n - 1) in
  let sq := strip_zeros 20 (fst sq) (snd sq) in
  let s := pretty (fst sq) in
  place_digits s (snd sq + Z.of_nat (String.length s)).

(** [Number::toString(x)], radix 10. *)
Definition Number_toString (x : Number) : string :=
  match canonical x with
  | S754_nan => "NaN"
  | S754_zero _ => "0"
  | S754_infinity s => if s then "-Infinity" else "Infinity"
  | S754_finite s m e => (if s then "-" else EmptyString) +:+ positive_toString m e
  end.

Definition is_finite (x : Number) : bool :=
  match canonical x with
  | S754_nan | S754_infinity _ => false
  | _ => true
  end.

Arguments Number_toString : simpl never.
Arguments Number_of_Z : simpl never.
Arguments is_finite : simpl never.

(** ** JavaScript values *)

(** The values a Firestore document field can hold once read into
    JavaScript; an object is the list of its own enumerable properties
    in insertion order. *)
Inductive JsValue : Type :=
  | JUndefined
  | JNull
  | JBool (b : bool)
  | JNumber (x : Number)
  | JString (s : string)
  | JArray (items : list JsValue)
  | JObject (props : list (string * JsValue)).

Definition JsObject : Type := list (string * JsValue).

Definition dquote : string := String (ascii_of_nat 34) EmptyString.
Definition backslash : string := String (ascii_of_nat 92) EmptyString.

Definition hex_digit (n : nat) : ascii :=
  ascii_of_nat (if Nat.ltb n 10 then 48 + n else 87 + n)%nat.

(** [QuoteJSONString] of ECMA-262, on one code unit. *)
Definition json_escape_char (c : ascii) : string :=
  let n := nat_of_ascii c in
  if Nat.eqb n 34 then backslash +:+ dquote
  else if Nat.eqb n 92 then backslash +:+ backslash
  else if Nat.eqb n 8 then backslash +:+ "b"
  else if Nat.eqb n 9 then backslash +:+ "t"
  else if Nat.eqb n 10 then backslash +:+ "n"
  else if Nat.eqb n 12 then backslash +:+ "f"
  else if Nat.eqb n 13 then backslash +:+ "r"
  else if Nat.ltb n 32 then
    backslash +:+ "u00" +:+
    String (hex_digit (n / 16)) (String (hex_digit (n mod 16)) EmptyString)
  else String c EmptyString.

Fixpoint json_escape (s : string) : string :=
  match s with
  | EmptyString => EmptyString
  | String c rest => json_escape_char c +:+ json_escape rest
  end.

Definition json_quote (s : string) : string :=
  dquote +:+ json_escape s +:+ dquote.

Fixpoint join (sep : string) (parts : list string) : string :=
  match parts with
  | [] => EmptyString
  | [p] => p
  | p :: rest => p +:+ sep +:+ join sep rest
  end.

Definition Boolean_toString (b : bool) : string :=
  if b then "true" else "false".

(** [JSON.stringify v].  An [undefined] array element is written
    [null], and so is a number that is not finite; a property whose
    value is [undefined] is left out. *)
Fixpoint JSON_stringify (v : JsValue) : string :=
  match v with
  | JUndefined => "null"
  | JNull => "null"
  | JBool b => Boolean_toString b
  | JNumber x => if is_finite x then Number_toString x else "null"
  | JString s => json_quote s
  | JArray items => "[" +:+ join "," (map JSON_stringify items) +:+ "]"
  | JObject props =>
      "{" +:+
      join ","
        (flat_map
           (fun kv : string * JsValue =>
              match kv with
              | (k, x) =>
                  match x with
                  | JUndefined => []
                  | _ => [json_quote k +:+ ":" +:+ JSON_stringify x]
                  end
              end) props)
      +:+ "}"
  end.

(** [typeof v === "object"]: true of [null], arrays and objects. *)
Definition typeof_is_object (v : JsValue) : bool :=
  match v with
  | JNull | JArray _ | JObject _ => true
  | _ => false
  end.

(** [String(v)].  The dispatcher applies it to values whose [typeof]
    is not ["object"]; on an array it joins the elements' strings, with
    [null] and [undefined] elements written as nothing. *)
Fixpoint String_of (v : JsValue) : string :=
  match v with
  | JUndefined => "undefined"
  | JNull => "null"
  | JBool b => Boolean_toString b
  | JNumber x => Number_toString x
  | JString s => s
  | JArray items =>
      join ","
        (map (fun x => match x with
                       | JUndefined | JNull => EmptyString
                       | _ => String_of x
                       end) items)
  | JObject _ => "[object Object]"
  end.

(** The value is [undefined], or holds it in an element or a property,
    however deep. *)
Fixpoint has_undefined (v : JsValue) : bool :=
  match v with
  | JUndefined => true
  | JArray items => existsb has_undefined items
  | JObject props =>
      existsb (fun kv : string * JsValue =>
                 match kv with
                 | (_, x) => has_undefined x
                 end) props
  | _ => false
  end.

(** ** Documents *)

(** [admin.firestore.Timestamp]: seconds since the epoch and the
    nanoseconds within the second. *)
Record Timestamp : Type := mkTimestamp {
  seconds : Z;
  nanoseconds : Z;
}.

(** The order Firestore puts on timestamps: by seconds, then by
    nanoseconds. *)
Definition Timestamp_leb (a b : Timestamp) : bool :=
  (seconds a <? seconds b) ||
  ((seconds a =? seconds b) && (nanoseconds a <=? nanoseconds b)).

(** [Timestamp.toMillis()]: an integer that a double holds exactly, for
    every timestamp Firestore stores. *)
Definition toMillis (t : Timestamp) : Z :=
  seconds t * 1000 + nanoseconds t / 1000000.

(** [interface NotificationData], and [recipientType], which the
    generator writes next to the declared fields. *)
Record NotificationData : Type := mkNotificationData {
  recipientId : option string;
  recipientType : option string;
  title : option string;
  message : option string;
  type : option string;
  status : option string;
  createdAt : option Timestamp;
  metadata : option JsObject;
  actionLink : option string;
  imageUrl : option string;
}.

(** [interface EventData]. *)
Record EventData : Type := mkEventData {
  creatorId : option string;
  name : option string;
  startTime : option Timestamp;
  venueAddress : option string;
  reminderSent : option bool;
  attendees : option (list string);
}.

(** Modelled from the spec: the shape of a [user_tokens] document is
    declared nowhere in the source, which reads its [token] field only.
    The spec's DeviceTokenRecord holds a single push token string, so
    the field is a string when it is there. *)
Record TokenDoc : Type := mkTokenDoc {
  token : option string;
}.

(** The four collections the functions touch, each keyed by document
    id. *)
Record Store : Type := mkStore {
  user_notifications : gmap string NotificationData;
  creator_notifications : gmap string NotificationData;
  user_tokens : gmap string TokenDoc;
  events : gmap string EventData;
}.

(** Truthiness of an optional string ([!x] is its negation): absent and
    the empty string are falsy. *)
Definition truthy_string (x : option string) : bool :=
  match x with
  | Some s => negb (String.eqb s EmptyString)
  | None => false
  end.

(** The string behind a truthy optional string: what the code goes on
    with past an [if (!x) return]. *)
Definition truthy (x : option string) : option string :=
  match x with
  | Some s => if String.eqb s EmptyString then None else Some s
  | None => None
  end.

(** Truthiness of an optional boolean. *)
Definition truthy_bool (x : option bool) : bool :=
  match x with
  | Some b => b
  | None => false
  end.

(** [x] or else the empty string, on an optional string. *)
Definition or_empty (x : option string) : string :=
  match x with
  | Some s => s
  | None => EmptyString
  end.

(** A template literal's rendering of an optional string. *)
Definition interpolate (x : option string) : string :=
  match x with
  | Some s => s
  | None => "undefined"
  end.

(** ** Messages handed to the messaging service *)

(** The [notification] section of a message. *)
Record Display : Type := mkDisplay {
  display_title : option string;
  display_body : option string;
  display_imageUrl : option string;
}.

(** The [android] section. *)
Record AndroidConfig : Type := mkAndroidConfig {
  android_priority : string;
  android_sound : string;
  android_notification_priority : string;
  android_channelId : string;
}.

(** The [apns.payload.aps] section. *)
Record Aps : Type := mkAps {
  aps_sound : option string;
  aps_badge : nat;
}.

(** [admin.messaging.Message].  The data section is a JavaScript object
    used as a string-to-string map; a Firestore field cannot be named
    [__proto__], so every assignment to it is a map insertion. *)
Record Message : Type := mkMessage {
  msg_notification : option Display;
  msg_data : gmap string string;
  msg_token : string;
  msg_android : option AndroidConfig;
  msg_apns : Aps;
}.

(** ** The world and the handler monad *)

(** How one external call behaves: it succeeds, it throws before
    returning, or the promise it returns rejects. *)
Inductive Outcome : Type := Succeeds | Throws | Rejects.

(** What a failed call raises, by the call that raised it; for an
    [add] that is the SDK refusing the data as well as the write
    failing. *)
Inductive Error : Type :=
  | GetFailed
  | QueryFailed
  | SendFailed
  | AddFailed
  | CommitFailed.

#[global] Instance Error_eq_dec : EqDecision Error.
Proof. solve_decision. Defined.

#[global] Instance Error_countable : Countable Error.
Proof.
  refine (inj_countable'
            (fun e => match e with
                      | GetFailed => 0 | QueryFailed => 1 | SendFailed => 2
                      | AddFailed => 3 | CommitFailed => 4
                      end%nat)
            (fun n => match n with
                      | 0 => GetFailed | 1 => QueryFailed | 2 => SendFailed
                      | 3 => AddFailed | _ => CommitFailed
                      end%nat) _).
  intros []; reflexivity.
Defined.

(** One write of a batch: [batch.update(ref, { reminderSent: value })]
    on the event document [ref]. *)
Record BatchUpdate : Type := mkBatchUpdate {
  update_ref : string;
  update_reminderSent : bool;
}.

(** The calls that leave the process. *)
Inductive Call : Type :=
  | CallGetToken (uid : string)
  | CallQueryUnread (collection recipient : string)
  | CallQueryEvents (lo hi : Timestamp)
  | CallSend (m : Message)
  | CallAdd (collection : string) (data : NotificationData)
  | CallCommit (batch : list BatchUpdate).

Inductive LogLine : Type :=
  | Log (text : string)
  | LogError (text : string) (e : Error).

(** [unhandled] holds the rejections of the promises that nothing has
    subscribed to: no [catch] gets them and nothing logs them, unless a
    later [Promise.all] takes the promise up. *)
Record World : Type := mkWorld {
  db : Store;
  calls : list Call;
  console : list LogLine;
  schedule : list Outcome;
  unhandled : gmultiset Error;
}.

Inductive Result (A : Type) : Type :=
  | Ok (a : A)
  | Thrown (e : Error).
Arguments Ok {A} a.
Arguments Thrown {A} e.

(** A computation runs in a world and ends with a value or with an
    exception; what it did to the world before an exception stays
    done. *)
Definition M (A : Type) : Type := World -> Result A * World.

Definition ret {A} (a : A) : M A := fun w => (Ok a, w).

Definition bind {A B} (m : M A) (k : A -> M B) : M B :=
  fun w =>
    match m w with
    | (Ok a, w') => k a w'
    | (Thrown e, w') => (Thrown e, w')
    end.

Definition throw {A} (e : Error) : M A := fun w => (Thrown e, w).

(** [try { body } catch (error) { handler }]. *)
Definition try_catch {A} (body : M A) (handler : Error -> M A) : M A :=
  fun w =>
    match body w with
    | (Ok a, w') => (Ok a, w')
    | (Thrown e, w') => handler e w'
    end.

Declare Scope M_scope.
Delimit Scope M_scope with M.
Notation "x <- m ;; k" := (bind m (fun x => k))
  (at level 100, m at next level, k at level 200, right associativity) : M_scope.
Notation "m ;; k" := (bind m (fun _ => k))
  (at level 100, k at level 200, right associativity) : M_scope.
Local Open Scope M_scope.

Definition console_log (text : string) : M unit :=
  fun w => (Ok tt, mkWorld (db w) (calls w) (console w ++ [Log text]) (schedule w) (unhandled w)).

Definition console_error (text : string) (e : Error) : M unit :=
  fun w => (Ok tt, mkWorld (db w) (calls w) (console w ++ [LogError text e]) (schedule w) (unhandled w)).

Definition issue (c : Call) : M unit :=
  fun w => (Ok tt, mkWorld (db w) (calls w ++ [c]) (console w) (schedule w) (unhandled w)).

(** The behaviour of the next external call; past the end of the
    schedule every call succeeds. *)
Definition next_outcome : M Outcome :=
  fun w =>
    match schedule w with
    | [] => (Ok Succeeds, w)
    | o :: rest => (Ok o, mkWorld (db w) (calls w) (console w) rest (unhandled w))
    end.

Definition read_db : M Store := fun w => (Ok (db w), w).

Definition write_db (s : Store) : M unit :=
  fun w => (Ok tt, mkWorld s (calls w) (console w) (schedule w) (unhandled w)).

(** A promise that nothing has subscribed to rejects with [e]. *)
Definition reject_unhandled (e : Error) : M unit :=
  fun w => (Ok tt, mkWorld (db w) (calls w) (console w) (schedule w)
                     ({[+ e +]} ⊎ unhandled w)).

(** [await call]: the call is issued; unless it succeeds, [e] is
    thrown here. *)
Definition await_call {A} (c : Call) (e : Error) (k : M A) : M A :=
  issue c ;;
  o <- next_outcome ;;
  match o with
  | Succeeds => k
  | Throws | Rejects => throw e
  end.

(** ** The store, as the handlers use it *)

(** What a handler returns to the functions runtime: [null], the
    messaging service's response, or [{ success: true }]. *)
Inductive RetVal : Type := RNull | RResponse | RSuccess.

(** The promise an un-awaited call leaves behind, settled. *)
Inductive Promise : Type := Fulfilled | Rejected (e : Error).

Definition is_notification_collection (collection : string) : bool :=
  String.eqb collection "user_notifications" ||
  String.eqb collection "creator_notifications".

(** [admin.firestore().collection(name)] for a notification
    collection. *)
Definition notification_collection (collection : string) (s : Store)
  : gmap string NotificationData :=
  if String.eqb collection "user_notifications" then user_notifications s
  else if String.eqb collection "creator_notifications" then creator_notifications s
  else ∅.

(** [collection("user_tokens").doc(uid).get()]: the document when it
    exists. *)
Definition get_user_token (uid : string) : M (option TokenDoc) :=
  await_call (CallGetToken uid) GetFailed
    (s <- read_db ;; ret (user_tokens s !! uid)).

Definition is_unread_for (recipient : string) (d : NotificationData) : bool :=
  bool_decide (recipientId d = Some recipient) &&
  bool_decide (status d = Some "unread").

(** [.where("recipientId", "==", r).where("status", "==", "unread").get()]:
    the documents of the answer. *)
Definition query_unread (collection recipient : string)
  : M (list (string * NotificationData)) :=
  await_call (CallQueryUnread collection recipient) QueryFailed
    (s <- read_db ;;
     ret (map_to_list
            (filter (fun doc => is_unread_for recipient (snd doc) = true)
               (notification_collection collection s)))).

(** A range filter matches the documents that have the field, here a
    timestamp, inside the range. *)
Definition in_window (lo hi : Timestamp) (e : EventData) : bool :=
  match startTime e with
  | Some t => Timestamp_leb lo t && Timestamp_leb t hi
  | None => false
  end.

(** The order of the documents in the answer of a range query on
    [startTime]: by the timestamp, and by the bytes of the document id
    where the timestamps are the same. *)
Definition answered_before (a b : string * EventData) : bool :=
  match startTime (snd a), startTime (snd b) with
  | Some ta, Some tb =>
      Timestamp_leb ta tb &&
      (negb (Timestamp_leb tb ta) || String.leb (fst a) (fst b))
  | _, _ => true
  end.

Definition answer_order (a b : string * EventData) : Prop :=
  answered_before a b = true.

#[global] Instance answer_order_dec (a b : string * EventData)
  : Decision (answer_order a b).
Proof. unfold answer_order. apply _. Defined.

(** The documents of [evs] that a range query from [lo] to [hi]
    answers with. *)
Definition events_between (lo hi : Timestamp) (evs : gmap string EventData)
  : list (string * EventData) :=
  merge_sort answer_order
    (map_to_list (filter (fun doc => in_window lo hi (snd doc) = true) evs)).

(** [.where("startTime", ">=", lo).where("startTime", "<=", hi).get()]. *)
Definition query_events (lo hi : Timestamp) : M (list (string * EventData)) :=
  await_call (CallQueryEvents lo hi) QueryFailed
    (s <- read_db ;; ret (events_between lo hi (events s))).

(** A new document under an id the collection does not use yet. *)
Definition insert_notification (collection : string) (d : NotificationData)
    (s : Store) : Store :=
  if String.eqb collection "user_notifications" then
    mkStore (<[fresh (dom (user_notifications s)) := d]> (user_notifications s))
            (creator_notifications s) (user_tokens s) (events s)
  else if String.eqb collection "creator_notifications" then
    mkStore (user_notifications s)
            (<[fresh (dom (creator_notifications s)) := d]> (creator_notifications s))
            (user_tokens s) (events s)
  else s.

(** The check [add] makes on its argument: the SDK refuses a document
    with a field whose value is [undefined], however deep
    ([admin.initializeApp()] leaves [ignoreUndefinedProperties] off).
    Of a record only [metadata] can hold such a value: the other
    fields are there with a value or are not there. *)
Definition refused (d : NotificationData) : bool :=
  match metadata d with
  | Some md => has_undefined (JObject md)
  | None => false
  end.

(** [collection(name).add(data)], not awaited.  A document that the
    SDK refuses makes the call throw before anything is sent.
    Otherwise the call is issued, and it throws on the spot or returns
    a promise; the write it stands for is applied here, where it is
    issued, and a rejection has no subscriber yet. *)
Definition collection_add (collection : string) (d : NotificationData)
  : M Promise :=
  if refused d then throw AddFailed
  else
    issue (CallAdd collection d) ;;
    o <- next_outcome ;;
    match o with
    | Succeeds =>
        s <- read_db ;;
        write_db (insert_notification collection d s) ;;
        ret Fulfilled
    | Throws => throw AddFailed
    | Rejects => reject_unhandled AddFailed ;; ret (Rejected AddFailed)
    end.

Definition set_reminderSent (b : bool) (e : EventData) : EventData :=
  mkEventData (creatorId e) (name e) (startTime e) (venueAddress e)
              (Some b) (attendees e).

Definition apply_update (evs : gmap string EventData) (u : BatchUpdate)
  : gmap string EventData :=
  alter (set_reminderSent (update_reminderSent u)) (update_ref u) evs.

(** [batch.commit()]: every write or none; an update of a document
    that is not there fails the batch. *)
Definition batch_commit (batch : list BatchUpdate) : M unit :=
  await_call (CallCommit batch) CommitFailed
    (s <- read_db ;;
     if forallb (fun u => bool_decide (is_Some (events s !! update_ref u))) batch
     then write_db (mkStore (user_notifications s) (creator_notifications s)
                            (user_tokens s)
                            (fold_left apply_update batch (events s)))
     else throw CommitFailed).

(** What the rejected promises of a list rejected with. *)
Definition rejections (promises : list Promise) : list Error :=
  flat_map (fun p => match p with
                     | Fulfilled => []
                     | Rejected e => [e]
                     end) promises.

(** [Promise.all] subscribes to every promise of the list: their
    rejections are unhandled no more. *)
Definition subscribe (promises : list Promise) : M unit :=
  fun w => (Ok tt, mkWorld (db w) (calls w) (console w) (schedule w)
                     (unhandled w ∖ list_to_set_disj (rejections promises))).

(** The promise of [Promise.all], awaited: it throws what the first
    rejected promise of the list rejected with. *)
Fixpoint first_rejection (promises : list Promise) : M unit :=
  match promises with
  | [] => ret tt
  | Fulfilled :: rest => first_rejection rest
  | Rejected e :: _ => throw e
  end.

(** [await Promise.all(promises)]. *)
Definition Promise_all (promises : list Promise) : M unit :=
  subscribe promises ;; first_rejection promises.

(** [admin.messaging().send(message)], awaited. *)
Definition messaging_send (m : Message) : M RetVal :=
  await_call (CallSend m) SendFailed (ret RResponse).

(** ** sendNotificationToUser *)

(** [delete o.key]. *)
Definition delete_property (key : string) (o : JsObject) : JsObject :=
  List.filter (fun kv => negb (String.eqb (fst kv) key)) o.

(** The own property [key] of [o], when there is one. *)
Fixpoint own_property (o : JsObject) (key : string) : option JsValue :=
  match o with
  | [] => None
  | (k, v) :: rest => if String.eqb k key then Some v else own_property rest key
  end.

(** [o[key]]. *)
Definition get_property (o : JsObject) (key : string) : JsValue :=
  match own_property o key with
  | Some v => v
  | None => JUndefined
  end.

Definition Object_keys (o : JsObject) : list string := map fst o.

(** The fixed fields of the data payload. *)
Definition fixed_fields (notificationId : string) (notification : NotificationData)
  : gmap string string :=
  <["actionLink" := or_empty (actionLink notification)]>
  (<["click_action" := "FLUTTER_NOTIFICATION_CLICK"]>
  (<["type" := or_empty (type notification)]>
  (<["notificationId" := notificationId]> ∅))).

(** The string a metadata value is sent as. *)
Definition data_string (v : JsValue) : string :=
  if typeof_is_object v then JSON_stringify v else String_of v.

(** The [if (notification.metadata)] block: the copy, the two deletes
    and the [forEach] over the keys that are left. *)
Definition add_metadata (md : JsObject) (messageData : gmap string string)
  : gmap string string :=
  let metadataToInclude :=
    delete_property "fullContent" (delete_property "fullDescription" md) in
  fold_left
    (fun data key => <[key := data_string (get_property metadataToInclude key)]> data)
    (Object_keys metadataToInclude) messageData.

Definition messageData (notificationId : string) (notification : NotificationData)
  : gmap string string :=
  match metadata notification with
  | Some md => add_metadata md (fixed_fields notificationId notification)
  | None => fixed_fields notificationId notification
  end.

Definition notification_message (notificationId : string)
    (notification : NotificationData) (tok : string) : Message :=
  {| msg_notification :=
       Some (mkDisplay (title notification) (message notification)
                       (imageUrl notification));
     msg_data := messageData notificationId notification;
     msg_token := tok;
     msg_android :=
       Some (mkAndroidConfig "high" "default" "high" "high_importance_channel");
     msg_apns := mkAps (Some "default") 1 |}.

Definition sendNotificationToUser_body (collection notificationId : string)
    (notification : NotificationData) : M RetVal :=
  if negb (is_notification_collection collection) then ret RNull
  else
    match truthy (recipientId notification) with
    | None =>
        console_log "No recipient ID found in notification" ;; ret RNull
    | Some recipient =>
        userTokensDoc <- get_user_token recipient ;;
        match userTokensDoc with
        | None =>
            console_log ("No token found for user: " +:+ recipient) ;; ret RNull
        | Some userData =>
            match truthy (token userData) with
            | None =>
                console_log ("Token exists but is empty for user: " +:+ recipient) ;;
                ret RNull
            | Some tok =>
                response <- messaging_send
                  (notification_message notificationId notification tok) ;;
                console_log "Successfully sent message:" ;;
                ret response
            end
        end
    end.

Definition sendNotificationToUser (collection notificationId : string)
    (notification : NotificationData) : M RetVal :=
  try_catch (sendNotificationToUser_body collection notificationId notification)
    (fun error => console_error "Error sending notification:" error ;; ret RNull).

(** ** updateBadgeCount *)

Definition badge_message (tok : string) (unreadCount : nat) : Message :=
  {| msg_notification := None;
     msg_data := <["updateBadge" := "true"]> ∅;
     msg_token := tok;
     msg_android := None;
     msg_apns := mkAps None unreadCount |}.

Definition unread_to_other (beforeData afterData : NotificationData) : bool :=
  bool_decide (status beforeData = Some "unread") &&
  negb (bool_decide (status afterData = Some "unread")).

Definition updateBadgeCount_body (collection : string)
    (beforeData afterData : NotificationData) : M RetVal :=
  if negb (is_notification_collection collection) then ret RNull
  else if unread_to_other beforeData afterData then
    match truthy (recipientId afterData) with
    | None => ret RNull
    | Some recipient =>
        unreadQuery <- query_unread collection recipient ;;
        let unreadCount := List.length unreadQuery in
        userTokensDoc <- get_user_token recipient ;;
        match userTokensDoc with
        | None => ret RNull
        | Some userData =>
            match truthy (token userData) with
            | None => ret RNull
            | Some tok =>
                messaging_send (badge_message tok unreadCount) ;;
                ret RSuccess
            end
        end
    end
  else ret RNull.

Definition updateBadgeCount (collection : string)
    (beforeData afterData : NotificationData) : M RetVal :=
  try_catch (updateBadgeCount_body collection beforeData afterData)
    (fun error => console_error "Error updating badge count:" error ;; ret RNull).

(** ** sendEventReminders *)

Definition optional_string (x : option string) : JsValue :=
  match x with
  | Some s => JString s
  | None => JUndefined
  end.

(** The [metadata] object of a reminder. *)
Definition reminder_metadata (eventId : string) (event : EventData) : JsObject :=
  [ ("eventId", JString eventId);
    ("eventName", optional_string (name event));
    ("startTime", match startTime event with
                  | Some t => JNumber (Number_of_Z (toMillis t))
                  | None => JUndefined
                  end);
    ("venueAddress", optional_string (venueAddress event)) ].

Definition creator_reminder (now : Timestamp) (eventId : string)
    (event : EventData) : NotificationData :=
  {| recipientId := creatorId event;
     recipientType := Some "eventCreator";
     title := Some "Event Starting Soon";
     message := Some ("Your " +:+ dquote +:+ interpolate (name event) +:+ dquote
                      +:+ " event starts in less than 2 hours.");
     type := Some "eventStartingSoon";
     status := Some "unread";
     createdAt := Some now;
     metadata := Some (reminder_metadata eventId event);
     actionLink := Some ("event/" +:+ eventId);
     imageUrl := None |}.

Definition attendee_reminder (now : Timestamp) (eventId : string)
    (event : EventData) (attendeeId : string) : NotificationData :=
  {| recipientId := Some attendeeId;
     recipientType := Some "user";
     title := Some "Event Starting Soon";
     message := Some (dquote +:+ interpolate (name event) +:+ dquote
                      +:+ " starts in less than 2 hours.");
     type := Some "eventStartingSoon";
     status := Some "unread";
     createdAt := Some now;
     metadata := Some (reminder_metadata eventId event);
     actionLink := Some ("event/" +:+ eventId);
     imageUrl := None |}.

(** [for (const attendeeId of event.attendees)]. *)
Fixpoint remind_attendees (now : Timestamp) (eventId : string) (event : EventData)
    (ids : list string) (promises : list Promise) : M (list Promise) :=
  match ids with
  | [] => ret promises
  | attendeeId :: rest =>
      p <- collection_add "user_notifications"
             (attendee_reminder now eventId event attendeeId) ;;
      remind_attendees now eventId event rest (promises ++ [p])
  end.

(** One turn of [for (const eventDoc of eventsSnapshot.docs)], on the
    batch and the promises gathered so far. *)
Definition remind_event (now : Timestamp) (eventDoc : string * EventData)
    (batch : list BatchUpdate) (promises : list Promise)
  : M (list BatchUpdate * list Promise) :=
  let eventId := fst eventDoc in
  let event := snd eventDoc in
  if truthy_bool (reminderSent event) then ret (batch, promises)
  else
    let batch := batch ++ [mkBatchUpdate eventId true] in
    promises <-
      (if truthy_string (creatorId event) then
         p <- collection_add "creator_notifications"
                (creator_reminder now eventId event) ;;
         ret (promises ++ [p])
       else ret promises) ;;
    promises <-
      (match attendees event with
       | Some ids =>
           if (0 <? List.length ids)%nat
           then remind_attendees now eventId event ids promises
           else ret promises
       | None => ret promises
       end) ;;
    ret (batch, promises).

Fixpoint remind_events (now : Timestamp) (docs : list (string * EventData))
    (batch : list BatchUpdate) (promises : list Promise)
  : M (list BatchUpdate * list Promise) :=
  match docs with
  | [] => ret (batch, promises)
  | eventDoc :: rest =>
      st <- remind_event now eventDoc batch promises ;;
      remind_events now rest (fst st) (snd st)
  end.

(** [new admin.firestore.Timestamp(now.seconds + 3600, now.nanoseconds)],
    and the same two hours later. *)
Definition oneHourLater (now : Timestamp) : Timestamp :=
  mkTimestamp (seconds now + 3600) (nanoseconds now).

Definition twoHoursLater (now : Timestamp) : Timestamp :=
  mkTimestamp (seconds now + 7200) (nanoseconds now).

(** What the handler does with the documents of the query's answer. *)
Definition remind_selected (now : Timestamp) (docs : list (string * EventData))
  : M RetVal :=
  match docs with
  | [] => console_log "No upcoming events found for reminders" ;; ret RNull
  | _ :: _ =>
      console_log ("Found " +:+ pretty (List.length docs) +:+ " events for reminders") ;;
      st <- remind_events now docs [] [] ;;
      batch_commit (fst st) ;;
      Promise_all (snd st) ;;
      console_log ("Sent " +:+ pretty (List.length (snd st)) +:+ " reminder notifications") ;;
      ret RSuccess
  end.

(** The body of the handler; [now] is what [Timestamp.now()] answers. *)
Definition sendEventReminders_body (now : Timestamp) : M RetVal :=
  docs <- query_events (oneHourLater now) (twoHoursLater now) ;;
  remind_selected now docs.

Definition sendEventReminders (now : Timestamp) : M RetVal :=
  try_catch (sendEventReminders_body now)
    (fun error => console_error "Error sending event reminders:" error ;; ret RNull).

(** ** The triggers *)

(** What the functions runtime hands to a handler. *)
Inductive Trigger : Type :=
  | OnCreate (collection notificationId : string) (snapshot : NotificationData)
  | OnUpdate (collection : string) (before after : NotificationData)
  | OnSchedule (now : Timestamp).

Definition handler_body (t : Trigger) : M RetVal :=
  match t with
  | OnCreate c i n => sendNotificationToUser_body c i n
  | OnUpdate c b a => updateBadgeCount_body c b a
  | OnSchedule now => sendEventReminders_body now
  end.

Definition handler (t : Trigger) : M RetVal :=
  match t with
  | OnCreate c i n => sendNotificationToUser c i n
  | OnUpdate c b a => updateBadgeCount c b a
  | OnSchedule now => sendEventReminders now
  end.

(** What the [catch] block of a handler writes before the error. *)
Definition catch_label (t : Trigger) : string :=
  match t with
  | OnCreate _ _ _ => "Error sending notification:"
  | OnUpdate _ _ _ => "Error updating badge count:"
  | OnSchedule _ => "Error sending event reminders:"
  end.

(** The world after a sequence of invocations, one after the other. *)
Definition run_all (ts : list Trigger) (w : World) : World :=
  fold_left (fun w t => snd (handler t w)) ts w.

(** ** What a computation issued *)

(** The calls [m] issues when run in [w]. *)
Definition issued_by {A} (m : M A) (w : World) : list Call :=
  drop (List.length (calls w)) (calls (snd (m w))).

Definition is_send (c : Call) : bool :=
  match c with CallSend _ => true | _ => false end.

(** The number of [send] calls among [cs]. *)
Definition sends (cs : list Call) : nat := List.length (List.filter is_send cs).

(** How the [i]-th external call from now behaves. *)
Definition outcome_at (i : nat) (w : World) : Outcome :=
  default Succeeds (schedule w !! i).

(** A notification is deliverable in a store when its [recipientId] is
    set and the token store holds a non-empty token for that recipient. *)
Definition deliverable (n : NotificationData) (s : Store) : Prop :=
  exists r d tok,
    recipientId n = Some r /\ user_tokens s !! r = Some d /\
    token d = Some tok /\ tok <> EmptyString.

(** The number of documents of a notification collection that are
    unread and addressed to [recipient]. *)
Definition unread_count (collection recipient : string) (s : Store) : nat :=
  size (filter (fun doc : string * NotificationData =>
                  recipientId (snd doc) = Some recipient /\
                  status (snd doc) = Some "unread")
          (notification_collection collection s)).

(** The update the spec's sentence on the badge synchronizer is tried
    on: an unread record addressed to a user who has no token document
    is marked read. *)
Definition unread_record : NotificationData :=
  mkNotificationData (Some "U1") None (Some "Hello") (Some "Hi") None
    (Some "unread") None None None None.

Definition read_record : NotificationData :=
  mkNotificationData (Some "U1") None (Some "Hello") (Some "Hi") None
    (Some "read") None None None None.

Definition store_without_tokens : Store :=
  mkStore (<["N1" := read_record]> ∅) ∅ ∅ ∅.

(** ** What a generator run is expected to issue *)

(** The event a notification record reminds of: the [eventId] of its
    metadata. *)
Definition reminder_event (d : NotificationData) : option string :=
  match metadata d with
  | Some md =>
      match own_property md "eventId" with
      | Some (JString eventId) => Some eventId
      | _ => None
      end
  | None => None
  end.

(** The call creates a notification record for the event. *)
Definition notifies (eventId : string) (c : Call) : bool :=
  match c with
  | CallAdd _ d => bool_decide (reminder_event d = Some eventId)
  | _ => false
  end.

(** The call creates a notification record addressed to [user]. *)
Definition addressed_to (user : string) (c : Call) : bool :=
  match c with
  | CallAdd _ d => bool_decide (recipientId d = Some user)
  | _ => false
  end.

(** The writes of a batch on the event document [eventId]. *)
Definition updates_of (eventId : string) (batch : list BatchUpdate)
  : list BatchUpdate :=
  List.filter (fun u => String.eqb (update_ref u) eventId) batch.

(** The call commits a batch with a write on the event document. *)
Definition flags (eventId : string) (c : Call) : bool :=
  match c with
  | CallCommit batch => negb (Nat.eqb (List.length (updates_of eventId batch)) 0)
  | _ => false
  end.

Definition attendee_adds (now : Timestamp) (eventId : string) (event : EventData)
    (ids : list string) : list Call :=
  map (fun attendeeId =>
         CallAdd "user_notifications" (attendee_reminder now eventId event attendeeId))
      ids.

(** The [add] calls of one turn of the loop that runs to its end. *)
Definition event_adds (now : Timestamp) (eventDoc : string * EventData) : list Call :=
  if truthy_bool (reminderSent (snd eventDoc)) then []
  else
    (if truthy_string (creatorId (snd eventDoc))
     then [CallAdd "creator_notifications"
             (creator_reminder now (fst eventDoc) (snd eventDoc))]
     else [])
    ++ attendee_adds now (fst eventDoc) (snd eventDoc)
         (default [] (attendees (snd eventDoc))).

(** The batch writes of one turn of the loop. *)
Definition event_updates (eventDoc : string * EventData) : list BatchUpdate :=
  if truthy_bool (reminderSent (snd eventDoc)) then []
  else [mkBatchUpdate (fst eventDoc) true].

(** The documents the query of a run at [now] answers with. *)
Definition selected (now : Timestamp) (s : Store) : list (string * EventData) :=
  events_between (oneHourLater now) (twoHoursLater now) (events s).

(** Every external call of the schedule succeeds. *)
Definition all_succeed (sched : list Outcome) : Prop :=
  Forall (fun o => o = Succeeds) sched.

(** A timestamp as nanoseconds since the epoch, and the range its
    nanoseconds field is in. *)
Definition epoch_nanos (t : Timestamp) : Z :=
  seconds t * 1000000000 + nanoseconds t.

Definition valid_timestamp (t : Timestamp) : Prop :=
  0 <= nanoseconds t < 1000000000.

(** No promise of the list has rejected. *)
Definition fulfilled (promises : list Promise) : Prop :=
  Forall (fun p => p = Fulfilled) promises.

(** The batch writes that the calls commit. *)
Definition batch_writes (cs : list Call) : list BatchUpdate :=
  flat_map (fun c => match c with CallCommit batch => batch | _ => [] end) cs.

(** ** Runs of the loop *)

(** How the next [n] external calls behave. *)
Definition outcomes (n : nat) (sched : list Outcome) : list Outcome :=
  map (fun i => default Succeeds (sched !! i)) (seq 0 n).

(** What the promises of un-awaited calls that behave as [os] reject
    with. *)
Definition rejected (os : list Outcome) : gmultiset Error :=
  list_to_set_disj
    (flat_map (fun o => match o with
                        | Rejects => [AddFailed]
                        | Succeeds | Throws => []
                        end) os).

(** The SDK lets the call through. *)
Definition accepted (c : Call) : bool :=
  match c with
  | CallAdd _ d => negb (refused d)
  | _ => true
  end.

(** From [w] to [w'] the creations [cs] were issued, each let through
    by the SDK and each taking its behaviour from the schedule; their
    rejections are unhandled; and nothing else but the notification
    collections changed. *)
Definition frame (w w' : World) (cs : list Call) : Prop :=
  calls w' = calls w ++ cs /\
  events (db w') = events (db w) /\
  user_tokens (db w') = user_tokens (db w) /\
  console w' = console w /\
  schedule w' = drop (List.length cs) (schedule w) /\
  unhandled w' = unhandled w ⊎ rejected (outcomes (List.length cs) (schedule w)) /\
  forallb accepted cs = true.

(** [m] run in [w] issues a prefix of [plan] and changes nothing but
    the notification collections; when it returns it has issued all of
    [plan] and its value satisfies [Q]; what it throws is the failure
    of a creation; and when every call of the schedule succeeds and the
    SDK lets all of [plan] through it does return, with a value that
    satisfies [G]. *)
Definition runs {A} (m : M A) (w : World) (plan : list Call) (Q G : A -> Prop)
  : Prop :=
  exists r w' cs,
    m w = (r, w') /\ frame w w' cs /\ cs `prefix_of` plan /\
    (forall a, r = Ok a -> cs = plan /\ Q a) /\
    (forall e, r = Thrown e -> e = AddFailed) /\
    (all_succeed (schedule w) -> forallb accepted plan = true ->
     all_succeed (schedule w') /\ exists a, r = Ok a /\ G a).

(** Every reminder a run at [now] has to create is one the SDK lets
    through: each document of the answer that was not reminded of yet
    has a name and a venue address (its start it has, or it would not
    be in the answer). *)
Definition reminders_accepted (now : Timestamp) (s : Store) : Prop :=
  forall id e,
    (id, e) ∈ selected now s -> reminderSent e <> Some true ->
    is_Some (name e) /\ is_Some (venueAddress e).

(** ** Scenarios *)

(** A record with the metadata of the spec's flattening example, and a
    [type] key on top. *)
Definition sample_metadata : JsObject :=
  [ ("a", JNumber (Number_of_Z 1));
    ("fullDescription", JString "a long text");
    ("b", JObject [("x", JNumber (Number_of_Z 1))]);
    ("type", JString "promo") ].

Definition sample_notification : NotificationData :=
  mkNotificationData (Some "U1") None (Some "Hello") (Some "Hi") (Some "chat")
    (Some "unread") None (Some sample_metadata) (Some "chat/1") None.

(** A store in which U1 has a token, two unread records and a read
    one. *)
Definition token_store : Store :=
  mkStore
    (<["N1" := sample_notification]>
       (<["N2" := read_record]> (<["N3" := unread_record]> ∅)))
    ∅
    (<["U1" := mkTokenDoc (Some "tok")]> ∅)
    ∅.

Definition token_world : World := mkWorld token_store [] [] [] ∅.

(** The spec's scenario for the generator: the event Launch starts 90
    minutes after the run. *)
Definition run_time : Timestamp := mkTimestamp 1700000000 0.

Definition launch_event : EventData :=
  mkEventData (Some "C1") (Some "Launch")
    (Some (mkTimestamp (1700000000 + 5400) 0)) (Some "Pier 1") (Some false)
    (Some ["U1"; "U2"]).

(** An event of the same window that was reminded of already, and one
    whose creator is also listed twice as an attendee. *)
Definition reminded_event : EventData :=
  mkEventData (Some "C2") (Some "Dinner")
    (Some (mkTimestamp (1700000000 + 3600) 0)) (Some "Main St") (Some true)
    (Some ["U3"]).

Definition crowded_event : EventData :=
  mkEventData (Some "U7") (Some "Quiz")
    (Some (mkTimestamp (1700000000 + 7200) 0)) (Some "Pub") None
    (Some ["U7"; "U8"; "U7"]).

Definition events_store : Store :=
  mkStore ∅ ∅ ∅
    (<["E1" := launch_event]>
       (<["E2" := reminded_event]> (<["E3" := crowded_event]> ∅))).

Definition events_world : World := mkWorld events_store [] [] [] ∅.

(** The same store when the query and the seven [add] calls succeed
    and the commit of the batch is rejected. *)
Definition commit_failure_world : World :=
  mkWorld events_store [] [] (repeat Succeeds 8 ++ [Rejects]) ∅.

(** The same store when the first [add] returns a promise that rejects
    and the commit of the batch is rejected too. *)
Definition escaping_world : World :=
  mkWorld events_store [] []
    (Succeeds :: Rejects :: repeat Succeeds 6 ++ [Rejects]) ∅.

(** The event Launch with the fields the spec's scenario gives it: the
    document has no venue address.  It is alone in the store. *)
Definition scenario_event : EventData :=
  mkEventData (Some "C1") (Some "Launch")
    (Some (mkTimestamp (1700000000 + 5400) 0)) None (Some false)
    (Some ["U1"; "U2"]).

Definition scenario_world : World :=
  mkWorld (mkStore ∅ ∅ ∅ (<["E1" := scenario_event]> ∅)) [] [] [] ∅.

(** An event whose creator is listed twice as an attendee, the document
    having no venue address. *)
Definition repeated_event : EventData :=
  mkEventData (Some "U7") (Some "Quiz")
    (Some (mkTimestamp (1700000000 + 7200) 0)) None None
    (Some ["U7"; "U8"; "U7"]).

Definition repeated_world : World :=
  mkWorld (mkStore ∅ ∅ ∅ (<["E3" := repeated_event]> ∅)) [] [] [] ∅.

(** An event that starts [offset] nanoseconds after [run_time]. *)
Definition event_starting_after (offset : Z) : EventData :=
  mkEventData None None
    (Some (mkTimestamp (1700000000 + offset / 1000000000) (offset mod 1000000000)))
    None None None.

(** ** Vocabulary for the further properties *)

Definition is_add (c : Call) : bool :=
  match c with CallAdd _ _ => true | _ => false end.

Definition is_commit (c : Call) : bool :=
  match c with CallCommit _ => true | _ => false end.

(** The line comes from a [console.error]. *)
Definition is_error (l : LogLine) : bool :=
  match l with LogError _ _ => true | Log _ => false end.

(** The lines [m] writes to the console when run in [w]. *)
Definition logged_by {A} (m : M A) (w : World) : list LogLine :=
  drop (List.length (console w)) (console (snd (m w))).

(** The keys of the fixed fields of the data payload. *)
Definition fixed_keys : list string :=
  ["notificationId"; "type"; "click_action"; "actionLink"].

(** The keys the metadata block leaves out. *)
Definition stripped_keys : list string := ["fullDescription"; "fullContent"].

(** A collection the two document triggers fire for and ignore. *)
Definition events_collection : string := "events".

(** Each of the calls [m] issues when run in [w] succeeds. *)
Definition issued_calls_succeed {A} (m : M A) (w : World) : Prop :=
  forall i, (i < List.length (issued_by m w))%nat -> outcome_at i w = Succeeds.

(** The event is due at a run at [now]: its start is in the window of
    the run and it was not reminded of yet. *)
Definition due (now : Timestamp) (e : EventData) : bool :=
  in_window (oneHourLater now) (twoHoursLater now) e &&
  negb (truthy_bool (reminderSent e)).

(** The event document after its reminder was sent at [now]. *)
Definition remind (now : Timestamp) (e : EventData) : EventData :=
  if due now e then set_reminderSent true e else e.

(** A store whose only event of the window was reminded of already. *)
Definition reminded_world : World :=
  mkWorld (mkStore ∅ ∅ ∅ (<["E2" := reminded_event]> ∅)) [] [] [] ∅.

(** An event document without its [reminderSent] field. *)
Definition erase_flag (e : EventData) : EventData :=
  mkEventData (creatorId e) (name e) (startTime e) (venueAddress e) None
              (attendees e).

(** From [s] to [s'] every notification record was kept as it was, the
    token documents are the same, and the event documents are the same
    but for their [reminderSent] field. *)
Definition store_kept (s s' : Store) : Prop :=
  user_notifications s ⊆ user_notifications s' /\
  creator_notifications s ⊆ creator_notifications s' /\
  user_tokens s' = user_tokens s /\
  erase_flag <$> events s' = erase_flag <$> events s.

(** [m] keeps the store, in whatever world it runs. *)
Definition keeps_store {A} (m : M A) : Prop :=
  forall w, store_kept (db w) (db (snd (m w))).

Definition is_throw (o : Outcome) : bool :=
  match o with Throws => true | _ => false end.

Definition is_success (o : Outcome) : bool :=
  match o with Succeeds => true | _ => false end.

(** The promise an [add] returns when it does not throw. *)
Definition promise_of (o : Outcome) : Promise :=
  match o with
  | Succeeds => Fulfilled
  | Throws | Rejects => Rejected AddFailed
  end.

(** The number of records a complete run at [now] creates, how the
    calls that create them behave (they come right after the query),
    and how the commit that follows them behaves. *)
Definition creations (now : Timestamp) (w : World) : nat :=
  List.length (flat_map (event_adds now) (selected now (db w))).

Definition creation_outcomes (now : Timestamp) (w : World) : list Outcome :=
  outcomes (creations now w) (tail (schedule w)).

Definition commit_outcome (now : Timestamp) (w : World) : Outcome :=
  outcome_at (S (creations now w)) w.

(** The world in which the query was answered. *)
Definition after_query (now : Timestamp) (w : World) : World :=
  mkWorld (db w)
    (calls w ++ [CallQueryEvents (oneHourLater now) (twoHoursLater now)])
    (console w) (tail (schedule w)) (unhandled w).

(** The event store with the same events when one creation is rejected
    or thrown and the rest succeeds. *)
Definition rejected_creation_world : World :=
  mkWorld events_store [] [] [Succeeds; Succeeds; Rejects] ∅.

Definition thrown_creation_world : World :=
  mkWorld events_store [] [] [Succeeds; Succeeds; Throws] ∅.

(** The number of creations in [collection] among the calls. *)
Definition adds_to (collection : string) (cs : list Call) : nat :=
  List.length
    (List.filter
       (fun c => match c with
                 | CallAdd c' _ => String.eqb c' collection
                 | _ => false
                 end) cs).

(** From [w] to [w'], with every call succeeding: the calls [cs] were
    issued, the records whose creations are among them are in the
    store, each collection has grown by the number of its creations,
    and the rest of the store was kept. *)
Definition created (w w' : World) (cs : list Call) : Prop :=
  all_succeed (schedule w') /\
  calls w' = calls w ++ cs /\
  store_kept (db w) (db w') /\
  (forall collection d,
     CallAdd collection d ∈ cs ->
     exists id, notification_collection collection (db w') !! id = Some d) /\
  (forall collection,
     is_notification_collection collection = true ->
     size (notification_collection collection (db w'))
     = (size (notification_collection collection (db w)) + adds_to collection cs)%nat).

(** When every call succeeds, the records whose creations [m] issues
    are in the store when [m] ends, however it ends. *)
Definition creates {A} (m : M A) : Prop :=
  forall w, all_succeed (schedule w) -> exists cs, created w (snd (m w)) cs.

(** The event store when the query is rejected. *)
Definition query_failure_world : World := mkWorld events_store [] [] [Rejects] ∅.

(** * Properties *)

(** ** The [try] blocks of the handlers *)

Lemma try_catch_returns {A} (body : M A) (label : string) (v : A) (w : World) :
  exists a, fst (try_catch body (fun e => console_error label e ;; ret v) w) = Ok a.
Proof.
  unfold try_catch. destruct (body w) as [[a | e] w']; simpl; eauto.
Qed.

Lemma try_catch_thrown {A} (body : M A) (label : string) (v : A) (w : World) e :
  fst (body w) = Thrown e ->
  try_catch body (fun e => console_error label e ;; ret v) w
  = (Ok v, mkWorld (db (snd (body w))) (calls (snd (body w)))
                   (console (snd (body w)) ++ [LogError label e])
                   (schedule (snd (body w))) (unhandled (snd (body w)))).
Proof.
  unfold try_catch. destruct (body w) as [[a | e'] w']; simpl; [discriminate |].
  intros [= ->]. reflexivity.
Qed.

Lemma handler_is_try_catch (t : Trigger) :
  handler t
  = try_catch (handler_body t) (fun e => console_error (catch_label t) e ;; ret RNull).
Proof. destruct t; reflexivity. Qed.

(** The token lookup of a body can fail, so the [catch] is not idle. *)
Example body_can_throw :
  fst (sendNotificationToUser_body "user_notifications" "N1"
         (mkNotificationData (Some "U1") None None None None None None None None None)
         (mkWorld (mkStore ∅ ∅ ∅ ∅) [] [] [Rejects] ∅))
  = Thrown GetFailed.
Proof. reflexivity. Qed.

(** Whatever the trigger, the store and the behaviour of the external
    calls, a handler returns a value to its caller: nothing is thrown
    out of it.  When its body throws, the handler writes the error to
    the console after its label and returns [null], and does nothing
    else.  The rejection of a promise the body never awaited is not
    thrown in the body: it stays in [unhandled]. *)
Lemma handler_returns (t : Trigger) (w : World) :
  exists v, fst (handler t w) = Ok v /\
    forall e, fst (handler_body t w) = Thrown e ->
      v = RNull /\
      console (snd (handler t w))
        = console (snd (handler_body t w)) ++ [LogError (catch_label t) e] /\
      calls (snd (handler t w)) = calls (snd (handler_body t w)) /\
      db (snd (handler t w)) = db (snd (handler_body t w)).
Proof.
  rewrite handler_is_try_catch.
  destruct (fst (handler_body t w)) as [a | e] eqn:Hbody.
  - destruct (try_catch_returns (handler_body t) (catch_label t) RNull w) as [v Hv].
    exists v. split; [exact Hv | intros e [=]].
  - rewrite (try_catch_thrown _ _ _ _ _ Hbody). simpl.
    exists RNull. split; [reflexivity |].
    intros e' [= <-]. repeat split.
Qed.

(** ** The data payload *)

Lemma own_property_delete (key k : string) (o : JsObject) :
  own_property (delete_property key o) k
  = if String.eqb key k then None else own_property o k.
Proof.
  induction o as [| [k0 v0] o IH]; simpl.
  - destruct (String.eqb key k); reflexivity.
  - destruct (String.eqb k0 key) eqn:Hk0; simpl.
    + apply String.eqb_eq in Hk0. subst k0. rewrite IH.
      destruct (String.eqb key k); reflexivity.
    + rewrite IH. destruct (String.eqb k0 k) eqn:Hk; [| reflexivity].
      apply String.eqb_eq in Hk. subst k0.
      rewrite String.eqb_sym, Hk0. reflexivity.
Qed.

Lemma own_property_keys (o : JsObject) (k : string) :
  k ∈ Object_keys o <-> is_Some (own_property o k).
Proof.
  unfold Object_keys. induction o as [| [k0 v0] o IH]; simpl.
  - split; [intros H; inversion H | intros [x [=]]].
  - rewrite elem_of_cons, IH. destruct (String.eqb k0 k) eqn:Hk.
    + apply String.eqb_eq in Hk. split; eauto.
    + apply String.eqb_neq in Hk. split; [intros [-> | H]; [congruence | exact H] |].
      intros H. right. exact H.
Qed.

Lemma fold_insert_lookup (f : string -> string) (keys : list string)
    (init : gmap string string) (k : string) :
  fold_left (fun data key => <[key := f key]> data) keys init !! k
  = if decide (k ∈ keys) then Some (f k) else init !! k.
Proof.
  revert init. induction keys as [| k0 keys IH]; intros init; simpl.
  - destruct (decide (k ∈ [])) as [H | _]; [inversion H | reflexivity].
  - rewrite IH. destruct (decide (k ∈ keys)) as [Hin | Hnin].
    + rewrite decide_True by (right; exact Hin). reflexivity.
    + destruct (decide (k0 = k)) as [-> | Hne].
      * rewrite lookup_insert_eq, decide_True by left. reflexivity.
      * rewrite lookup_insert_ne by exact Hne.
        rewrite decide_False; [reflexivity |].
        intros H. apply elem_of_cons in H as [-> | H]; [congruence | contradiction].
Qed.

(** The payload after the metadata block, key by key. *)
Lemma add_metadata_lookup (md : JsObject) (init : gmap string string) (k : string) :
  add_metadata md init !! k
  = if String.eqb "fullContent" k || String.eqb "fullDescription" k then init !! k
    else match own_property md k with
         | Some v => Some (data_string v)
         | None => init !! k
         end.
Proof.
  unfold add_metadata.
  rewrite (fold_insert_lookup
             (fun key => data_string
                (get_property (delete_property "fullContent"
                                 (delete_property "fullDescription" md)) key))).
  unfold get_property.
  destruct (decide (k ∈ _)) as [Hin | Hnin].
  - apply own_property_keys in Hin as [v Hv]. rewrite Hv.
    rewrite !own_property_delete in Hv.
    destruct (String.eqb "fullContent" k); [discriminate |].
    destruct (String.eqb "fullDescription" k); [discriminate |].
    simpl. rewrite Hv. reflexivity.
  - rewrite own_property_keys in Hnin.
    rewrite !own_property_delete in Hnin.
    destruct (String.eqb "fullContent" k); [reflexivity |].
    destruct (String.eqb "fullDescription" k); [reflexivity |].
    simpl. destruct (own_property md k) as [v |]; [| reflexivity].
    exfalso. apply Hnin. eauto.
Qed.

Lemma fixed_fields_lookup (nid : string) (n : NotificationData) (k : string) :
  fixed_fields nid n !! k
  = if String.eqb k "actionLink" then Some (or_empty (actionLink n))
    else if String.eqb k "click_action" then Some "FLUTTER_NOTIFICATION_CLICK"
    else if String.eqb k "type" then Some (or_empty (type n))
    else if String.eqb k "notificationId" then Some nid
    else None.
Proof.
  unfold fixed_fields.
  repeat match goal with
  | |- context [String.eqb k ?x] =>
      destruct (String.eqb_spec k x) as [-> | ?];
      [ repeat (rewrite lookup_insert_ne by discriminate);
        rewrite lookup_insert_eq; reflexivity
      | rewrite (lookup_insert_ne _ x k) by congruence ]
  end.
  apply lookup_empty.
Qed.

(** ** What the dispatcher issues *)

Ltac run_M :=
  unfold messaging_send, get_user_token, query_unread, query_events;
  unfold await_call;
  unfold console_log, console_error, issue, next_outcome, read_db, write_db,
    try_catch, bind, ret, throw; simpl.

Ltac issued_done :=
  simpl; rewrite <- ?app_assoc;
  first [ apply drop_all | apply drop_app_length ].

Lemma dispatcher_issued (collection nid : string) (n : NotificationData) (w : World) :
  issued_by (sendNotificationToUser collection nid n) w
  = if negb (is_notification_collection collection) then []
    else match truthy (recipientId n) with
         | None => []
         | Some r =>
             CallGetToken r ::
             match outcome_at 0 w with
             | Succeeds =>
                 match user_tokens (db w) !! r with
                 | Some d =>
                     match truthy (token d) with
                     | Some tok => [CallSend (notification_message nid n tok)]
                     | None => []
                     end
                 | None => []
                 end
             | Throws | Rejects => []
             end
         end.
Proof.
  unfold issued_by, sendNotificationToUser, sendNotificationToUser_body, outcome_at.
  destruct (negb (is_notification_collection collection)); [run_M; issued_done |].
  destruct (truthy (recipientId n)) as [r |]; [| run_M; issued_done].
  run_M. destruct (schedule w) as [| [| |] sched]; simpl; try issued_done.
  - destruct (user_tokens (db w) !! r) as [d |]; simpl; [| issued_done].
    destruct (truthy (token d)) as [tok |]; simpl; issued_done.
  - destruct (user_tokens (db w) !! r) as [d |]; simpl; [| issued_done].
    destruct (truthy (token d)) as [tok |]; simpl; [| issued_done].
    destruct sched as [| [| |] sched]; simpl; issued_done.
Qed.

Lemma truthy_Some (x : option string) (s : string) :
  truthy x = Some s <-> x = Some s /\ s <> EmptyString.
Proof.
  unfold truthy. destruct x as [s' |]; [| split; [discriminate | intros [[=] _]]].
  destruct (String.eqb_spec s' EmptyString) as [-> | Hne].
  - split; [discriminate | intros [[= <-] H]; congruence].
  - split; [intros [= ->]; auto | intros [[= ->] _]; reflexivity].
Qed.

Lemma truthy_None (x : option string) :
  truthy x = None <-> x = None \/ x = Some EmptyString.
Proof.
  unfold truthy. destruct x as [s' |]; [| split; auto].
  destruct (String.eqb_spec s' EmptyString) as [-> | Hne].
  - split; auto.
  - split; [discriminate | intros [[=] | [= ->]]; congruence].
Qed.

(** Every message the dispatcher sends is the one built from the
    record, for the token that was looked up. *)
Lemma dispatcher_sends_notification_message
    (collection nid : string) (n : NotificationData) (w : World) (m : Message) :
  CallSend m ∈ issued_by (sendNotificationToUser collection nid n) w ->
  exists r d tok,
    truthy (recipientId n) = Some r /\ user_tokens (db w) !! r = Some d /\
    truthy (token d) = Some tok /\ m = notification_message nid n tok.
Proof.
  rewrite dispatcher_issued.
  destruct (negb (is_notification_collection collection)); [intros H; inversion H |].
  destruct (truthy (recipientId n)) as [r |] eqn:Hr; [| intros H; inversion H].
  intros H. apply elem_of_cons in H as [[=] | H].
  destruct (outcome_at 0 w); try (inversion H; fail).
  destruct (user_tokens (db w) !! r) as [d |] eqn:Hd; [| inversion H].
  destruct (truthy (token d)) as [tok |] eqn:Htok; [| inversion H].
  apply list_elem_of_singleton in H as [= ->].
  exists r, d, tok. repeat split; assumption.
Qed.

(** C2. For the creation of a record in one of the two notification
    collections, in a token store whose document ids are not empty and
    when the token lookup is answered: the dispatcher sends at most
    once, and it sends (exactly once) if and only if the record's
    recipientId is set and the token store holds a non-empty token for
    that recipient. *)
Theorem push_iff_recipient_and_token
    (collection nid : string) (n : NotificationData) (w : World) :
  is_notification_collection collection = true ->
  user_tokens (db w) !! EmptyString = None ->
  outcome_at 0 w = Succeeds ->
  (sends (issued_by (sendNotificationToUser collection nid n) w) = 1%nat
   <-> deliverable n (db w)) /\
  (sends (issued_by (sendNotificationToUser collection nid n) w) <= 1)%nat.
Proof.
  intros Hcoll Hids Hget. rewrite dispatcher_issued, Hcoll, Hget. simpl.
  unfold deliverable, sends.
  destruct (truthy (recipientId n)) as [r |] eqn:Hr.
  - apply truthy_Some in Hr as [Hr Hne].
    destruct (user_tokens (db w) !! r) as [d |] eqn:Hd.
    + destruct (truthy (token d)) as [tok |] eqn:Htok.
      * apply truthy_Some in Htok as [Htok Hnet]. simpl. split; [| lia].
        split; [intros _; exists r, d, tok; repeat split; assumption | reflexivity].
      * simpl. split; [| lia]. split; [discriminate |].
        intros (r' & d' & tok & Hr' & Hd' & Htok' & Hnet).
        rewrite Hr in Hr'. injection Hr' as <-. rewrite Hd in Hd'. injection Hd' as <-.
        apply truthy_None in Htok as [Htok | Htok]; congruence.
    + simpl. split; [| lia]. split; [discriminate |].
      intros (r' & d' & tok & Hr' & Hd' & _). congruence.
  - simpl. split; [| lia]. split; [discriminate |].
    intros (r' & d' & tok & Hr' & Hd' & _).
    apply truthy_None in Hr as [Hr | Hr]; congruence.
Qed.

(** The string a metadata value is sent as, kind by kind. *)
Lemma data_string_cases (v : JsValue) :
  data_string v
  = match v with
    | JUndefined => "undefined"
    | JNull => "null"
    | JBool true => "true"
    | JBool false => "false"
    | JNumber x => Number_toString x
    | JString s => s
    | JArray _ | JObject _ => JSON_stringify v
    end.
Proof. destruct v as [| | [|] | | | |]; reflexivity. Qed.

(** C7. The data payload of every message the dispatcher sends for a
    record with metadata has no [fullDescription] and no [fullContent]
    key, and holds every other metadata key with its value as a string:
    a string as it is, a boolean as [true] or [false], [null] and
    [undefined] by their names, a number as [Number::toString] prints
    the double, and an array or an object as its JSON text. *)
Theorem metadata_flattened
    (collection nid : string) (n : NotificationData) (w : World)
    (m : Message) (md : JsObject) :
  CallSend m ∈ issued_by (sendNotificationToUser collection nid n) w ->
  metadata n = Some md ->
  msg_data m !! "fullDescription" = None /\
  msg_data m !! "fullContent" = None /\
  forall k v,
    own_property md k = Some v ->
    k <> "fullDescription" -> k <> "fullContent" ->
    msg_data m !! k
    = Some match v with
           | JUndefined => "undefined"
           | JNull => "null"
           | JBool true => "true"
           | JBool false => "false"
           | JNumber x => Number_toString x
           | JString s => s
           | JArray _ | JObject _ => JSON_stringify v
           end.
Proof.
  intros Hsend Hmd.
  apply dispatcher_sends_notification_message in Hsend
    as (r & d & tok & _ & _ & _ & ->).
  simpl. unfold messageData. rewrite Hmd.
  split; [| split].
  - rewrite add_metadata_lookup. simpl. apply fixed_fields_lookup.
  - rewrite add_metadata_lookup. simpl. apply fixed_fields_lookup.
  - intros k v Hv Hd Hc. rewrite add_metadata_lookup, Hv.
    destruct (String.eqb_spec "fullContent" k) as [<- | _]; [congruence |].
    destruct (String.eqb_spec "fullDescription" k) as [<- | _]; [congruence |].
    simpl. rewrite data_string_cases. reflexivity.
Qed.

(** C9. In every message the dispatcher sends, the metadata block has
    been applied on top of the fixed fields: a metadata key named
    [notificationId], [type], [click_action] or [actionLink] names a
    fixed field, which the payload would hold as the record's id, its
    [type], the routing marker or its [actionLink]; the payload holds
    the metadata value instead, as a string: a string as it is, a
    boolean as [true] or [false], [null] and [undefined] by their
    names, a number as [Number::toString] prints the double, and an
    array or an object as its JSON text. *)
Theorem metadata_overwrites_fixed_fields
    (collection nid : string) (n : NotificationData) (w : World)
    (m : Message) (md : JsObject) (k : string) (v : JsValue) :
  CallSend m ∈ issued_by (sendNotificationToUser collection nid n) w ->
  metadata n = Some md ->
  own_property md k = Some v ->
  k ∈ ["notificationId"; "type"; "click_action"; "actionLink"] ->
  msg_data m = add_metadata md (fixed_fields nid n) /\
  fixed_fields nid n !! k
  = Some (if String.eqb k "notificationId" then nid
          else if String.eqb k "type" then or_empty (type n)
          else if String.eqb k "click_action" then "FLUTTER_NOTIFICATION_CLICK"
          else or_empty (actionLink n)) /\
  msg_data m !! k
  = Some match v with
         | JUndefined => "undefined"
         | JNull => "null"
         | JBool true => "true"
         | JBool false => "false"
         | JNumber x => Number_toString x
         | JString s => s
         | JArray _ | JObject _ => JSON_stringify v
         end.
Proof.
  intros Hsend Hmd Hv Hk.
  apply dispatcher_sends_notification_message in Hsend
    as (r & d & tok & _ & _ & _ & ->).
  simpl. unfold messageData. rewrite Hmd. split; [reflexivity |].
  rewrite add_metadata_lookup, Hv, fixed_fields_lookup, data_string_cases.
  rewrite !elem_of_cons, elem_of_nil in Hk.
  destruct Hk as [-> | [-> | [-> | [-> | []]]]]; simpl; auto.
Qed.

(** ** What the badge synchronizer issues *)

Lemma badge_issued (collection : string) (b a : NotificationData) (w : World) :
  issued_by (updateBadgeCount collection b a) w
  = if negb (is_notification_collection collection) then []
    else if unread_to_other b a then
      match truthy (recipientId a) with
      | None => []
      | Some r =>
          CallQueryUnread collection r ::
          match outcome_at 0 w with
          | Succeeds =>
              CallGetToken r ::
              match outcome_at 1 w with
              | Succeeds =>
                  match user_tokens (db w) !! r with
                  | Some d =>
                      match truthy (token d) with
                      | Some tok =>
                          [CallSend
                             (badge_message tok
                                (List.length
                                   (map_to_list
                                      (filter (fun doc => is_unread_for r (snd doc) = true)
                                         (notification_collection collection (db w))))))]
                      | None => []
                      end
                  | None => []
                  end
              | Throws | Rejects => []
              end
          | Throws | Rejects => []
          end
      end
    else [].
Proof.
  unfold issued_by, updateBadgeCount, updateBadgeCount_body, outcome_at.
  destruct (negb (is_notification_collection collection)); [run_M; issued_done |].
  destruct (unread_to_other b a); [| run_M; issued_done].
  destruct (truthy (recipientId a)) as [r |]; [| run_M; issued_done].
  run_M.
  destruct (schedule w) as [| [| |] [| [| |] [| [| |] sched]]]; simpl;
    try issued_done;
    (destruct (user_tokens (db w) !! r) as [d |]; simpl; [| issued_done]);
    (destruct (truthy (token d)) as [tok |]; simpl; issued_done).
Qed.

Lemma is_unread_for_spec (r : string) (d : NotificationData) :
  is_unread_for r d = true <-> recipientId d = Some r /\ status d = Some "unread".
Proof.
  unfold is_unread_for. rewrite andb_true_iff, !bool_decide_eq_true. reflexivity.
Qed.

Lemma query_length_unread_count (collection r : string) (s : Store) :
  List.length
    (map_to_list (filter (fun doc => is_unread_for r (snd doc) = true)
                    (notification_collection collection s)))
  = unread_count collection r s.
Proof.
  unfold unread_count. rewrite length_map_to_list. f_equal.
  apply map_filter_ext. intros i x _. simpl. apply is_unread_for_spec.
Qed.

Lemma unread_to_other_spec (b a : NotificationData) :
  unread_to_other b a = true
  <-> status b = Some "unread" /\ status a <> Some "unread".
Proof.
  unfold unread_to_other.
  rewrite andb_true_iff, negb_true_iff, bool_decide_eq_true, bool_decide_eq_false.
  reflexivity.
Qed.

(** C3, as the spec states it, fails: the record goes from unread to
    read, and nothing is sent, because the recipient has no token
    document. *)
Lemma transition_without_token_sends_nothing :
  ~ (sends (issued_by (updateBadgeCount "user_notifications" unread_record read_record)
              (mkWorld store_without_tokens [] [] [] ∅)) = 1%nat
     <-> status unread_record = Some "unread" /\
         status read_record <> Some "unread").
Proof.
  intros [_ H]. discriminate H. split; [reflexivity | discriminate].
Qed.

(** C3, amended. For an update in one of the two notification
    collections, in a token store whose document ids are not empty and
    when the two store reads are answered: the synchronizer sends at
    most once, and it sends (exactly once) if and only if the status
    was unread before, is not unread after, and the record after the
    update is deliverable: its recipientId is set and a non-empty token
    is stored for that recipient. *)
Theorem badge_push_iff_transition_and_token
    (collection : string) (b a : NotificationData) (w : World) :
  is_notification_collection collection = true ->
  user_tokens (db w) !! EmptyString = None ->
  outcome_at 0 w = Succeeds ->
  outcome_at 1 w = Succeeds ->
  (sends (issued_by (updateBadgeCount collection b a) w) = 1%nat
   <-> status b = Some "unread" /\ status a <> Some "unread" /\
       deliverable a (db w)) /\
  (sends (issued_by (updateBadgeCount collection b a) w) <= 1)%nat.
Proof.
  intros Hcoll Hids Hq Hget. rewrite badge_issued, Hcoll, Hq, Hget. simpl.
  unfold deliverable, sends.
  destruct (unread_to_other b a) eqn:Htr.
  - apply unread_to_other_spec in Htr as [Hb Ha].
    destruct (truthy (recipientId a)) as [r |] eqn:Hr.
    + apply truthy_Some in Hr as [Hr Hne].
      destruct (user_tokens (db w) !! r) as [d |] eqn:Hd.
      * destruct (truthy (token d)) as [tok |] eqn:Htok.
        -- apply truthy_Some in Htok as [Htok Hnet]. simpl. split; [| lia].
           split; [intros _ | reflexivity].
           split; [exact Hb | split; [exact Ha |]].
           exists r, d, tok. repeat split; assumption.
        -- simpl. split; [| lia]. split; [discriminate |].
           intros (_ & _ & r' & d' & tok & Hr' & Hd' & Htok' & Hnet).
           rewrite Hr in Hr'. injection Hr' as <-.
           rewrite Hd in Hd'. injection Hd' as <-.
           apply truthy_None in Htok as [Htok | Htok]; congruence.
      * simpl. split; [| lia]. split; [discriminate |].
        intros (_ & _ & r' & d' & tok & Hr' & Hd' & _). congruence.
    + simpl. split; [| lia]. split; [discriminate |].
      intros (_ & _ & r' & d' & tok & Hr' & Hd' & _).
      apply truthy_None in Hr as [Hr | Hr]; congruence.
  - simpl. split; [| lia]. split; [discriminate |].
    intros (Hb & Ha & _).
    assert (unread_to_other b a = true) by (apply unread_to_other_spec; auto).
    congruence.
Qed.

(** C4. Every message the badge synchronizer sends carries, as its
    badge, the number of documents that the collection of the updated
    record holds, when the handler runs its query, with the record's
    recipientId and status unread. *)
Theorem badge_is_unread_count
    (collection : string) (b a : NotificationData) (w : World) (m : Message) :
  CallSend m ∈ issued_by (updateBadgeCount collection b a) w ->
  exists r,
    recipientId a = Some r /\
    CallQueryUnread collection r ∈ issued_by (updateBadgeCount collection b a) w /\
    aps_badge (msg_apns m) = unread_count collection r (db w).
Proof.
  rewrite badge_issued.
  destruct (negb (is_notification_collection collection)); [intros H; inversion H |].
  destruct (unread_to_other b a); [| intros H; inversion H].
  destruct (truthy (recipientId a)) as [r |] eqn:Hr; [| intros H; inversion H].
  apply truthy_Some in Hr as [Hr _].
  intros H. exists r. split; [exact Hr |]. split; [left |].
  apply elem_of_cons in H as [[=] | H].
  destruct (outcome_at 0 w); try (inversion H; fail).
  apply elem_of_cons in H as [[=] | H].
  destruct (outcome_at 1 w); try (inversion H; fail).
  destruct (user_tokens (db w) !! r) as [d |]; [| inversion H].
  destruct (truthy (token d)) as [tok |]; [| inversion H].
  apply list_elem_of_singleton in H as [= ->]. simpl.
  apply query_length_unread_count.
Qed.

(** ** What the generator issues *)

Lemma outcomes_S (n : nat) (sched : list Outcome) :
  outcomes (S n) sched = default Succeeds (head sched) :: outcomes n (tail sched).
Proof.
  unfold outcomes. simpl. f_equal.
  - destruct sched; reflexivity.
  - rewrite <- seq_shift, map_map. apply map_ext. intros i.
    destruct sched; reflexivity.
Qed.

Lemma outcomes_app (a b : nat) :
  forall sched, outcomes (a + b) sched = outcomes a sched ++ outcomes b (drop a sched).
Proof.
  induction a as [| a IH]; intros sched.
  - rewrite drop_0. reflexivity.
  - change (S a + b)%nat with (S (a + b)). rewrite !outcomes_S, IH.
    rewrite <- app_comm_cons. do 2 f_equal.
    destruct sched; simpl; rewrite ?drop_nil; reflexivity.
Qed.

(** Rejections that found a subscriber are unhandled no more. *)
Lemma taken_up (X Y : gmultiset Error) : (X ⊎ Y) ∖ Y = X.
Proof.
  apply gmultiset_eq. intros x.
  rewrite multiplicity_difference, multiplicity_disj_union. lia.
Qed.

Lemma rejected_app (os1 os2 : list Outcome) :
  rejected (os1 ++ os2) = rejected os1 ⊎ rejected os2.
Proof. unfold rejected. rewrite flat_map_app. apply list_to_set_disj_app. Qed.

Lemma rejected_nil : rejected [] = ∅.
Proof. reflexivity. Qed.

Lemma frame_refl (w : World) : frame w w [].
Proof.
  unfold frame. simpl.
  change (rejected (outcomes 0 (schedule w))) with (∅ : gmultiset Error).
  rewrite app_nil_r, drop_0, (right_id_L ∅ (⊎)). repeat split.
Qed.

Lemma frame_trans (w1 w2 w3 : World) (cs1 cs2 : list Call) :
  frame w1 w2 cs1 -> frame w2 w3 cs2 -> frame w1 w3 (cs1 ++ cs2).
Proof.
  unfold frame.
  intros (Hc1 & He1 & Ht1 & Hl1 & Hs1 & Hu1 & Ha1)
         (Hc2 & He2 & Ht2 & Hl2 & Hs2 & Hu2 & Ha2).
  rewrite Hc2, Hc1, He2, He1, Ht2, Ht1, Hl2, Hl1, app_assoc.
  rewrite length_app, outcomes_app, rejected_app, forallb_app, Ha1, Ha2.
  rewrite Hs2, Hs1, drop_drop, Hu2, Hu1, Hs1, (assoc_L (⊎)).
  repeat split.
Qed.

Lemma all_succeed_next (w : World) :
  all_succeed (schedule w) ->
  outcome_at 0 w = Succeeds /\ all_succeed (tail (schedule w)).
Proof.
  unfold all_succeed, outcome_at. destruct (schedule w) as [| o sched]; simpl.
  - auto.
  - intros H. inversion H; subst. auto.
Qed.

Lemma runs_ret {A} (a : A) (w : World) (Q G : A -> Prop) :
  Q a -> G a -> runs (ret a) w [] Q G.
Proof.
  intros HQ HG. exists (Ok a), w, []. split; [reflexivity |].
  split; [apply frame_refl |]. split; [apply prefix_nil |].
  split; [intros a' [= <-]; auto |]. split; [discriminate | eauto].
Qed.

Lemma runs_bind {A B} (m : M A) (k : A -> M B) (w : World)
    (plan1 plan2 : list Call) (Q1 G1 : A -> Prop) (Q2 G2 : B -> Prop) :
  runs m w plan1 Q1 G1 ->
  (forall a w', Q1 a -> runs (k a) w' plan2 Q2 (fun b => G1 a -> G2 b)) ->
  runs (bind m k) w (plan1 ++ plan2) Q2 G2.
Proof.
  intros (r & w1 & cs1 & Hm & Hf1 & Hp1 & Hok1 &Herr1 & Hgood1) Hk.
  unfold runs, bind. rewrite Hm. destruct r as [a | e].
  - destruct (Hok1 a eq_refl) as [-> HQ1].
    destruct (Hk a w1 HQ1)
      as (r2 & w2 & cs2 & Hk2 & Hf2 & Hp2 & Hok2 & Herr2 & Hgood2).
    exists r2, w2, (plan1 ++ cs2). split; [exact Hk2 |].
    split; [eapply frame_trans; eauto |].
    split; [apply prefix_app; exact Hp2 |].
    split; [| split; [exact Herr2 |]].
    + intros b Hb. destruct (Hok2 b Hb) as [-> HQ2]. auto.
    + intros Hall Hacc. rewrite forallb_app in Hacc.
      apply andb_true_iff in Hacc as [Hacc1 Hacc2].
      destruct (Hgood1 Hall Hacc1) as (Hall1 & a' & [= <-] & HG1).
      destruct (Hgood2 Hall1 Hacc2) as (Hall2 & b & Hb & HG2). eauto.
  - exists (Thrown e), w1, cs1. split; [reflexivity |].
    split; [exact Hf1 |]. split; [apply prefix_app_r; exact Hp1 |].
    split; [discriminate |].
    split; [intros e' [= <-]; exact (Herr1 e eq_refl) |].
    intros Hall Hacc. rewrite forallb_app in Hacc.
    apply andb_true_iff in Hacc as [Hacc1 _].
    destruct (Hgood1 Hall Hacc1) as (_ & a & [=] & _).
Qed.

Lemma runs_weaken {A} (m : M A) (w : World) (plan plan' : list Call)
    (Q G Q' G' : A -> Prop) :
  runs m w plan Q G -> plan = plan' ->
  (forall a, Q a -> Q' a) -> (forall a, Q a -> G a -> G' a) ->
  runs m w plan' Q' G'.
Proof.
  intros (r & w' & cs & Hm & Hf & Hp & Hok & Herr & Hgood) <- HQ HG.
  exists r, w', cs. split; [exact Hm |]. split; [exact Hf |]. split; [exact Hp |].
  split; [| split; [exact Herr |]].
  - intros a Ha. destruct (Hok a Ha) as [Hcs HQa]. auto.
  - intros Hall Hacc. destruct (Hgood Hall Hacc) as (Hall' & a & Ha & HGa).
    split; [exact Hall' |]. exists a. split; [exact Ha |].
    apply HG; [apply (Hok a Ha) | exact HGa].
Qed.

Lemma insert_notification_frame (collection : string) (d : NotificationData)
    (s : Store) :
  events (insert_notification collection d s) = events s /\
  user_tokens (insert_notification collection d s) = user_tokens s.
Proof.
  unfold insert_notification.
  destruct (String.eqb collection "user_notifications"); [auto |].
  destruct (String.eqb collection "creator_notifications"); auto.
Qed.

(** An [add], by what the SDK makes of the document and by the
    behaviour of the call. *)
Lemma collection_add_cases (collection : string) (d : NotificationData) (w : World) :
  collection_add collection d w
  = if refused d then (Thrown AddFailed, w)
    else
      match default Succeeds (head (schedule w)) with
      | Succeeds =>
          (Ok Fulfilled,
           mkWorld (insert_notification collection d (db w))
             (calls w ++ [CallAdd collection d]) (console w) (tail (schedule w))
             (unhandled w))
      | Throws =>
          (Thrown AddFailed,
           mkWorld (db w) (calls w ++ [CallAdd collection d]) (console w)
             (tail (schedule w)) (unhandled w))
      | Rejects =>
          (Ok (Rejected AddFailed),
           mkWorld (db w) (calls w ++ [CallAdd collection d]) (console w)
             (tail (schedule w)) ({[+ AddFailed +]} ⊎ unhandled w))
      end.
Proof.
  unfold collection_add. destruct (refused d); [reflexivity |].
  unfold bind, issue, next_outcome, read_db, write_db, reject_unhandled, ret, throw.
  simpl. destruct (schedule w) as [| [| |] sched]; reflexivity.
Qed.

Lemma collection_add_runs (collection : string) (d : NotificationData) (w : World) :
  runs (collection_add collection d) w [CallAdd collection d]
    (fun _ => True) (fun p => p = Fulfilled).
Proof.
  unfold runs. rewrite collection_add_cases.
  destruct (refused d) eqn:Href.
  - exists (Thrown AddFailed), w, []. split; [reflexivity |].
    split; [apply frame_refl |]. split; [apply prefix_nil |].
    split; [discriminate |]. split; [intros e [= <-]; reflexivity |].
    intros _ Hacc. simpl in Hacc. rewrite Href in Hacc. discriminate.
  - assert (Hframe : forall s u,
              events s = events (db w) -> user_tokens s = user_tokens (db w) ->
              u = unhandled w ⊎ rejected (outcomes 1 (schedule w)) ->
              frame w (mkWorld s (calls w ++ [CallAdd collection d]) (console w)
                         (tail (schedule w)) u) [CallAdd collection d]).
    { intros s u He Ht Hu. unfold frame. simpl. rewrite Href.
      repeat split; assumption. }
    pose proof (insert_notification_frame collection d (db w)) as [Hie Hit].
    rewrite outcomes_S in Hframe. unfold rejected in Hframe. simpl in Hframe.
    unfold all_succeed.
    destruct (schedule w) as [| o sched] eqn:Hs; [| destruct o]; simpl in *.
    + eexists _, _, [CallAdd collection d]. split; [reflexivity |].
      split; [apply Hframe; auto; rewrite (right_id_L ∅ (⊎)); reflexivity |].
      split; [reflexivity |]. split; [auto |]. split; [discriminate |]. eauto.
    + eexists _, _, [CallAdd collection d]. split; [reflexivity |].
      split; [apply Hframe; auto; rewrite (right_id_L ∅ (⊎)); reflexivity |].
      split; [reflexivity |]. split; [auto |]. split; [discriminate |].
      intros H _. inversion H; subst. eauto.
    + eexists _, _, [CallAdd collection d]. split; [reflexivity |].
      split; [apply Hframe; auto; rewrite (right_id_L ∅ (⊎)); reflexivity |].
      split; [reflexivity |]. split; [discriminate |].
      split; [intros e [= <-]; reflexivity |].
      intros H _. inversion H; subst. discriminate.
    + eexists _, _, [CallAdd collection d]. split; [reflexivity |].
      split; [apply Hframe; auto; rewrite (right_id_L ∅ (⊎)), (comm_L (⊎));
              reflexivity |].
      split; [reflexivity |]. split; [auto |]. split; [discriminate |].
      intros H _. inversion H; subst. discriminate.
Qed.

(** An [add] that the SDK lets through and that succeeds creates one
    document, under an id the collection did not use, and keeps the
    others. *)
Lemma add_creates_one_document (collection : string) (d : NotificationData)
    (w : World) :
  is_notification_collection collection = true ->
  refused d = false ->
  outcome_at 0 w = Succeeds ->
  fst (collection_add collection d w) = Ok Fulfilled /\
  exists id,
    notification_collection collection (db w) !! id = None /\
    notification_collection collection (db (snd (collection_add collection d w)))
    = <[id := d]> (notification_collection collection (db w)) /\
    size (notification_collection collection (db (snd (collection_add collection d w))))
    = S (size (notification_collection collection (db w))).
Proof.
  unfold is_notification_collection, outcome_at.
  intros Hcoll Href Hnext. rewrite collection_add_cases, Href.
  assert (Hhead : default Succeeds (head (schedule w)) = Succeeds).
  { destruct (schedule w); [reflexivity | exact Hnext]. }
  rewrite Hhead. simpl. split; [reflexivity |].
  assert (Hfresh : forall m : gmap string NotificationData, m !! fresh (dom m) = None).
  { intros m. apply not_elem_of_dom. apply is_fresh. }
  unfold insert_notification, notification_collection.
  destruct (String.eqb collection "user_notifications") eqn:Hu; simpl in *;
    rewrite ?Hcoll; simpl;
    eexists; (split; [apply Hfresh |]);
    rewrite map_size_insert_None by apply Hfresh; auto.
Qed.

Lemma remind_attendees_runs (now : Timestamp) (eventId : string) (event : EventData)
    (ids : list string) :
  forall (promises : list Promise) (w : World),
    runs (remind_attendees now eventId event ids promises) w
      (attendee_adds now eventId event ids)
      (fun _ => True)
      (fun ps => fulfilled promises -> fulfilled ps).
Proof.
  induction ids as [| a ids IH]; intros promises w; simpl.
  - apply runs_ret; auto.
  - change (CallAdd "user_notifications" (attendee_reminder now eventId event a)
            :: attendee_adds now eventId event ids)
      with ([CallAdd "user_notifications" (attendee_reminder now eventId event a)]
            ++ attendee_adds now eventId event ids).
    eapply runs_bind; [apply collection_add_runs |].
    intros p w' _. eapply runs_weaken; [apply IH | reflexivity | auto |].
    intros ps _ Hps -> Hpromises. apply Hps.
    apply Forall_app. split; [exact Hpromises | repeat constructor].
Qed.

Lemma remind_event_runs (now : Timestamp) (eventDoc : string * EventData)
    (batch : list BatchUpdate) (promises : list Promise) (w : World) :
  runs (remind_event now eventDoc batch promises) w
    (event_adds now eventDoc)
    (fun st => fst st = batch ++ event_updates eventDoc)
    (fun st => fulfilled promises -> fulfilled (snd st)).
Proof.
  unfold remind_event, event_adds, event_updates.
  destruct (truthy_bool (reminderSent (snd eventDoc))).
  - apply runs_ret; simpl; [rewrite app_nil_r; reflexivity | auto].
  - eapply runs_bind with
      (Q1 := fun _ => True)
      (G1 := fun ps => fulfilled promises -> fulfilled ps).
    + destruct (truthy_string (creatorId (snd eventDoc))).
      * rewrite <- (app_nil_r [CallAdd _ _]).
        eapply runs_bind; [apply collection_add_runs |].
        intros p w' _. apply runs_ret; [exact I |].
        intros -> Hpromises. apply Forall_app.
        split; [exact Hpromises | repeat constructor].
      * apply runs_ret; auto.
    + intros ps1 w1 _.
      rewrite <- (app_nil_r (attendee_adds _ _ _ _)).
      eapply runs_bind with
        (Q1 := fun _ => True)
        (G1 := fun ps => fulfilled ps1 -> fulfilled ps).
      * destruct (attendees (snd eventDoc)) as [ids |]; simpl.
        -- destruct ids as [| a ids]; simpl.
           ++ apply runs_ret; auto.
           ++ apply (remind_attendees_runs now (fst eventDoc) (snd eventDoc) (a :: ids)).
        -- apply runs_ret; auto.
      * intros ps2 w2 _. apply runs_ret; simpl; [reflexivity | auto].
Qed.

Lemma remind_events_runs (now : Timestamp) (docs : list (string * EventData)) :
  forall (batch : list BatchUpdate) (promises : list Promise) (w : World),
    runs (remind_events now docs batch promises) w
      (flat_map (event_adds now) docs)
      (fun st => fst st = batch ++ flat_map event_updates docs)
      (fun st => fulfilled promises -> fulfilled (snd st)).
Proof.
  induction docs as [| eventDoc docs IH]; intros batch promises w; simpl.
  - apply runs_ret; simpl; [rewrite app_nil_r; reflexivity | auto].
  - eapply runs_bind; [apply remind_event_runs |].
    intros st w' Hst. simpl in Hst.
    eapply runs_weaken; [apply IH | reflexivity | |].
    + intros st' ->. rewrite Hst, <- app_assoc. reflexivity.
    + intros st' _ Hgood Hprev Hpromises. auto.
Qed.

Lemma first_rejection_world (promises : list Promise) (w : World) :
  snd (first_rejection promises w) = w.
Proof.
  induction promises as [| [| e] promises IH]; simpl; auto.
Qed.

(** [Promise.all] changes nothing but the unhandled rejections: those
    of the promises it is given are taken up. *)
Lemma Promise_all_world (promises : list Promise) (w : World) :
  db (snd (Promise_all promises w)) = db w /\
  calls (snd (Promise_all promises w)) = calls w /\
  console (snd (Promise_all promises w)) = console w /\
  schedule (snd (Promise_all promises w)) = schedule w /\
  unhandled (snd (Promise_all promises w))
  = unhandled w ∖ list_to_set_disj (rejections promises).
Proof.
  unfold Promise_all, bind, subscribe.
  set (w1 := mkWorld _ _ _ _ _).
  pose proof (first_rejection_world promises w1) as Hw.
  destruct (first_rejection promises w1) as [r w2]. simpl in *. subst w2.
  repeat split.
Qed.

Lemma first_rejection_fulfilled (promises : list Promise) (w : World) :
  fulfilled promises -> first_rejection promises w = (Ok tt, w).
Proof.
  induction 1 as [| p promises -> _ IH]; simpl; auto.
Qed.

Lemma Promise_all_fulfilled (promises : list Promise) (w : World) :
  fulfilled promises -> fst (Promise_all promises w) = Ok tt.
Proof.
  intros H. unfold Promise_all, bind, subscribe.
  rewrite (first_rejection_fulfilled _ _ H). reflexivity.
Qed.

Lemma batch_commit_run (batch : list BatchUpdate) (w : World) :
  exists r w',
    batch_commit batch w = (r, w') /\
    calls w' = calls w ++ [CallCommit batch] /\
    console w' = console w /\
    user_tokens (db w') = user_tokens (db w) /\
    schedule w' = tail (schedule w) /\
    unhandled w' = unhandled w /\
    (events (db w') = events (db w) \/
     r = Ok tt /\ events (db w') = fold_left apply_update batch (events (db w))) /\
    (outcome_at 0 w = Succeeds ->
     Forall (fun u => is_Some (events (db w) !! update_ref u)) batch ->
     r = Ok tt /\ events (db w') = fold_left apply_update batch (events (db w))).
Proof.
  unfold batch_commit, outcome_at. run_M.
  assert (Hall : forallb (fun u => bool_decide (is_Some (events (db w) !! update_ref u))) batch
                 = false ->
                 ~ Forall (fun u => is_Some (events (db w) !! update_ref u)) batch).
  { intros Hall HF. apply not_true_iff_false in Hall. apply Hall.
    apply forallb_forall. intros u Hu. apply bool_decide_eq_true.
    rewrite Forall_forall in HF. apply HF. apply list_elem_of_In. exact Hu. }
  destruct (schedule w) as [| [| |] sched]; simpl;
    try (destruct (forallb _ batch); simpl; [clear Hall | specialize (Hall eq_refl)]);
    eexists _, _; (split; [reflexivity |]); simpl;
    repeat (split; [reflexivity |]);
    (split; [tauto | intros; try discriminate; tauto]).
Qed.

Lemma remind_selected_unfold (now : Timestamp) (docs : list (string * EventData))
    (w : World) :
  docs <> [] ->
  remind_selected now docs w
  = match remind_events now docs [] []
            (mkWorld (db w) (calls w)
               (console w ++ [Log ("Found " +:+ pretty (List.length docs)
                                   +:+ " events for reminders")])
               (schedule w) (unhandled w)) with
    | (Ok st, w1) =>
        match batch_commit (fst st) w1 with
        | (Ok _, w2) =>
            match Promise_all (snd st) w2 with
            | (Ok _, w3) =>
                (Ok RSuccess,
                 mkWorld (db w3) (calls w3)
                   (console w3 ++ [Log ("Sent " +:+ pretty (List.length (snd st))
                                        +:+ " reminder notifications")])
                   (schedule w3) (unhandled w3))
            | (Thrown e, w3) => (Thrown e, w3)
            end
        | (Thrown e, w2) => (Thrown e, w2)
        end
    | (Thrown e, w1) => (Thrown e, w1)
    end.
Proof.
  destruct docs as [| d0 docs]; [congruence |]. intros _.
  unfold remind_selected, bind, console_log, ret.
  destruct (remind_events _ _ _ _ _) as [[st | e] w1]; [| reflexivity].
  destruct (batch_commit _ _) as [[[] | e] w2]; [| reflexivity].
  destruct (Promise_all _ _) as [[[] | e] w3]; reflexivity.
Qed.

Lemma updates_exist (docs : list (string * EventData)) (evs : gmap string EventData) :
  (forall doc, doc ∈ docs -> evs !! fst doc = Some (snd doc)) ->
  Forall (fun u => is_Some (evs !! update_ref u)) (flat_map event_updates docs).
Proof.
  intros Hdocs. apply Forall_forall. intros u Hu.
  apply list_elem_of_In, in_flat_map in Hu as (doc & Hdoc & Hu).
  apply list_elem_of_In in Hdoc. unfold event_updates in Hu.
  destruct (truthy_bool (reminderSent (snd doc))); [inversion Hu |].
  destruct Hu as [<- | []]. simpl. rewrite (Hdocs doc Hdoc). eauto.
Qed.

Lemma remind_selected_run (now : Timestamp) (docs : list (string * EventData))
    (w : World) :
  (forall doc, doc ∈ docs -> events (db w) !! fst doc = Some (snd doc)) ->
  exists r w' adds tl,
    remind_selected now docs w = (r, w') /\
    calls w' = calls w ++ adds ++ tl /\
    user_tokens (db w') = user_tokens (db w) /\
    adds `prefix_of` flat_map (event_adds now) docs /\
    (tl = [] \/ tl = [CallCommit (flat_map event_updates docs)]) /\
    (events (db w') = events (db w) \/
     events (db w')
     = fold_left apply_update (flat_map event_updates docs) (events (db w))) /\
    (all_succeed (schedule w) -> docs <> [] ->
     forallb accepted (flat_map (event_adds now) docs) = true ->
     adds = flat_map (event_adds now) docs /\
     tl = [CallCommit (flat_map event_updates docs)] /\
     events (db w')
     = fold_left apply_update (flat_map event_updates docs) (events (db w)) /\
     r = Ok RSuccess).
Proof.
  intros Hdocs. destruct (decide (docs = [])) as [-> | Hne].
  - exists (Ok RNull), (mkWorld (db w) (calls w)
      (console w ++ [Log "No upcoming events found for reminders"]) (schedule w)
      (unhandled w)), [], [].
    split; [reflexivity |]. simpl. rewrite app_nil_r.
    repeat split; auto using prefix_nil; congruence.
  - rewrite (remind_selected_unfold now docs w Hne).
    set (w0 := mkWorld _ _ _ _ _).
    destruct (remind_events_runs now docs [] [] w0)
      as (r1 & w1 & cs & Hrun & (Hc1 & He1 & Ht1 & _) & Hp & Hok & _ & Hgood).
    rewrite Hrun. simpl in Hc1, He1, Ht1.
    destruct r1 as [st | e].
    + destruct (Hok st eq_refl) as [-> Hbatch]. simpl in Hbatch.
      destruct (batch_commit_run (fst st) w1)
        as (r2 & w2 & Hcommit & Hc2 & _ & Ht2 & Hs2 & _ & He2 & Hgood2).
      rewrite Hcommit. rewrite Hbatch in *.
      assert (Hcalls : calls w2 = calls w ++ flat_map (event_adds now) docs
                                  ++ [CallCommit (flat_map event_updates docs)]).
      { rewrite Hc2, Hc1, <- app_assoc. reflexivity. }
      assert (Hev : events (db w2) = events (db w) \/
                    events (db w2) = fold_left apply_update
                                       (flat_map event_updates docs) (events (db w))).
      { rewrite <- He1. destruct He2 as [-> | [_ ->]]; auto. }
      assert (Hfree : all_succeed (schedule w) ->
                forallb accepted (flat_map (event_adds now) docs) = true ->
                r2 = Ok tt /\
                events (db w2) = fold_left apply_update
                                   (flat_map event_updates docs) (events (db w)) /\
                fulfilled (snd st)).
      { intros Hall Hacc.
        destruct (Hgood Hall Hacc) as (Hall1 & st' & [= <-] & Hful).
        destruct (all_succeed_next w1 Hall1) as [Hnext _].
        destruct (Hgood2 Hnext) as [-> Hev2].
        { rewrite He1. apply updates_exist. exact Hdocs. }
        rewrite Hev2, He1. repeat split. apply Hful. constructor. }
      destruct r2 as [[] | e].
      * destruct (Promise_all_world (snd st) w2) as (Hd3 & Hc3 & _).
        destruct (Promise_all (snd st) w2) as [[[] | e] w3] eqn:Hpa;
          simpl in Hd3, Hc3.
        -- eexists _, _, _, _. split; [reflexivity |]. simpl.
           rewrite Hd3, Hc3.
           split; [exact Hcalls |]. split; [congruence |].
           split; [reflexivity |]. split; [right; reflexivity |].
           split; [exact Hev |].
           intros Hall _ Hacc. destruct (Hfree Hall Hacc) as (_ & Hev2 & _). auto.
        -- eexists _, _, _, _. split; [reflexivity |].
           rewrite Hd3, Hc3.
           split; [exact Hcalls |]. split; [congruence |].
           split; [reflexivity |]. split; [right; reflexivity |].
           split; [exact Hev |].
           intros Hall _ Hacc. destruct (Hfree Hall Hacc) as (_ & _ & Hful).
           pose proof (Promise_all_fulfilled _ w2 Hful) as Hok2.
           rewrite Hpa in Hok2. discriminate.
      * eexists _, _, _, _. split; [reflexivity |].
        split; [exact Hcalls |]. split; [congruence |].
        split; [reflexivity |]. split; [right; reflexivity |].
        split; [exact Hev |].
        intros Hall _ Hacc. destruct (Hfree Hall Hacc) as ([=] & _).
    + exists (Thrown e), w1, cs, []. split; [reflexivity |].
      rewrite app_nil_r. split; [exact Hc1 |]. split; [exact Ht1 |].
      split; [exact Hp |]. split; [left; reflexivity |].
      split; [left; exact He1 |].
      intros Hall _ Hacc. destruct (Hgood Hall Hacc) as (_ & st & [=] & _).
Qed.

Lemma try_catch_world {A} (body : M A) (label : string) (v : A) (w : World) :
  calls (snd (try_catch body (fun e => console_error label e ;; ret v) w))
  = calls (snd (body w)) /\
  db (snd (try_catch body (fun e => console_error label e ;; ret v) w))
  = db (snd (body w)) /\
  forall a, fst (body w) = Ok a ->
    fst (try_catch body (fun e => console_error label e ;; ret v) w) = Ok a.
Proof.
  unfold try_catch. destruct (body w) as [[a | e] w']; simpl; auto.
  repeat split. discriminate.
Qed.

Lemma events_between_lookup (lo hi : Timestamp) (evs : gmap string EventData)
    (doc : string * EventData) :
  doc ∈ events_between lo hi evs <->
  evs !! fst doc = Some (snd doc) /\ in_window lo hi (snd doc) = true.
Proof.
  unfold events_between.
  rewrite (merge_sort_Permutation answer_order).
  rewrite elem_of_map_to_list', map_lookup_filter_Some. reflexivity.
Qed.

Lemma selected_lookup (now : Timestamp) (s : Store) (doc : string * EventData) :
  doc ∈ selected now s <->
  events s !! fst doc = Some (snd doc) /\
  in_window (oneHourLater now) (twoHoursLater now) (snd doc) = true.
Proof. apply events_between_lookup. Qed.

Lemma selected_NoDup (now : Timestamp) (s : Store) :
  NoDup (map fst (selected now s)).
Proof.
  unfold selected, events_between.
  rewrite (merge_sort_Permutation answer_order). apply NoDup_fst_map_to_list.
Qed.

Lemma sendEventReminders_body_unfold (now : Timestamp) (w : World) :
  sendEventReminders_body now w
  = match outcome_at 0 w with
    | Succeeds =>
        remind_selected now (selected now (db w))
          (mkWorld (db w)
             (calls w ++ [CallQueryEvents (oneHourLater now) (twoHoursLater now)])
             (console w) (tail (schedule w)) (unhandled w))
    | Throws | Rejects =>
        (Thrown QueryFailed,
         mkWorld (db w)
           (calls w ++ [CallQueryEvents (oneHourLater now) (twoHoursLater now)])
           (console w) (tail (schedule w)) (unhandled w))
    end.
Proof.
  unfold sendEventReminders_body, query_events, await_call, outcome_at, selected.
  unfold bind, issue, next_outcome, read_db, ret, throw. simpl.
  destruct (schedule w) as [| [| |] sched]; reflexivity.
Qed.

(** What the loop has for a document is let through by the SDK when
    the document has its name and its venue address. *)
Lemma refused_reminder (now : Timestamp) (eventId : string) (event : EventData) :
  refused (creator_reminder now eventId event)
  = negb (bool_decide (is_Some (name event)) &&
          bool_decide (is_Some (startTime event)) &&
          bool_decide (is_Some (venueAddress event))) /\
  forall a, refused (attendee_reminder now eventId event a)
            = refused (creator_reminder now eventId event).
Proof.
  split; [| reflexivity].
  unfold refused. simpl.
  destruct (name event), (startTime event), (venueAddress event); reflexivity.
Qed.

Lemma accepted_event_adds (now : Timestamp) (doc : string * EventData) :
  (truthy_bool (reminderSent (snd doc)) = false ->
   is_Some (name (snd doc)) /\ is_Some (startTime (snd doc)) /\
   is_Some (venueAddress (snd doc))) ->
  forallb accepted (event_adds now doc) = true.
Proof.
  intros Hfields. apply forallb_forall. intros c Hc.
  apply list_elem_of_In in Hc. unfold event_adds in Hc.
  destruct (truthy_bool (reminderSent (snd doc))); [inversion Hc |].
  destruct (Hfields eq_refl) as (Hn & Hs & Hv).
  destruct (refused_reminder now (fst doc) (snd doc)) as [Hcreator Hattendee].
  assert (Hok : refused (creator_reminder now (fst doc) (snd doc)) = false).
  { rewrite Hcreator, !bool_decide_eq_true_2 by assumption. reflexivity. }
  apply elem_of_app in Hc as [Hc | Hc].
  - destruct (truthy_string (creatorId (snd doc))); [| inversion Hc].
    apply list_elem_of_singleton in Hc as ->. simpl. rewrite Hok. reflexivity.
  - apply list_elem_of_fmap in Hc as (a & -> & _). simpl.
    rewrite Hattendee, Hok. reflexivity.
Qed.

Lemma reminders_accepted_plan (now : Timestamp) (s : Store) :
  reminders_accepted now s ->
  forallb accepted (flat_map (event_adds now) (selected now s)) = true.
Proof.
  intros Hacc. apply forallb_forall. intros c Hc.
  apply in_flat_map in Hc as ([id e] & Hdoc & Hc).
  apply list_elem_of_In in Hdoc.
  assert (Hall : forallb accepted (event_adds now (id, e)) = true).
  { apply accepted_event_adds. simpl. intros Hflag.
    destruct (Hacc id e Hdoc) as [Hn Hv].
    { intros Hyes. rewrite Hyes in Hflag. discriminate. }
    apply selected_lookup in Hdoc as [_ Hwin]. simpl in Hwin.
    unfold in_window in Hwin.
    destruct (startTime e); [eauto | discriminate]. }
  rewrite forallb_forall in Hall. exact (Hall c Hc).
Qed.

(** A run of the generator: the query, then a prefix of the expected
    [add] calls, then the commit of the expected batch or nothing; and
    all of them when every call succeeds and the SDK lets every
    reminder through. *)
Lemma generator_run (now : Timestamp) (w : World) :
  exists adds tl,
    issued_by (sendEventReminders now) w
    = CallQueryEvents (oneHourLater now) (twoHoursLater now) :: adds ++ tl /\
    adds `prefix_of` flat_map (event_adds now) (selected now (db w)) /\
    (tl = [] \/ tl = [CallCommit (flat_map event_updates (selected now (db w)))]) /\
    (events (db (snd (sendEventReminders now w))) = events (db w) \/
     events (db (snd (sendEventReminders now w)))
     = fold_left apply_update (flat_map event_updates (selected now (db w)))
         (events (db w))) /\
    user_tokens (db (snd (sendEventReminders now w))) = user_tokens (db w) /\
    (all_succeed (schedule w) -> selected now (db w) <> [] ->
     reminders_accepted now (db w) ->
     adds = flat_map (event_adds now) (selected now (db w)) /\
     tl = [CallCommit (flat_map event_updates (selected now (db w)))] /\
     events (db (snd (sendEventReminders now w)))
     = fold_left apply_update (flat_map event_updates (selected now (db w)))
         (events (db w)) /\
     fst (sendEventReminders now w) = Ok RSuccess).
Proof.
  unfold issued_by, sendEventReminders.
  destruct (try_catch_world (sendEventReminders_body now)
              "Error sending event reminders:" RNull w) as (-> & -> & Hret).
  rewrite sendEventReminders_body_unfold in *.
  destruct (outcome_at 0 w) eqn:Hq.
  - set (w1 := mkWorld _ _ _ _ _) in *.
    destruct (remind_selected_run now (selected now (db w)) w1)
      as (r & w' & adds & tl & Hrun & Hc & Ht & Hp & Htl & Hev & Hfree).
    { intros doc Hdoc. apply selected_lookup in Hdoc as [Hdoc _]. exact Hdoc. }
    rewrite Hrun in *. simpl in *. exists adds, tl.
    split; [rewrite Hc; simpl; rewrite <- app_assoc; apply drop_app_length |].
    split; [exact Hp |]. split; [exact Htl |]. split; [exact Hev |].
    split; [exact Ht |].
    intros Hall Hne Hacc. destruct (all_succeed_next w Hall) as [_ Hall1].
    destruct (Hfree Hall1 Hne (reminders_accepted_plan now (db w) Hacc))
      as (? & ? & ? & ->).
    repeat (split; [assumption |]). apply Hret. reflexivity.
  - exists [], []. simpl. split; [apply drop_app_length |].
    split; [apply prefix_nil |]. split; [auto |]. split; [auto |].
    split; [reflexivity |].
    intros Hall. destruct (all_succeed_next w Hall) as [Hq' _]. congruence.
  - exists [], []. simpl. split; [apply drop_app_length |].
    split; [apply prefix_nil |]. split; [auto |]. split; [auto |].
    split; [reflexivity |].
    intros Hall. destruct (all_succeed_next w Hall) as [Hq' _]. congruence.
Qed.


(** ** The calls of a run, event by event *)

Lemma filter_all {A} (f : A -> bool) (l : list A) :
  (forall x, x ∈ l -> f x = true) -> List.filter f l = l.
Proof.
  induction l as [| x l IH]; intros H; simpl; [reflexivity |].
  rewrite (H x) by left. rewrite IH; [reflexivity |].
  intros y Hy. apply H. right. exact Hy.
Qed.

Lemma filter_none {A} (f : A -> bool) (l : list A) :
  (forall x, x ∈ l -> f x = false) -> List.filter f l = [].
Proof.
  induction l as [| x l IH]; intros H; simpl; [reflexivity |].
  rewrite (H x) by left. apply IH.
  intros y Hy. apply H. right. exact Hy.
Qed.

Section per_event.
Context {B : Type} (p : string -> B -> bool) (g : string * EventData -> list B).
Hypothesis p_key :
  forall (doc : string * EventData) (eventId : string) (x : B),
    x ∈ g doc -> p eventId x = String.eqb (fst doc) eventId.

Lemma filter_other_events (docs : list (string * EventData)) (eventId : string) :
  eventId ∉ map fst docs -> List.filter (p eventId) (flat_map g docs) = [].
Proof.
  induction docs as [| doc docs IH]; intros Hnin; simpl; [reflexivity |].
  rewrite List.filter_app, IH.
  - rewrite app_nil_r. apply filter_none. intros x Hx.
    rewrite (p_key doc eventId x Hx). apply String.eqb_neq.
    intros Heq. apply Hnin. simpl. apply elem_of_cons. left. symmetry. exact Heq.
  - intros Hin. apply Hnin. simpl. apply elem_of_cons. right. exact Hin.
Qed.

Lemma filter_this_event (docs : list (string * EventData)) (eventId : string)
    (event : EventData) :
  NoDup (map fst docs) -> (eventId, event) ∈ docs ->
  List.filter (p eventId) (flat_map g docs) = g (eventId, event).
Proof.
  induction docs as [| doc docs IH]; intros Hnd Hin; [inversion Hin |].
  simpl in *. apply NoDup_cons in Hnd as [Hfresh Hnd].
  rewrite List.filter_app.
  apply elem_of_cons in Hin as [<- | Hin].
  - rewrite (filter_other_events docs eventId Hfresh), app_nil_r.
    apply filter_all. intros x Hx. rewrite (p_key _ eventId x Hx).
    apply String.eqb_refl.
  - rewrite (IH Hnd Hin).
    rewrite filter_none; [reflexivity |].
    intros x Hx. rewrite (p_key doc eventId x Hx). apply String.eqb_neq.
    intros Heq. apply Hfresh. rewrite Heq.
    apply (list_elem_of_fmap_2 fst docs (eventId, event)). exact Hin.
Qed.
End per_event.

Lemma reminder_event_creator (now : Timestamp) (eventId : string) (event : EventData) :
  reminder_event (creator_reminder now eventId event) = Some eventId.
Proof. reflexivity. Qed.

Lemma reminder_event_attendee (now : Timestamp) (eventId : string) (event : EventData)
    (a : string) :
  reminder_event (attendee_reminder now eventId event a) = Some eventId.
Proof. reflexivity. Qed.

(** What is in the expected calls of one turn. *)
Lemma elem_of_event_adds (now : Timestamp) (doc : string * EventData) (c : Call) :
  c ∈ event_adds now doc ->
  truthy_bool (reminderSent (snd doc)) = false /\
  (c = CallAdd "creator_notifications" (creator_reminder now (fst doc) (snd doc)) \/
   exists a, c = CallAdd "user_notifications"
                   (attendee_reminder now (fst doc) (snd doc) a)).
Proof.
  unfold event_adds, attendee_adds.
  destruct (truthy_bool (reminderSent (snd doc))); [intros H; inversion H |].
  intros H. split; [reflexivity |].
  apply elem_of_app in H as [H | H].
  - destruct (truthy_string (creatorId (snd doc))); [| inversion H].
    apply list_elem_of_singleton in H. auto.
  - apply list_elem_of_fmap in H as (a & -> & _). eauto.
Qed.

Lemma notifies_event_adds (now : Timestamp) (doc : string * EventData)
    (eventId : string) (c : Call) :
  c ∈ event_adds now doc -> notifies eventId c = String.eqb (fst doc) eventId.
Proof.
  intros H. apply elem_of_event_adds in H as [_ [-> | [a ->]]]; simpl.
  - destruct (String.eqb_spec (fst doc) eventId) as [-> | Hne].
    + apply bool_decide_eq_true. reflexivity.
    + apply bool_decide_eq_false. unfold reminder_event. simpl. congruence.
  - destruct (String.eqb_spec (fst doc) eventId) as [-> | Hne].
    + apply bool_decide_eq_true. reflexivity.
    + apply bool_decide_eq_false. unfold reminder_event. simpl. congruence.
Qed.

Lemma update_ref_event_updates (doc : string * EventData) (eventId : string)
    (u : BatchUpdate) :
  u ∈ event_updates doc ->
  String.eqb (update_ref u) eventId = String.eqb (fst doc) eventId.
Proof.
  unfold event_updates.
  destruct (truthy_bool (reminderSent (snd doc))); [intros H; inversion H |].
  intros H. apply list_elem_of_singleton in H as ->. reflexivity.
Qed.

Lemma batch_writes_app (cs1 cs2 : list Call) :
  batch_writes (cs1 ++ cs2) = batch_writes cs1 ++ batch_writes cs2.
Proof. unfold batch_writes. apply flat_map_app. Qed.

Lemma batch_writes_adds (now : Timestamp) (docs : list (string * EventData))
    (adds : list Call) :
  adds `prefix_of` flat_map (event_adds now) docs -> batch_writes adds = [].
Proof.
  intros [k Hk]. unfold batch_writes.
  assert (Hall : forall c, c ∈ adds -> exists coll d, c = CallAdd coll d).
  { intros c Hc.
    assert (Hin : c ∈ flat_map (event_adds now) docs)
      by (rewrite Hk; apply elem_of_app; auto).
    apply list_elem_of_In, in_flat_map in Hin as (doc & _ & Hin).
    apply list_elem_of_In, elem_of_event_adds in Hin as [_ [-> | [a ->]]]; eauto. }
  clear Hk. induction adds as [| c adds IH]; [reflexivity |]. simpl.
  destruct (Hall c) as (coll & d & ->); [left |]. simpl.
  apply IH. intros c' Hc'. apply Hall. right. exact Hc'.
Qed.

(** ** The flag never goes back *)

Lemma dispatcher_db (collection nid : string) (n : NotificationData) (w : World) :
  db (snd (sendNotificationToUser collection nid n w)) = db w.
Proof.
  unfold sendNotificationToUser, sendNotificationToUser_body.
  destruct (negb (is_notification_collection collection)); [reflexivity |].
  destruct (truthy (recipientId n)) as [r |]; [| reflexivity].
  run_M. destruct (schedule w) as [| [| |] sched]; simpl; try reflexivity;
    (destruct (user_tokens (db w) !! r) as [d |]; simpl; [| reflexivity]);
    (destruct (truthy (token d)) as [tok |]; simpl; [| reflexivity]);
    try reflexivity.
  destruct sched as [| [| |] sched]; reflexivity.
Qed.

Lemma badge_db (collection : string) (b a : NotificationData) (w : World) :
  db (snd (updateBadgeCount collection b a w)) = db w.
Proof.
  unfold updateBadgeCount, updateBadgeCount_body.
  destruct (negb (is_notification_collection collection)); [reflexivity |].
  destruct (unread_to_other b a); [| reflexivity].
  destruct (truthy (recipientId a)) as [r |]; [| reflexivity].
  run_M.
  destruct (schedule w) as [| [| |] [| [| |] [| [| |] sched]]]; simpl;
    try reflexivity;
    (destruct (user_tokens (db w) !! r) as [d |]; simpl; [| reflexivity]);
    (destruct (truthy (token d)) as [tok |]; reflexivity).
Qed.

Lemma apply_updates_keep_flag (batch : list BatchUpdate) :
  forall (evs : gmap string EventData) (eventId : string) (event : EventData),
    Forall (fun u => update_reminderSent u = true) batch ->
    evs !! eventId = Some event -> reminderSent event = Some true ->
    exists event',
      fold_left apply_update batch evs !! eventId = Some event' /\
      reminderSent event' = Some true.
Proof.
  induction batch as [| u batch IH]; intros evs eventId event Hall Hev Hflag; simpl.
  - eauto.
  - inversion Hall as [| u' batch' Hu Hbatch]; subst.
    destruct (decide (update_ref u = eventId)) as [Heq | Hne].
    + apply (IH _ eventId (set_reminderSent (update_reminderSent u) event) Hbatch).
      * unfold apply_update. rewrite Heq, lookup_alter_eq, Hev. reflexivity.
      * simpl. rewrite Hu. reflexivity.
    + apply (IH _ eventId event Hbatch); [| exact Hflag].
      unfold apply_update. rewrite lookup_alter_ne by exact Hne. exact Hev.
Qed.

Lemma event_updates_set_true (docs : list (string * EventData)) :
  Forall (fun u => update_reminderSent u = true) (flat_map event_updates docs).
Proof.
  apply Forall_forall. intros u Hu.
  apply list_elem_of_In, in_flat_map in Hu as (doc & _ & Hu).
  unfold event_updates in Hu.
  destruct (truthy_bool (reminderSent (snd doc))); [inversion Hu |].
  destruct Hu as [<- | []]. reflexivity.
Qed.

Lemma handler_keeps_flag (t : Trigger) (w : World) (eventId : string)
    (event : EventData) :
  events (db w) !! eventId = Some event -> reminderSent event = Some true ->
  exists event',
    events (db (snd (handler t w))) !! eventId = Some event' /\
    reminderSent event' = Some true.
Proof.
  intros Hev Hflag. destruct t as [c i n | c b a | now]; simpl.
  - rewrite dispatcher_db. eauto.
  - rewrite badge_db. eauto.
  - destruct (generator_run now w) as (adds & tl & _ & _ & _ & [-> | ->] & _).
    + eauto.
    + eapply apply_updates_keep_flag; eauto using event_updates_set_true.
Qed.

Lemma run_all_keeps_flag (ts : list Trigger) :
  forall (w : World) (eventId : string) (event : EventData),
    events (db w) !! eventId = Some event -> reminderSent event = Some true ->
    exists event',
      events (db (run_all ts w)) !! eventId = Some event' /\
      reminderSent event' = Some true.
Proof.
  induction ts as [| t ts IH]; intros w eventId event Hev Hflag; simpl.
  - eauto.
  - destruct (handler_keeps_flag t w eventId event Hev Hflag) as (event1 & Hev1 & Hflag1).
    exact (IH _ eventId event1 Hev1 Hflag1).
Qed.

(** C1. For an event document whose [reminderSent] is true: a run of
    the generator issues no creation of a notification record for the
    event and no batch write on the event document, whatever the
    external calls do; and after any sequence of invocations of the
    three handlers the document is still there with [reminderSent]
    true. *)
Theorem flagged_events_are_left_alone
    (now : Timestamp) (ts : list Trigger) (w : World)
    (eventId : string) (event : EventData) :
  events (db w) !! eventId = Some event ->
  reminderSent event = Some true ->
  List.filter (notifies eventId) (issued_by (sendEventReminders now) w) = [] /\
  updates_of eventId (batch_writes (issued_by (sendEventReminders now) w)) = [] /\
  exists event',
    events (db (run_all ts w)) !! eventId = Some event' /\
    reminderSent event' = Some true.
Proof.
  intros Hev Hflag.
  split; [| split; [| exact (run_all_keeps_flag ts w eventId event Hev Hflag)]].
  - destruct (generator_run now w) as (adds & tl & -> & Hp & Htl & _).
    apply filter_none. intros c Hc.
    apply elem_of_cons in Hc as [-> | Hc]; [reflexivity |].
    apply elem_of_app in Hc as [Hc | Hc].
    + destruct Hp as [k Hk].
      assert (Hin : c ∈ flat_map (event_adds now) (selected now (db w)))
        by (rewrite Hk; apply elem_of_app; auto).
      apply list_elem_of_In, in_flat_map in Hin as (doc & Hdoc & Hin).
      apply list_elem_of_In in Hdoc, Hin.
      rewrite (notifies_event_adds now doc eventId c Hin).
      apply String.eqb_neq. intros Heq.
      apply elem_of_event_adds in Hin as [Hunflagged _].
      apply selected_lookup in Hdoc as [Hdoc _].
      rewrite Heq, Hev in Hdoc. injection Hdoc as Hdoc. rewrite <- Hdoc in Hunflagged.
      rewrite Hflag in Hunflagged. discriminate.
    + destruct Htl as [-> | ->]; [inversion Hc |].
      apply list_elem_of_singleton in Hc as ->. reflexivity.
  - destruct (generator_run now w) as (adds & tl & -> & Hp & Htl & _).
    change (CallQueryEvents (oneHourLater now) (twoHoursLater now) :: adds ++ tl)
      with ([CallQueryEvents (oneHourLater now) (twoHoursLater now)] ++ adds ++ tl).
    rewrite !batch_writes_app, (batch_writes_adds now _ adds Hp). simpl.
    destruct Htl as [-> | ->]; [reflexivity |]. simpl. rewrite app_nil_r.
    apply filter_none. intros u Hu.
    apply list_elem_of_In, in_flat_map in Hu as (doc & Hdoc & Hu).
    apply list_elem_of_In in Hdoc, Hu.
    rewrite (update_ref_event_updates doc eventId u Hu).
    apply String.eqb_neq. intros Heq.
    apply selected_lookup in Hdoc as [Hdoc _].
    rewrite Heq, Hev in Hdoc. injection Hdoc as Hdoc.
    unfold event_updates in Hu. rewrite <- Hdoc, Hflag in Hu. inversion Hu.
Qed.

(** ** A run in which every call succeeds *)

Lemma apply_updates_set_flag (batch : list BatchUpdate) :
  forall (evs : gmap string EventData) (eventId : string) (event : EventData),
    Forall (fun u => update_reminderSent u = true) batch ->
    mkBatchUpdate eventId true ∈ batch ->
    evs !! eventId = Some event ->
    exists event',
      fold_left apply_update batch evs !! eventId = Some event' /\
      reminderSent event' = Some true.
Proof.
  induction batch as [| u batch IH]; intros evs eventId event Hall Hin Hev;
    [inversion Hin |].
  inversion Hall as [| u' batch' Hu Hbatch]; subst. simpl.
  destruct (decide (update_ref u = eventId)) as [Heq | Hne].
  - apply (apply_updates_keep_flag batch _ eventId
             (set_reminderSent (update_reminderSent u) event) Hbatch).
    + unfold apply_update. rewrite Heq, lookup_alter_eq, Hev. reflexivity.
    + simpl. rewrite Hu. reflexivity.
  - apply elem_of_cons in Hin as [Heq | Hin]; [subst u; simpl in Hne; congruence |].
    apply (IH _ eventId event Hbatch Hin).
    unfold apply_update. rewrite lookup_alter_ne by exact Hne. exact Hev.
Qed.

(** When every call succeeds and the SDK lets every reminder through,
    what the run issues for a selected event is what one turn of the
    loop is expected to issue for it. *)
Lemma fault_free_event_calls (now : Timestamp) (w : World)
    (eventId : string) (event : EventData) :
  all_succeed (schedule w) ->
  reminders_accepted now (db w) ->
  (eventId, event) ∈ selected now (db w) ->
  List.filter (notifies eventId) (issued_by (sendEventReminders now) w)
  = event_adds now (eventId, event) /\
  updates_of eventId (batch_writes (issued_by (sendEventReminders now) w))
  = event_updates (eventId, event) /\
  (reminderSent event <> Some true ->
   exists event',
     events (db (snd (sendEventReminders now w))) !! eventId = Some event' /\
     reminderSent event' = Some true).
Proof.
  intros Hall Hacc Hsel.
  assert (Hne : selected now (db w) <> []) by (intros H; rewrite H in Hsel; inversion Hsel).
  destruct (generator_run now w) as (adds & tl & -> & Hp & _ & _ & _ & Hfree).
  destruct (Hfree Hall Hne Hacc) as (-> & -> & Hev & _).
  split; [| split].
  - simpl. rewrite List.filter_app. simpl. rewrite app_nil_r.
    apply (filter_this_event notifies (event_adds now)).
    + intros doc id c Hc. apply (notifies_event_adds now doc id c Hc).
    + apply selected_NoDup.
    + exact Hsel.
  - change (CallQueryEvents (oneHourLater now) (twoHoursLater now)
            :: flat_map (event_adds now) (selected now (db w))
               ++ [CallCommit (flat_map event_updates (selected now (db w)))])
      with ([CallQueryEvents (oneHourLater now) (twoHoursLater now)]
            ++ flat_map (event_adds now) (selected now (db w))
            ++ [CallCommit (flat_map event_updates (selected now (db w)))]).
    rewrite !batch_writes_app, (batch_writes_adds now _ _ (reflexivity _)).
    simpl. rewrite app_nil_r.
    apply (filter_this_event (fun id u => String.eqb (update_ref u) id) event_updates).
    + intros doc id u Hu. apply (update_ref_event_updates doc id u Hu).
    + apply selected_NoDup.
    + exact Hsel.
  - intros Hunflagged. rewrite Hev.
    apply selected_lookup in Hsel as Hlook. destruct Hlook as [Hlook _]. simpl in Hlook.
    apply (apply_updates_set_flag _ _ eventId event);
      [apply event_updates_set_true | | exact Hlook].
    apply list_elem_of_In, in_flat_map. exists (eventId, event).
    split; [apply list_elem_of_In; exact Hsel |].
    unfold event_updates. simpl.
    destruct (reminderSent event) as [[|] |]; simpl; auto.
Qed.

Lemma filter_addressed_attendees (now : Timestamp) (eventId : string)
    (event : EventData) (user : string) (ids : list string) :
  List.length (List.filter (addressed_to user) (attendee_adds now eventId event ids))
  = count_occ string_dec ids user.
Proof.
  induction ids as [| a ids IH]; simpl; [reflexivity |].
  destruct (string_dec a user) as [-> | Hne].
  - rewrite bool_decide_eq_true_2 by reflexivity. simpl. rewrite IH. reflexivity.
  - rewrite bool_decide_eq_false_2 by congruence. exact IH.
Qed.

(** X23. In a run in which every call succeeds and every
    event that is due has a name and a venue address, the records
    created for a selected, unflagged event are one for [creatorId],
    when it is truthy, and then one per entry of [attendees], in order
    and with repetitions: a user gets as many records as the identifier
    occurs in [attendees], plus one if it is the creator's. *)
Theorem one_record_per_target_occurrence
    (now : Timestamp) (w : World) (eventId : string) (event : EventData)
    (user : string) :
  all_succeed (schedule w) ->
  reminders_accepted now (db w) ->
  (eventId, event) ∈ selected now (db w) ->
  reminderSent event <> Some true ->
  List.filter (notifies eventId) (issued_by (sendEventReminders now) w)
  = (if truthy_string (creatorId event)
     then [CallAdd "creator_notifications" (creator_reminder now eventId event)]
     else [])
    ++ map (fun attendeeId =>
              CallAdd "user_notifications"
                (attendee_reminder now eventId event attendeeId))
         (default [] (attendees event)) /\
  List.length
    (List.filter (addressed_to user)
       (List.filter (notifies eventId) (issued_by (sendEventReminders now) w)))
  = ((if truthy_string (creatorId event) && bool_decide (creatorId event = Some user)
      then 1 else 0)
     + count_occ string_dec (default [] (attendees event)) user)%nat.
Proof.
  intros Hall Hacc Hsel Hunflagged.
  destruct (fault_free_event_calls now w eventId event Hall Hacc Hsel) as (-> & _ & _).
  unfold event_adds. simpl.
  assert (Hf : truthy_bool (reminderSent event) = false).
  { destruct (reminderSent event) as [[|] |]; simpl; congruence. }
  rewrite Hf. split; [reflexivity |].
  rewrite List.filter_app, length_app, filter_addressed_attendees.
  f_equal. destruct (truthy_string (creatorId event)); simpl; [| reflexivity].
  destruct (bool_decide (creatorId event = Some user)); reflexivity.
Qed.

(** X22. In a run in which every call succeeds and every
    event that is due has a name and a venue address, for a selected,
    unflagged event with a creator and the two attendees [u1] and [u2]:
    the records created for the event are exactly three, one in
    [creator_notifications] addressed to the creator and one in
    [user_notifications] addressed to each attendee, each with status
    unread and action link [event/<eventId>]; the batch that is
    committed holds exactly one write on the event document, which sets
    [reminderSent] to true, and the document has it true afterwards. *)
Theorem reminder_for_creator_and_two_attendees
    (now : Timestamp) (w : World) (eventId : string) (event : EventData)
    (creator u1 u2 : string) :
  all_succeed (schedule w) ->
  reminders_accepted now (db w) ->
  (eventId, event) ∈ selected now (db w) ->
  reminderSent event <> Some true ->
  creatorId event = Some creator -> creator <> EmptyString ->
  attendees event = Some [u1; u2] ->
  (exists dc d1 d2,
     List.filter (notifies eventId) (issued_by (sendEventReminders now) w)
     = [CallAdd "creator_notifications" dc;
        CallAdd "user_notifications" d1;
        CallAdd "user_notifications" d2] /\
     recipientId dc = Some creator /\ recipientId d1 = Some u1 /\
     recipientId d2 = Some u2 /\
     Forall (fun d => status d = Some "unread" /\
                      actionLink d = Some ("event/" +:+ eventId))
       [dc; d1; d2]) /\
  updates_of eventId (batch_writes (issued_by (sendEventReminders now) w))
  = [mkBatchUpdate eventId true] /\
  exists event',
    events (db (snd (sendEventReminders now w))) !! eventId = Some event' /\
    reminderSent event' = Some true.
Proof.
  intros Hall Hacc Hsel Hunflagged Hcreator Hne Hatt.
  destruct (fault_free_event_calls now w eventId event Hall Hacc Hsel)
    as (-> & -> & Hev).
  assert (Hf : truthy_bool (reminderSent event) = false).
  { destruct (reminderSent event) as [[|] |]; simpl; congruence. }
  assert (Hc : truthy_string (creatorId event) = true).
  { rewrite Hcreator. simpl. apply negb_true_iff, String.eqb_neq. exact Hne. }
  unfold event_adds, event_updates. simpl. rewrite Hf, Hc, Hatt. simpl.
  split; [| split; [reflexivity | exact (Hev Hunflagged)]].
  exists (creator_reminder now eventId event),
         (attendee_reminder now eventId event u1),
         (attendee_reminder now eventId event u2).
  split; [reflexivity |]. simpl. rewrite Hcreator.
  repeat split; repeat constructor.
Qed.

(** ** The window of a run *)

Lemma Timestamp_leb_spec (a b : Timestamp) :
  valid_timestamp a -> valid_timestamp b ->
  (Timestamp_leb a b = true <-> epoch_nanos a <= epoch_nanos b).
Proof.
  unfold valid_timestamp, Timestamp_leb, epoch_nanos. intros Ha Hb.
  rewrite orb_true_iff, andb_true_iff, Z.ltb_lt, Z.eqb_eq, Z.leb_le. lia.
Qed.

Lemma epoch_nanos_oneHourLater (now : Timestamp) :
  epoch_nanos (oneHourLater now) = epoch_nanos now + 3600 * 1000000000.
Proof. unfold epoch_nanos, oneHourLater. simpl. lia. Qed.

Lemma epoch_nanos_twoHoursLater (now : Timestamp) :
  epoch_nanos (twoHoursLater now) = epoch_nanos now + 7200 * 1000000000.
Proof. unfold epoch_nanos, twoHoursLater. simpl. lia. Qed.

(** C8. When the query of a run at [now] is answered, and the
    timestamps involved have their nanoseconds in range: the query the
    body issues has the bounds [now.seconds + 3600] and
    [now.seconds + 7200] with the nanoseconds of [now]; the body goes on
    with the documents of the answer; and these are exactly the event
    documents whose [startTime] [t] satisfies
    [now + 1h <= t <= now + 2h], both ends included. *)
Theorem window_selection (now : Timestamp) (w : World) :
  valid_timestamp now ->
  (forall id e t,
     events (db w) !! id = Some e -> startTime e = Some t -> valid_timestamp t) ->
  outcome_at 0 w = Succeeds ->
  issued_by (query_events (oneHourLater now) (twoHoursLater now)) w
  = [CallQueryEvents (mkTimestamp (seconds now + 3600) (nanoseconds now))
       (mkTimestamp (seconds now + 7200) (nanoseconds now))] /\
  (exists w1,
     query_events (oneHourLater now) (twoHoursLater now) w
     = (Ok (selected now (db w)), w1) /\
     sendEventReminders_body now w = remind_selected now (selected now (db w)) w1) /\
  forall id e,
    (id, e) ∈ selected now (db w) <->
    events (db w) !! id = Some e /\
    exists t, startTime e = Some t /\
      epoch_nanos now + 3600 * 1000000000 <= epoch_nanos t
      <= epoch_nanos now + 7200 * 1000000000.
Proof.
  intros Hnow Hstore Hq. split; [| split].
  - unfold issued_by, query_events. run_M.
    destruct (schedule w) as [| [| |] sched]; simpl; apply drop_app_length.
  - rewrite sendEventReminders_body_unfold, Hq.
    unfold query_events, selected, outcome_at in *. run_M.
    destruct (schedule w) as [| [| |] sched]; simpl in *; try discriminate;
      eexists; split; reflexivity.
  - intros id e. rewrite selected_lookup. simpl. unfold in_window.
    split.
    + intros [Hev Hwin]. split; [exact Hev |].
      destruct (startTime e) as [t |] eqn:Ht; [| discriminate].
      exists t. split; [reflexivity |].
      apply andb_true_iff in Hwin as [Hlo Hhi].
      pose proof (Hstore id e t Hev Ht) as Hvt.
      apply Timestamp_leb_spec in Hlo; [| exact Hnow | exact Hvt].
      apply Timestamp_leb_spec in Hhi; [| exact Hvt | exact Hnow].
      rewrite epoch_nanos_oneHourLater in Hlo.
      rewrite epoch_nanos_twoHoursLater in Hhi. lia.
    + intros [Hev (t & Ht & Hlo & Hhi)]. split; [exact Hev |].
      rewrite Ht. pose proof (Hstore id e t Hev Ht) as Hvt.
      apply andb_true_iff. split.
      * apply Timestamp_leb_spec; [exact Hnow | exact Hvt |].
        rewrite epoch_nanos_oneHourLater. lia.
      * apply Timestamp_leb_spec; [exact Hvt | exact Hnow |].
        rewrite epoch_nanos_twoHoursLater. lia.
Qed.

(** * The properties on the scenarios *)

(** [Number::toString] on some doubles: integers below and above
    [10 ^ 21], an integer above [2 ^ 53] (the digits past the shortest
    ones that give the double back are zeros), fractions, the least
    positive double and the values that are not finite. *)
Example Number_toString_examples :
  Number_toString (Number_of_Z 1) = "1" /\
  Number_toString (Number_of_Z 0) = "0" /\
  Number_toString (Number_of_Z (-42)) = "-42" /\
  Number_toString (Number_of_Z 1700005400000) = "1700005400000" /\
  Number_toString (Number_of_Z (2 ^ 53)) = "9007199254740992" /\
  Number_toString (Number_of_Z (2 ^ 53 + 1)) = "9007199254740992" /\
  Number_toString (Number_of_Z (2 ^ 60)) = "1152921504606847000" /\
  Number_toString (Number_of_Z (10 ^ 20)) = "100000000000000000000" /\
  Number_toString (Number_of_Z (10 ^ 21)) = "1e+21" /\
  Number_toString (Number_of_Z (123456789 * 10 ^ 14)) = "1.23456789e+22" /\
  Number_toString (Number_div (Number_of_Z 999) (Number_of_Z 100)) = "9.99" /\
  Number_toString (Number_div (Number_of_Z 1) (Number_of_Z 3)) = "0.3333333333333333" /\
  Number_toString (Number_div (Number_of_Z 1) (Number_of_Z 10)) = "0.1" /\
  Number_toString (Number_div (Number_of_Z 1) (Number_of_Z 1000000)) = "0.000001" /\
  Number_toString (Number_div (Number_of_Z 1) (Number_of_Z 10000000)) = "1e-7" /\
  Number_toString (Number_of 1 (-1074)) = "5e-324" /\
  Number_toString (Number_of (2 ^ 53 - 1) 971) = "1.7976931348623157e+308" /\
  Number_toString (Number_of_Z (2 ^ 1024)) = "Infinity" /\
  Number_toString (Number_div (Number_of_Z (-1)) (Number_of_Z 0)) = "-Infinity" /\
  Number_toString (Number_div (Number_of_Z 0) (Number_of_Z 0)) = "NaN".
Proof. repeat split; vm_compute; reflexivity. Qed.

(** An integer that a double holds is printed as its decimal digits:
    the integers to a thousand, the milliseconds of the scenario's
    hours, and the powers of two and ten and their neighbours. *)
Example integers_print_as_decimals :
  forallb (fun z => String.eqb (Number_toString (Number_of_Z z)) (pretty z))
    (map Z.of_nat (seq 0 1000)
     ++ map (fun i => - Z.of_nat i) (seq 1 100)
     ++ map (fun i => 1700003600000 + 36000 * Z.of_nat i) (seq 0 101)
     ++ flat_map (fun k => [10 ^ Z.of_nat k - 1; 10 ^ Z.of_nat k; 10 ^ Z.of_nat k + 1])
          (seq 0 16)
     ++ flat_map (fun k => [2 ^ Z.of_nat k - 1; 2 ^ Z.of_nat k; - 2 ^ Z.of_nat k])
          (seq 0 54))
  = true.
Proof. vm_compute. reflexivity. Qed.

(** [JSON.stringify] and [String] on the kinds of values. *)
Example string_conversions :
  JSON_stringify (JObject [("x", JNumber (Number_of_Z 1))])
  = "{" +:+ dquote +:+ "x" +:+ dquote +:+ ":1}" /\
  JSON_stringify
    (JArray [JNumber (Number_of_Z (10 ^ 21)); JUndefined; JNull; JBool true;
             JNumber (Number_div (Number_of_Z 1) (Number_of_Z 0)); JString "a"])
  = "[1e+21,null,null,true,null," +:+ dquote +:+ "a" +:+ dquote +:+ "]" /\
  JSON_stringify (JObject [("u", JUndefined); ("n", JNull)])
  = "{" +:+ dquote +:+ "n" +:+ dquote +:+ ":null}" /\
  JSON_stringify JNull = "null" /\
  String_of JUndefined = "undefined" /\
  String_of (JBool false) = "false" /\
  String_of (JString "x y") = "x y" /\
  String_of (JNumber (Number_div (Number_of_Z 999) (Number_of_Z 100))) = "9.99".
Proof. repeat split; vm_compute; reflexivity. Qed.

(** The spec's flattening example: [a] and [b] are there as strings,
    [fullDescription] is not, and the metadata's [type] has replaced
    the record's. *)
Example sample_payload :
  messageData "N1" sample_notification !! "a" = Some "1" /\
  messageData "N1" sample_notification !! "b"
  = Some ("{" +:+ dquote +:+ "x" +:+ dquote +:+ ":1}") /\
  messageData "N1" sample_notification !! "fullDescription" = None /\
  messageData "N1" sample_notification !! "type" = Some "promo" /\
  messageData "N1" sample_notification !! "notificationId" = Some "N1".
Proof. repeat split; vm_compute; reflexivity. Qed.

Lemma token_world_sends :
  issued_by (sendNotificationToUser "user_notifications" "N1" sample_notification)
    token_world
  = [CallGetToken "U1";
     CallSend (notification_message "N1" sample_notification "tok")].
Proof. rewrite dispatcher_issued. reflexivity. Qed.

Lemma push_iff_recipient_and_token_witness :
  is_notification_collection "user_notifications" = true /\
  user_tokens (db token_world) !! EmptyString = None /\
  outcome_at 0 token_world = Succeeds /\
  (sends (issued_by (sendNotificationToUser "user_notifications" "N1"
                       sample_notification) token_world) = 1%nat
   <-> deliverable sample_notification (db token_world)) /\
  (sends (issued_by (sendNotificationToUser "user_notifications" "N1"
                       sample_notification) token_world) <= 1)%nat.
Proof.
  assert (H1 : is_notification_collection "user_notifications" = true)
    by reflexivity.
  assert (H2 : user_tokens (db token_world) !! EmptyString = None)
    by (vm_compute; reflexivity).
  assert (H3 : outcome_at 0 token_world = Succeeds) by reflexivity.
  exact (conj H1 (conj H2 (conj H3
           (push_iff_recipient_and_token "user_notifications" "N1"
              sample_notification token_world H1 H2 H3)))).
Defined.

Lemma metadata_flattened_witness :
  CallSend (notification_message "N1" sample_notification "tok")
    ∈ issued_by (sendNotificationToUser "user_notifications" "N1" sample_notification)
        token_world /\
  metadata sample_notification = Some sample_metadata /\
  msg_data (notification_message "N1" sample_notification "tok") !! "fullDescription"
  = None /\
  msg_data (notification_message "N1" sample_notification "tok") !! "fullContent"
  = None /\
  msg_data (notification_message "N1" sample_notification "tok") !! "a" = Some "1" /\
  msg_data (notification_message "N1" sample_notification "tok") !! "b"
  = Some ("{" +:+ dquote +:+ "x" +:+ dquote +:+ ":1}").
Proof.
  assert (H1 : CallSend (notification_message "N1" sample_notification "tok")
                 ∈ issued_by (sendNotificationToUser "user_notifications" "N1"
                                sample_notification) token_world)
    by (rewrite token_world_sends; right; left).
  assert (H2 : metadata sample_notification = Some sample_metadata) by reflexivity.
  destruct (metadata_flattened "user_notifications" "N1" sample_notification
              token_world _ sample_metadata H1 H2) as (Hd & Hc & Hv).
  split; [exact H1 |]. split; [exact H2 |]. split; [exact Hd |].
  split; [exact Hc |]. split.
  - rewrite (Hv "a" (JNumber (Number_of_Z 1)));
      [vm_compute; reflexivity | reflexivity | discriminate | discriminate].
  - rewrite (Hv "b" (JObject [("x", JNumber (Number_of_Z 1))]));
      [vm_compute; reflexivity | reflexivity | discriminate | discriminate].
Defined.

Lemma metadata_overwrites_fixed_fields_witness :
  CallSend (notification_message "N1" sample_notification "tok")
    ∈ issued_by (sendNotificationToUser "user_notifications" "N1" sample_notification)
        token_world /\
  metadata sample_notification = Some sample_metadata /\
  own_property sample_metadata "type" = Some (JString "promo") /\
  "type" ∈ ["notificationId"; "type"; "click_action"; "actionLink"] /\
  msg_data (notification_message "N1" sample_notification "tok")
  = add_metadata sample_metadata (fixed_fields "N1" sample_notification) /\
  fixed_fields "N1" sample_notification !! "type" = Some "chat" /\
  msg_data (notification_message "N1" sample_notification "tok") !! "type"
  = Some "promo".
Proof.
  assert (H1 : CallSend (notification_message "N1" sample_notification "tok")
                 ∈ issued_by (sendNotificationToUser "user_notifications" "N1"
                                sample_notification) token_world)
    by (rewrite token_world_sends; right; left).
  assert (H2 : metadata sample_notification = Some sample_metadata) by reflexivity.
  assert (H3 : own_property sample_metadata "type" = Some (JString "promo"))
    by reflexivity.
  assert (H4 : "type" ∈ ["notificationId"; "type"; "click_action"; "actionLink"])
    by (right; left).
  exact (conj H1 (conj H2 (conj H3 (conj H4
           (metadata_overwrites_fixed_fields "user_notifications" "N1"
              sample_notification token_world _ sample_metadata "type"
              (JString "promo") H1 H2 H3 H4))))).
Defined.

Lemma token_world_badge :
  issued_by (updateBadgeCount "user_notifications" unread_record read_record)
    token_world
  = [CallQueryUnread "user_notifications" "U1"; CallGetToken "U1";
     CallSend (badge_message "tok" 2)].
Proof. rewrite badge_issued. vm_compute. reflexivity. Qed.

Lemma badge_push_iff_transition_and_token_witness :
  is_notification_collection "user_notifications" = true /\
  user_tokens (db token_world) !! EmptyString = None /\
  outcome_at 0 token_world = Succeeds /\
  outcome_at 1 token_world = Succeeds /\
  (sends (issued_by (updateBadgeCount "user_notifications" unread_record read_record)
            token_world) = 1%nat
   <-> status unread_record = Some "unread" /\
       status read_record <> Some "unread" /\
       deliverable read_record (db token_world)) /\
  (sends (issued_by (updateBadgeCount "user_notifications" unread_record read_record)
            token_world) <= 1)%nat.
Proof.
  assert (H1 : is_notification_collection "user_notifications" = true)
    by reflexivity.
  assert (H2 : user_tokens (db token_world) !! EmptyString = None)
    by (vm_compute; reflexivity).
  assert (H3 : outcome_at 0 token_world = Succeeds) by reflexivity.
  assert (H4 : outcome_at 1 token_world = Succeeds) by reflexivity.
  exact (conj H1 (conj H2 (conj H3 (conj H4
           (badge_push_iff_transition_and_token "user_notifications"
              unread_record read_record token_world H1 H2 H3 H4))))).
Defined.

Lemma badge_is_unread_count_witness :
  CallSend (badge_message "tok" 2)
    ∈ issued_by (updateBadgeCount "user_notifications" unread_record read_record)
        token_world /\
  exists r,
    recipientId read_record = Some r /\
    CallQueryUnread "user_notifications" r
      ∈ issued_by (updateBadgeCount "user_notifications" unread_record read_record)
          token_world /\
    aps_badge (msg_apns (badge_message "tok" 2))
    = unread_count "user_notifications" r (db token_world).
Proof.
  assert (H1 : CallSend (badge_message "tok" 2)
                 ∈ issued_by (updateBadgeCount "user_notifications" unread_record
                                read_record) token_world)
    by (rewrite token_world_badge; right; right; left).
  exact (conj H1
           (badge_is_unread_count "user_notifications" unread_record read_record
              token_world _ H1)).
Defined.

Lemma events_store_valid (id : string) (e : EventData) (t : Timestamp) :
  events (db events_world) !! id = Some e -> startTime e = Some t ->
  valid_timestamp t.
Proof.
  unfold events_world, events_store. simpl. intros Hev Ht.
  repeat (apply lookup_insert_Some in Hev as [[_ <-] | [_ Hev]];
          [injection Ht as <-; unfold valid_timestamp; simpl; lia |]).
  rewrite lookup_empty in Hev. discriminate.
Qed.

Lemma events_world_accepted : reminders_accepted run_time (db events_world).
Proof.
  intros id e Hsel _. apply selected_lookup in Hsel as [Hev _].
  unfold events_world, events_store in Hev. simpl in Hev.
  repeat (apply lookup_insert_Some in Hev as [[_ <-] | [_ Hev]];
          [split; eexists; reflexivity |]).
  rewrite lookup_empty in Hev. discriminate.
Qed.

Lemma launch_selected : ("E1", launch_event) ∈ selected run_time (db events_world).
Proof. apply selected_lookup. split; vm_compute; reflexivity. Qed.

Lemma crowded_selected : ("E3", crowded_event) ∈ selected run_time (db events_world).
Proof. apply selected_lookup. split; vm_compute; reflexivity. Qed.

(** After the run of the scenario the two notification collections
    hold the records of the two events that were not reminded of yet:
    two and three for attendees, one each for the creators. *)
Example events_world_records :
  fst (sendEventReminders run_time events_world) = Ok RSuccess /\
  size (user_notifications (db (snd (sendEventReminders run_time events_world)))) = 5%nat /\
  size (creator_notifications (db (snd (sendEventReminders run_time events_world)))) = 2%nat /\
  reminderSent <$> events (db (snd (sendEventReminders run_time events_world))) !! "E1"
  = Some (Some true).
Proof. repeat split; vm_compute; reflexivity. Qed.

(** The ends of the window are in, a nanosecond outside is out. *)
Example window_endpoints :
  in_window (oneHourLater run_time) (twoHoursLater run_time)
    (event_starting_after (3600 * 1000000000)) = true /\
  in_window (oneHourLater run_time) (twoHoursLater run_time)
    (event_starting_after (7200 * 1000000000)) = true /\
  in_window (oneHourLater run_time) (twoHoursLater run_time)
    (event_starting_after (3600 * 1000000000 - 1)) = false /\
  in_window (oneHourLater run_time) (twoHoursLater run_time)
    (event_starting_after (7200 * 1000000000 + 1)) = false.
Proof. repeat split; vm_compute; reflexivity. Qed.

(** The query answers by start time: the dinner at one hour, the
    launch at ninety minutes, the quiz at two hours; documents that
    start together come by id. *)
Example events_store_answer :
  selected run_time events_store
  = [("E2", reminded_event); ("E1", launch_event); ("E3", crowded_event)] /\
  selected run_time
    (mkStore ∅ ∅ ∅
       (<["b" := launch_event]>
          (<["a" := launch_event]> (<["E3" := launch_event]> ∅))))
  = [("E3", launch_event); ("a", launch_event); ("b", launch_event)].
Proof. split; vm_compute; reflexivity. Qed.

(** C5. The run on the spec's scenario: the event Launch with creator
    C1 and attendees U1 and U2 starts 90 minutes after the run, is not
    reminded of yet, is selected, and every call succeeds.  The run
    creates none of the three records and writes no flag.  The record
    for the creator has [metadata.venueAddress] undefined, [add] throws
    on it, and the run ends in the [catch]: the query is the only call
    issued, the store is as it was, the error is on the console and
    the handler returns [null]. *)
Lemma scenario_reminder_is_refused :
  selected run_time (db scenario_world) = [("E1", scenario_event)] /\
  reminderSent scenario_event = Some false /\
  creatorId scenario_event = Some "C1" /\
  attendees scenario_event = Some ["U1"; "U2"] /\
  all_succeed (schedule scenario_world) /\
  refused (creator_reminder run_time "E1" scenario_event) = true /\
  issued_by (sendEventReminders run_time) scenario_world
  = [CallQueryEvents (mkTimestamp 1700003600 0) (mkTimestamp 1700007200 0)] /\
  List.filter (notifies "E1") (issued_by (sendEventReminders run_time) scenario_world)
  = [] /\
  updates_of "E1" (batch_writes (issued_by (sendEventReminders run_time) scenario_world))
  = [] /\
  db (snd (sendEventReminders run_time scenario_world)) = db scenario_world /\
  fst (sendEventReminders run_time scenario_world) = Ok RNull /\
  logged_by (sendEventReminders run_time) scenario_world
  = [Log "Found 1 events for reminders";
     LogError "Error sending event reminders:" AddFailed].
Proof.
  split; [vm_compute; reflexivity |].
  split; [reflexivity |]. split; [reflexivity |]. split; [reflexivity |].
  split; [constructor |].
  repeat split; vm_compute; reflexivity.
Qed.

(** C10. The run on an event whose attendees are U7, U8 and U7 again
    and whose creator is U7, the document having no venue address,
    every call succeeding: U7 gets none of the three records, and U8
    none.  The record for the creator has [metadata.venueAddress]
    undefined, [add] throws on it, and the loop is left before any
    record is created. *)
Lemma repeated_targets_get_no_record :
  selected run_time (db repeated_world) = [("E3", repeated_event)] /\
  reminderSent repeated_event <> Some true /\
  creatorId repeated_event = Some "U7" /\
  attendees repeated_event = Some ["U7"; "U8"; "U7"] /\
  all_succeed (schedule repeated_world) /\
  refused (creator_reminder run_time "E3" repeated_event) = true /\
  List.filter (notifies "E3") (issued_by (sendEventReminders run_time) repeated_world)
  = [] /\
  List.length
    (List.filter (addressed_to "U7")
       (List.filter (notifies "E3")
          (issued_by (sendEventReminders run_time) repeated_world)))
  = 0%nat /\
  user_notifications (db (snd (sendEventReminders run_time repeated_world))) = ∅ /\
  creator_notifications (db (snd (sendEventReminders run_time repeated_world))) = ∅ /\
  fst (sendEventReminders run_time repeated_world) = Ok RNull.
Proof.
  split; [vm_compute; reflexivity |].
  split; [discriminate |]. split; [reflexivity |]. split; [reflexivity |].
  split; [constructor |].
  repeat split; vm_compute; reflexivity.
Qed.

(** C6. The run on the three events when the first [add] returns a
    promise that rejects and the commit fails.  The commit is awaited,
    so its error is thrown in the [try] block, caught and logged, and
    the handler returns [null].  [Promise.all] is not reached: nothing
    ever subscribes to the promise of the first [add], its rejection is
    not caught and is not on the console, and it is left unhandled when
    the handler has returned. *)
Lemma rejected_creation_escapes_the_catch :
  unhandled escaping_world = ∅ /\
  outcome_at 1 escaping_world = Rejects /\
  outcome_at 8 escaping_world = Rejects /\
  issued_by (sendEventReminders run_time) escaping_world !! 1%nat
  = Some (CallAdd "creator_notifications" (creator_reminder run_time "E1" launch_event)) /\
  issued_by (sendEventReminders run_time) escaping_world !! 8%nat
  = Some (CallCommit [mkBatchUpdate "E1" true; mkBatchUpdate "E3" true]) /\
  fst (sendEventReminders run_time escaping_world) = Ok RNull /\
  logged_by (sendEventReminders run_time) escaping_world
  = [Log "Found 3 events for reminders";
     LogError "Error sending event reminders:" CommitFailed] /\
  unhandled (snd (sendEventReminders run_time escaping_world)) = {[+ AddFailed +]}.
Proof. repeat split; vm_compute; reflexivity. Qed.

(** When the commit is rejected the handler still returns [null]: the
    records are there, no flag is set, and the error is on the
    console. *)
Example commit_failure :
  fst (sendEventReminders run_time commit_failure_world) = Ok RNull /\
  size (user_notifications (db (snd (sendEventReminders run_time commit_failure_world))))
  = 5%nat /\
  reminderSent <$> events (db (snd (sendEventReminders run_time commit_failure_world)))
                     !! "E1"
  = Some (Some false) /\
  last (console (snd (sendEventReminders run_time commit_failure_world)))
  = Some (LogError "Error sending event reminders:" CommitFailed).
Proof. repeat split; vm_compute; reflexivity. Qed.

Lemma flagged_events_are_left_alone_witness :
  events (db events_world) !! "E2" = Some reminded_event /\
  reminderSent reminded_event = Some true /\
  List.filter (notifies "E2") (issued_by (sendEventReminders run_time) events_world) = [] /\
  updates_of "E2" (batch_writes (issued_by (sendEventReminders run_time) events_world)) = [] /\
  exists event',
    events (db (run_all [OnSchedule run_time;
                         OnCreate "user_notifications" "N1" sample_notification;
                         OnSchedule run_time] events_world)) !! "E2" = Some event' /\
    reminderSent event' = Some true.
Proof.
  assert (H1 : events (db events_world) !! "E2" = Some reminded_event)
    by (vm_compute; reflexivity).
  assert (H2 : reminderSent reminded_event = Some true) by reflexivity.
  exact (conj H1 (conj H2
           (flagged_events_are_left_alone run_time _ events_world "E2"
              reminded_event H1 H2))).
Defined.

Lemma reminder_for_creator_and_two_attendees_witness :
  all_succeed (schedule events_world) /\
  reminders_accepted run_time (db events_world) /\
  ("E1", launch_event) ∈ selected run_time (db events_world) /\
  reminderSent launch_event <> Some true /\
  creatorId launch_event = Some "C1" /\ "C1" <> EmptyString /\
  attendees launch_event = Some ["U1"; "U2"] /\
  (exists dc d1 d2,
     List.filter (notifies "E1") (issued_by (sendEventReminders run_time) events_world)
     = [CallAdd "creator_notifications" dc;
        CallAdd "user_notifications" d1;
        CallAdd "user_notifications" d2] /\
     recipientId dc = Some "C1" /\ recipientId d1 = Some "U1" /\
     recipientId d2 = Some "U2" /\
     Forall (fun d => status d = Some "unread" /\
                      actionLink d = Some ("event/" +:+ "E1"))
       [dc; d1; d2]) /\
  updates_of "E1" (batch_writes (issued_by (sendEventReminders run_time) events_world))
  = [mkBatchUpdate "E1" true] /\
  exists event',
    events (db (snd (sendEventReminders run_time events_world))) !! "E1" = Some event' /\
    reminderSent event' = Some true.
Proof.
  assert (H1 : all_succeed (schedule events_world)) by constructor.
  assert (H2 : reminderSent launch_event <> Some true) by discriminate.
  assert (H3 : creatorId launch_event = Some "C1") by reflexivity.
  assert (H4 : "C1" <> EmptyString) by discriminate.
  assert (H5 : attendees launch_event = Some ["U1"; "U2"]) by reflexivity.
  exact (conj H1 (conj events_world_accepted (conj launch_selected
           (conj H2 (conj H3 (conj H4 (conj H5
           (reminder_for_creator_and_two_attendees run_time events_world "E1"
              launch_event "C1" "U1" "U2" H1 events_world_accepted
              launch_selected H2 H3 H4 H5)))))))).
Defined.

Lemma one_record_per_target_occurrence_witness :
  all_succeed (schedule events_world) /\
  reminders_accepted run_time (db events_world) /\
  ("E3", crowded_event) ∈ selected run_time (db events_world) /\
  reminderSent crowded_event <> Some true /\
  List.filter (notifies "E3") (issued_by (sendEventReminders run_time) events_world)
  = [CallAdd "creator_notifications" (creator_reminder run_time "E3" crowded_event);
     CallAdd "user_notifications" (attendee_reminder run_time "E3" crowded_event "U7");
     CallAdd "user_notifications" (attendee_reminder run_time "E3" crowded_event "U8");
     CallAdd "user_notifications" (attendee_reminder run_time "E3" crowded_event "U7")] /\
  List.length
    (List.filter (addressed_to "U7")
       (List.filter (notifies "E3")
          (issued_by (sendEventReminders run_time) events_world)))
  = 3%nat.
Proof.
  assert (H1 : all_succeed (schedule events_world)) by constructor.
  assert (H2 : reminderSent crowded_event <> Some true) by discriminate.
  exact (conj H1 (conj events_world_accepted (conj crowded_selected (conj H2
           (one_record_per_target_occurrence run_time events_world "E3"
              crowded_event "U7" H1 events_world_accepted crowded_selected H2))))).
Defined.

Lemma window_selection_witness :
  valid_timestamp run_time /\
  (forall id e t,
     events (db events_world) !! id = Some e -> startTime e = Some t ->
     valid_timestamp t) /\
  outcome_at 0 events_world = Succeeds /\
  issued_by (query_events (oneHourLater run_time) (twoHoursLater run_time)) events_world
  = [CallQueryEvents (mkTimestamp 1700003600 0) (mkTimestamp 1700007200 0)] /\
  (exists w1,
     query_events (oneHourLater run_time) (twoHoursLater run_time) events_world
     = (Ok (selected run_time (db events_world)), w1) /\
     sendEventReminders_body run_time events_world
     = remind_selected run_time (selected run_time (db events_world)) w1) /\
  forall id e,
    (id, e) ∈ selected run_time (db events_world) <->
    events (db events_world) !! id = Some e /\
    exists t, startTime e = Some t /\
      epoch_nanos run_time + 3600 * 1000000000 <= epoch_nanos t
      <= epoch_nanos run_time + 7200 * 1000000000.
Proof.
  assert (H1 : valid_timestamp run_time) by (unfold valid_timestamp; simpl; lia).
  assert (H3 : outcome_at 0 events_world = Succeeds) by reflexivity.
  exact (conj H1 (conj events_store_valid (conj H3
           (window_selection run_time events_world H1 events_store_valid H3)))).
Defined.

(** * Further properties of the handlers *)

(** ** The dispatcher, case by case *)

Lemma dispatcher_run (collection nid : string) (n : NotificationData) (w : World) :
  is_notification_collection collection = true ->
  sendNotificationToUser collection nid n w
  = match truthy (recipientId n) with
    | None =>
        (Ok RNull,
         mkWorld (db w) (calls w)
           (console w ++ [Log "No recipient ID found in notification"])
           (schedule w) (unhandled w))
    | Some r =>
        match outcome_at 0 w with
        | Succeeds =>
            match user_tokens (db w) !! r with
            | None =>
                (Ok RNull,
                 mkWorld (db w) (calls w ++ [CallGetToken r])
                   (console w ++ [Log ("No token found for user: " +:+ r)])
                   (tail (schedule w)) (unhandled w))
            | Some d =>
                match truthy (token d) with
                | None =>
                    (Ok RNull,
                     mkWorld (db w) (calls w ++ [CallGetToken r])
                       (console w
                        ++ [Log ("Token exists but is empty for user: " +:+ r)])
                       (tail (schedule w)) (unhandled w))
                | Some tok =>
                    match outcome_at 1 w with
                    | Succeeds =>
                        (Ok RResponse,
                         mkWorld (db w)
                           (calls w ++ [CallGetToken r;
                                        CallSend (notification_message nid n tok)])
                           (console w ++ [Log "Successfully sent message:"])
                           (tail (tail (schedule w))) (unhandled w))
                    | Throws | Rejects =>
                        (Ok RNull,
                         mkWorld (db w)
                           (calls w ++ [CallGetToken r;
                                        CallSend (notification_message nid n tok)])
                           (console w
                            ++ [LogError "Error sending notification:" SendFailed])
                           (tail (tail (schedule w))) (unhandled w))
                    end
                end
            end
        | Throws | Rejects =>
            (Ok RNull,
             mkWorld (db w) (calls w ++ [CallGetToken r])
               (console w ++ [LogError "Error sending notification:" GetFailed])
               (tail (schedule w)) (unhandled w))
        end
    end.
Proof.
  intros Hcoll.
  unfold sendNotificationToUser, sendNotificationToUser_body, outcome_at.
  rewrite Hcoll. simpl.
  destruct (truthy (recipientId n)) as [r |]; [| reflexivity].
  run_M.
  destruct (schedule w) as [| [| |] sched]; simpl; try reflexivity;
    (destruct (user_tokens (db w) !! r) as [d |]; simpl; [| reflexivity]);
    (destruct (truthy (token d)) as [tok |]; simpl; [| reflexivity]);
    rewrite <- ?app_assoc; try reflexivity.
  destruct sched as [| [| |] sched]; simpl; rewrite <- ?app_assoc; reflexivity.
Qed.

Lemma dispatcher_ignores (collection nid : string) (n : NotificationData) (w : World) :
  is_notification_collection collection = false ->
  sendNotificationToUser collection nid n w = (Ok RNull, w).
Proof.
  intros Hcoll.
  unfold sendNotificationToUser, sendNotificationToUser_body, try_catch, ret.
  rewrite Hcoll. reflexivity.
Qed.

Lemma badge_ignores (collection : string) (b a : NotificationData) (w : World) :
  is_notification_collection collection = false ->
  updateBadgeCount collection b a w = (Ok RNull, w).
Proof.
  intros Hcoll.
  unfold updateBadgeCount, updateBadgeCount_body, try_catch, ret.
  rewrite Hcoll. reflexivity.
Qed.

(** X1. A document created or updated in any collection other than the
    two notification collections is ignored by both document triggers:
    they return [null] and leave the world as it is, with no call
    issued and nothing on the console. *)
Theorem other_collections_are_ignored
    (collection nid : string) (n b a : NotificationData) (w : World) :
  is_notification_collection collection = false ->
  sendNotificationToUser collection nid n w = (Ok RNull, w) /\
  updateBadgeCount collection b a w = (Ok RNull, w).
Proof.
  intros Hcoll. split.
  - apply dispatcher_ignores. exact Hcoll.
  - apply badge_ignores. exact Hcoll.
Qed.

Lemma other_collections_are_ignored_witness :
  is_notification_collection events_collection = false /\
  sendNotificationToUser events_collection "E1" sample_notification events_world
  = (Ok RNull, events_world) /\
  updateBadgeCount events_collection unread_record read_record events_world
  = (Ok RNull, events_world).
Proof.
  assert (H1 : is_notification_collection events_collection = false) by reflexivity.
  exact (conj H1
           (other_collections_are_ignored events_collection "E1" sample_notification
              unread_record read_record events_world H1)).
Defined.

(** X2. The dispatcher returns the messaging service's response exactly
    when it issued a send and that send succeeded; in every other case
    it returns [null]. *)
Theorem response_iff_send_succeeded
    (collection nid : string) (n : NotificationData) (w : World) :
  (fst (sendNotificationToUser collection nid n w) = Ok RResponse <->
   sends (issued_by (sendNotificationToUser collection nid n) w) = 1%nat /\
   outcome_at 1 w = Succeeds) /\
  (fst (sendNotificationToUser collection nid n w) <> Ok RResponse ->
   fst (sendNotificationToUser collection nid n w) = Ok RNull).
Proof.
  rewrite dispatcher_issued.
  destruct (is_notification_collection collection) eqn:Hcoll; simpl.
  - rewrite (dispatcher_run collection nid n w Hcoll). unfold sends.
    destruct (truthy (recipientId n)) as [r |]; simpl;
      [| split; [split; [discriminate | intros [[=] _]] | reflexivity]].
    destruct (outcome_at 0 w); simpl;
      try (split; [split; [discriminate | intros [[=] _]] | reflexivity]).
    destruct (user_tokens (db w) !! r) as [d |]; simpl;
      [| split; [split; [discriminate | intros [[=] _]] | reflexivity]].
    destruct (truthy (token d)) as [tok |]; simpl;
      [| split; [split; [discriminate | intros [[=] _]] | reflexivity]].
    destruct (outcome_at 1 w); simpl.
    + split; [split; auto | congruence].
    + split; [split; [discriminate | intros [_ [=]]] | reflexivity].
    + split; [split; [discriminate | intros [_ [=]]] | reflexivity].
  - rewrite (dispatcher_ignores collection nid n w Hcoll). simpl. split; [split; [discriminate | intros [[=] _]] | reflexivity].
Qed.

(** X3. A message the dispatcher sends is the second of exactly two
    calls, after the lookup of the token document of the record's
    recipientId; it goes to the non-empty token stored there, shows the
    record's title, message and image, and carries the fixed delivery
    hints: high priority, default sound and the high-importance channel
    on one platform, default sound and badge 1 on the other. *)
Theorem message_goes_to_recipients_token
    (collection nid : string) (n : NotificationData) (w : World) (m : Message) :
  CallSend m ∈ issued_by (sendNotificationToUser collection nid n) w ->
  exists r d,
    recipientId n = Some r /\
    user_tokens (db w) !! r = Some d /\
    token d = Some (msg_token m) /\ msg_token m <> EmptyString /\
    issued_by (sendNotificationToUser collection nid n) w
    = [CallGetToken r; CallSend m] /\
    msg_notification m = Some (mkDisplay (title n) (message n) (imageUrl n)) /\
    msg_android m
    = Some (mkAndroidConfig "high" "default" "high" "high_importance_channel") /\
    msg_apns m = mkAps (Some "default") 1.
Proof.
  rewrite dispatcher_issued.
  destruct (negb (is_notification_collection collection)); [intros H; inversion H |].
  destruct (truthy (recipientId n)) as [r |] eqn:Hr; [| intros H; inversion H].
  intros H. apply elem_of_cons in H as [[=] | H].
  destruct (outcome_at 0 w); try (inversion H; fail).
  destruct (user_tokens (db w) !! r) as [d |] eqn:Hd; [| inversion H].
  destruct (truthy (token d)) as [tok |] eqn:Htok; [| inversion H].
  apply list_elem_of_singleton in H as [= ->].
  apply truthy_Some in Hr as [Hr _]. apply truthy_Some in Htok as [Htok Hne].
  exists r, d. simpl. repeat split; assumption.
Qed.

Lemma message_goes_to_recipients_token_witness :
  CallSend (notification_message "N1" sample_notification "tok")
    ∈ issued_by (sendNotificationToUser "user_notifications" "N1" sample_notification)
        token_world /\
  exists r d,
    recipientId sample_notification = Some r /\
    user_tokens (db token_world) !! r = Some d /\
    token d = Some "tok" /\ "tok" <> EmptyString /\
    issued_by (sendNotificationToUser "user_notifications" "N1" sample_notification)
      token_world
    = [CallGetToken r;
       CallSend (notification_message "N1" sample_notification "tok")] /\
    msg_notification (notification_message "N1" sample_notification "tok")
    = Some (mkDisplay (Some "Hello") (Some "Hi") None) /\
    msg_android (notification_message "N1" sample_notification "tok")
    = Some (mkAndroidConfig "high" "default" "high" "high_importance_channel") /\
    msg_apns (notification_message "N1" sample_notification "tok")
    = mkAps (Some "default") 1.
Proof.
  assert (H1 : CallSend (notification_message "N1" sample_notification "tok")
                 ∈ issued_by (sendNotificationToUser "user_notifications" "N1"
                                sample_notification) token_world)
    by (rewrite token_world_sends; right; left).
  exact (conj H1
           (message_goes_to_recipients_token "user_notifications" "N1"
              sample_notification token_world _ H1)).
Defined.

Lemma stripped_keys_spec (k : string) :
  k ∈ stripped_keys <->
  (String.eqb "fullContent" k || String.eqb "fullDescription" k) = true.
Proof.
  unfold stripped_keys. rewrite !elem_of_cons, elem_of_nil, orb_true_iff.
  rewrite !String.eqb_eq. intuition congruence.
Qed.

Lemma messageData_keys (nid : string) (n : NotificationData) (k : string) :
  is_Some (messageData nid n !! k) <->
  k ∈ fixed_keys \/
  ((k ∉ stripped_keys) /\
   exists md, metadata n = Some md /\ is_Some (own_property md k)).
Proof.
  assert (Hfixed : is_Some (fixed_fields nid n !! k) <-> k ∈ fixed_keys).
  { rewrite fixed_fields_lookup. unfold fixed_keys.
    rewrite !elem_of_cons, elem_of_nil.
    destruct (String.eqb_spec k "actionLink") as [-> | H1]; [split; eauto 6 |].
    destruct (String.eqb_spec k "click_action") as [-> | H2]; [split; eauto 6 |].
    destruct (String.eqb_spec k "type") as [-> | H3]; [split; eauto 6 |].
    destruct (String.eqb_spec k "notificationId") as [-> | H4]; [split; eauto 6 |].
    split; [intros [x [=]] | intros [? | [? | [? | [? | []]]]]; congruence]. }
  unfold messageData. destruct (metadata n) as [md |].
  - rewrite add_metadata_lookup.
    destruct (String.eqb "fullContent" k || String.eqb "fullDescription" k) eqn:Hs.
    + rewrite Hfixed. apply stripped_keys_spec in Hs. split; [auto |].
      intros [H | [H _]]; [exact H | contradiction].
    + assert (Hns : k ∉ stripped_keys).
      { intros H. apply stripped_keys_spec in H. congruence. }
      destruct (own_property md k) as [v |] eqn:Hv.
      * split; [| eauto]. intros _. right. split; [exact Hns |].
        exists md. split; [reflexivity |]. rewrite Hv. eauto.
      * rewrite Hfixed. split; [auto |].
        intros [H | (_ & md' & [= <-] & [x Hx])]; [exact H | congruence].
  - rewrite Hfixed. split; [auto |].
    intros [H | (_ & md' & [=] & _)]. exact H.
Qed.

(** X4. The data payload of a message the dispatcher sends holds a key
    exactly when it is one of the four fixed keys, or a key of the
    record's metadata other than [fullDescription] and [fullContent]:
    nothing else of the record gets into the payload. *)
Theorem payload_keys
    (collection nid : string) (n : NotificationData) (w : World)
    (m : Message) (k : string) :
  CallSend m ∈ issued_by (sendNotificationToUser collection nid n) w ->
  (is_Some (msg_data m !! k) <->
   k ∈ fixed_keys \/
   ((k ∉ stripped_keys) /\
    exists md, metadata n = Some md /\ is_Some (own_property md k))).
Proof.
  intros Hsend.
  apply dispatcher_sends_notification_message in Hsend
    as (r & d & tok & _ & _ & _ & ->).
  simpl. apply messageData_keys.
Qed.

Lemma payload_keys_witness :
  CallSend (notification_message "N1" sample_notification "tok")
    ∈ issued_by (sendNotificationToUser "user_notifications" "N1" sample_notification)
        token_world /\
  (is_Some (msg_data (notification_message "N1" sample_notification "tok") !! "title")
   <->
   "title" ∈ fixed_keys \/
   (("title" ∉ stripped_keys) /\
    exists md, metadata sample_notification = Some md /\
               is_Some (own_property md "title"))).
Proof.
  assert (H1 : CallSend (notification_message "N1" sample_notification "tok")
                 ∈ issued_by (sendNotificationToUser "user_notifications" "N1"
                                sample_notification) token_world)
    by (rewrite token_world_sends; right; left).
  exact (conj H1
           (payload_keys "user_notifications" "N1" sample_notification
              token_world _ "title" H1)).
Defined.

Lemma logged_one (w : World) (cs : list Call) (line : LogLine) (sched : list Outcome) :
  drop (List.length (console w))
    (console (mkWorld (db w) cs (console w ++ [line]) sched (unhandled w))) = [line].
Proof. simpl. apply drop_app_length. Qed.

(** X5. For a record created in a notification collection the
    dispatcher writes exactly one line to the console, and it is an
    error line exactly when one of the calls it issued failed: a
    missing recipient, a missing token document and an empty token are
    reported with [console.log], never as errors. *)
Theorem dispatcher_logs_one_line
    (collection nid : string) (n : NotificationData) (w : World) :
  is_notification_collection collection = true ->
  exists line,
    logged_by (sendNotificationToUser collection nid n) w = [line] /\
    (is_error line = false <->
     issued_calls_succeed (sendNotificationToUser collection nid n) w).
Proof.
  intros Hcoll. unfold logged_by, issued_calls_succeed.
  rewrite dispatcher_issued, (dispatcher_run collection nid n w Hcoll), Hcoll. simpl.
  destruct (truthy (recipientId n)) as [r |].
  - destruct (outcome_at 0 w) eqn:H0.
    + destruct (user_tokens (db w) !! r) as [d |].
      * destruct (truthy (token d)) as [tok |].
        -- destruct (outcome_at 1 w) eqn:H1; eexists; (split; [apply logged_one |]);
             simpl.
           ++ split; [intros _ i Hi | reflexivity].
              destruct i as [| [| i]]; [assumption | assumption | lia].
           ++ split; [discriminate | intros H]. specialize (H 1%nat). simpl in H.
              rewrite H1 in H. discriminate H. lia.
           ++ split; [discriminate | intros H]. specialize (H 1%nat). simpl in H.
              rewrite H1 in H. discriminate H. lia.
        -- eexists. split; [apply logged_one |]. simpl.
           split; [intros _ i Hi | reflexivity].
           destruct i as [| i]; [assumption | lia].
      * eexists. split; [apply logged_one |]. simpl.
        split; [intros _ i Hi | reflexivity].
        destruct i as [| i]; [assumption | lia].
    + eexists. split; [apply logged_one |]. simpl.
      split; [discriminate | intros H]. specialize (H 0%nat). simpl in H.
      rewrite H0 in H. discriminate H. lia.
    + eexists. split; [apply logged_one |]. simpl.
      split; [discriminate | intros H]. specialize (H 0%nat). simpl in H.
      rewrite H0 in H. discriminate H. lia.
  - eexists. split; [apply logged_one |]. simpl.
    split; [intros _ i Hi; lia | reflexivity].
Qed.

Lemma dispatcher_logs_one_line_witness :
  is_notification_collection "user_notifications" = true /\
  exists line,
    logged_by (sendNotificationToUser "user_notifications" "N1" sample_notification)
      token_world = [line] /\
    (is_error line = false <->
     issued_calls_succeed
       (sendNotificationToUser "user_notifications" "N1" sample_notification)
       token_world).
Proof.
  assert (H1 : is_notification_collection "user_notifications" = true)
    by reflexivity.
  exact (conj H1
           (dispatcher_logs_one_line "user_notifications" "N1" sample_notification
              token_world H1)).
Defined.

(** ** The badge synchronizer, case by case *)

Lemma badge_run (collection : string) (b a : NotificationData) (w : World) :
  is_notification_collection collection = true ->
  updateBadgeCount collection b a w
  = if unread_to_other b a then
      match truthy (recipientId a) with
      | None => (Ok RNull, w)
      | Some r =>
          match outcome_at 0 w with
          | Succeeds =>
              match outcome_at 1 w with
              | Succeeds =>
                  match user_tokens (db w) !! r with
                  | None =>
                      (Ok RNull,
                       mkWorld (db w)
                         (calls w ++ [CallQueryUnread collection r; CallGetToken r])
                         (console w) (tail (tail (schedule w))) (unhandled w))
                  | Some d =>
                      match truthy (token d) with
                      | None =>
                          (Ok RNull,
                           mkWorld (db w)
                             (calls w
                              ++ [CallQueryUnread collection r; CallGetToken r])
                             (console w) (tail (tail (schedule w))) (unhandled w))
                      | Some tok =>
                          match outcome_at 2 w with
                          | Succeeds =>
                              (Ok RSuccess,
                               mkWorld (db w)
                                 (calls w
                                  ++ [CallQueryUnread collection r; CallGetToken r;
                                      CallSend
                                        (badge_message tok
                                           (unread_count collection r (db w)))])
                                 (console w) (tail (tail (tail (schedule w)))) (unhandled w))
                          | Throws | Rejects =>
                              (Ok RNull,
                               mkWorld (db w)
                                 (calls w
                                  ++ [CallQueryUnread collection r; CallGetToken r;
                                      CallSend
                                        (badge_message tok
                                           (unread_count collection r (db w)))])
                                 (console w
                                  ++ [LogError "Error updating badge count:"
                                        SendFailed])
                                 (tail (tail (tail (schedule w)))) (unhandled w))
                          end
                      end
                  end
              | Throws | Rejects =>
                  (Ok RNull,
                   mkWorld (db w)
                     (calls w ++ [CallQueryUnread collection r; CallGetToken r])
                     (console w ++ [LogError "Error updating badge count:" GetFailed])
                     (tail (tail (schedule w))) (unhandled w))
              end
          | Throws | Rejects =>
              (Ok RNull,
               mkWorld (db w) (calls w ++ [CallQueryUnread collection r])
                 (console w ++ [LogError "Error updating badge count:" QueryFailed])
                 (tail (schedule w)) (unhandled w))
          end
      end
    else (Ok RNull, w).
Proof.
  intros Hcoll. unfold updateBadgeCount, updateBadgeCount_body, outcome_at.
  rewrite Hcoll. simpl.
  destruct (unread_to_other b a); [| reflexivity].
  destruct (truthy (recipientId a)) as [r |]; [| reflexivity].
  rewrite <- (query_length_unread_count collection r (db w)).
  run_M.
  destruct (schedule w) as [| [| |] [| [| |] [| [| |] sched]]]; simpl;
    rewrite <- ?app_assoc; try reflexivity;
    (destruct (user_tokens (db w) !! r) as [d |]; simpl; [| reflexivity]);
    (destruct (truthy (token d)) as [tok |]; simpl;
     rewrite <- ?app_assoc; reflexivity).
Qed.

(** X6. A message the badge synchronizer sends is the third of exactly
    three calls, after the unread query and the lookup of the token
    document of the updated record's recipientId; it goes to the
    non-empty token stored there and is a badge-only message: no
    display section, no android section, no sound, and a data section
    that holds [updateBadge] and nothing else. *)
Theorem badge_message_is_badge_only
    (collection : string) (b a : NotificationData) (w : World) (m : Message) :
  CallSend m ∈ issued_by (updateBadgeCount collection b a) w ->
  exists r d,
    recipientId a = Some r /\
    user_tokens (db w) !! r = Some d /\
    token d = Some (msg_token m) /\ msg_token m <> EmptyString /\
    issued_by (updateBadgeCount collection b a) w
    = [CallQueryUnread collection r; CallGetToken r; CallSend m] /\
    msg_notification m = None /\ msg_android m = None /\
    aps_sound (msg_apns m) = None /\
    forall k, msg_data m !! k
              = if String.eqb k "updateBadge" then Some "true" else None.
Proof.
  rewrite badge_issued.
  destruct (negb (is_notification_collection collection)); [intros H; inversion H |].
  destruct (unread_to_other b a); [| intros H; inversion H].
  destruct (truthy (recipientId a)) as [r |] eqn:Hr; [| intros H; inversion H].
  intros H. apply elem_of_cons in H as [[=] | H].
  destruct (outcome_at 0 w); try (inversion H; fail).
  apply elem_of_cons in H as [[=] | H].
  destruct (outcome_at 1 w); try (inversion H; fail).
  destruct (user_tokens (db w) !! r) as [d |] eqn:Hd; [| inversion H].
  destruct (truthy (token d)) as [tok |] eqn:Htok; [| inversion H].
  apply list_elem_of_singleton in H as [= ->].
  apply truthy_Some in Hr as [Hr _]. apply truthy_Some in Htok as [Htok Hne].
  exists r, d. simpl. repeat split; try assumption.
  intros k. destruct (String.eqb_spec k "updateBadge") as [-> | Hk].
  - apply lookup_insert_eq.
  - rewrite lookup_insert_ne by congruence. apply lookup_empty.
Qed.

Lemma badge_message_is_badge_only_witness :
  CallSend (badge_message "tok" 2)
    ∈ issued_by (updateBadgeCount "user_notifications" unread_record read_record)
        token_world /\
  exists r d,
    recipientId read_record = Some r /\
    user_tokens (db token_world) !! r = Some d /\
    token d = Some "tok" /\ "tok" <> EmptyString /\
    issued_by (updateBadgeCount "user_notifications" unread_record read_record)
      token_world
    = [CallQueryUnread "user_notifications" r; CallGetToken r;
       CallSend (badge_message "tok" 2)] /\
    msg_notification (badge_message "tok" 2) = None /\
    msg_android (badge_message "tok" 2) = None /\
    aps_sound (msg_apns (badge_message "tok" 2)) = None /\
    forall k, msg_data (badge_message "tok" 2) !! k
              = if String.eqb k "updateBadge" then Some "true" else None.
Proof.
  assert (H1 : CallSend (badge_message "tok" 2)
                 ∈ issued_by (updateBadgeCount "user_notifications" unread_record
                                read_record) token_world)
    by (rewrite token_world_badge; right; right; left).
  exact (conj H1
           (badge_message_is_badge_only "user_notifications" unread_record
              read_record token_world _ H1)).
Defined.

Lemma logged_none (w : World) (cs : list Call) (sched : list Outcome) :
  drop (List.length (console w)) (console (mkWorld (db w) cs (console w) sched (unhandled w))) = [].
Proof. simpl. apply drop_all. Qed.

Ltac first_failure H i :=
  intros H; exfalso; specialize (H i); simpl in H;
  match type of H with
  | _ -> ?o = _ =>
      match goal with Ho : o = _ |- _ => rewrite Ho in H end
  end;
  discriminate H; lia.

(** X7. The badge synchronizer returns [{ success: true }] exactly when
    it issued a send and that send succeeded, and [null] otherwise. It
    writes nothing to the console as long as the calls it issues
    succeed, whatever it skips; when one of them fails it writes that
    one error, after its label, and nothing else. *)
Theorem badge_result_and_console
    (collection : string) (b a : NotificationData) (w : World) :
  (fst (updateBadgeCount collection b a w) = Ok RSuccess <->
   sends (issued_by (updateBadgeCount collection b a) w) = 1%nat /\
   outcome_at 2 w = Succeeds) /\
  (fst (updateBadgeCount collection b a w) <> Ok RSuccess ->
   fst (updateBadgeCount collection b a w) = Ok RNull) /\
  (issued_calls_succeed (updateBadgeCount collection b a) w ->
   logged_by (updateBadgeCount collection b a) w = []) /\
  (~ issued_calls_succeed (updateBadgeCount collection b a) w ->
   exists e,
     logged_by (updateBadgeCount collection b a) w
     = [LogError "Error updating badge count:" e]).
Proof.
  unfold logged_by, issued_calls_succeed. rewrite badge_issued.
  destruct (is_notification_collection collection) eqn:Hcoll; simpl.
  - rewrite (badge_run collection b a w Hcoll). unfold sends.
    assert (Hnone : forall w0 : World,
              (fst (Ok RNull, w0) = Ok RSuccess <->
               List.length (List.filter is_send ([] : list Call)) = 1%nat /\
               outcome_at 2 w = Succeeds) /\
              (fst (Ok RNull, w0) <> Ok RSuccess -> fst (Ok RNull, w0) = Ok RNull)).
    { intros w0. simpl. split; [split; [discriminate | intros [[=] _]] | reflexivity]. }
    destruct (unread_to_other b a).
    + destruct (truthy (recipientId a)) as [r |].
      * destruct (outcome_at 0 w) eqn:H0.
        -- destruct (outcome_at 1 w) eqn:H1.
           ++ destruct (user_tokens (db w) !! r) as [d |].
              ** destruct (truthy (token d)) as [tok |].
                 --- destruct (outcome_at 2 w) eqn:H2; simpl.
                     +++ split; [split; auto |]. split; [congruence |].
                         split; [intros _; apply drop_all |].
                         intros Hn. exfalso. apply Hn. intros i Hi.
                         destruct i as [| [| [| i]]]; try assumption. simpl in Hi. lia.
                     +++ split; [split; [discriminate | intros [_ [=]]] |].
                         split; [reflexivity |].
                         split; [first_failure H 2%nat |].
                         intros _. eexists. apply drop_app_length.
                     +++ split; [split; [discriminate | intros [_ [=]]] |].
                         split; [reflexivity |].
                         split; [first_failure H 2%nat |].
                         intros _. eexists. apply drop_app_length.
                 --- simpl. split; [split; [discriminate | intros [[=] _]] |].
                     split; [reflexivity |].
                     split; [intros _; apply drop_all |].
                     intros Hn. exfalso. apply Hn. intros i Hi.
                     destruct i as [| [| i]]; try assumption. simpl in Hi. lia.
              ** simpl. split; [split; [discriminate | intros [[=] _]] |].
                 split; [reflexivity |].
                 split; [intros _; apply drop_all |].
                 intros Hn. exfalso. apply Hn. intros i Hi.
                 destruct i as [| [| i]]; try assumption. simpl in Hi. lia.
           ++ simpl. split; [split; [discriminate | intros [[=] _]] |].
              split; [reflexivity |].
              split; [first_failure H 1%nat |].
              intros _. eexists. apply drop_app_length.
           ++ simpl. split; [split; [discriminate | intros [[=] _]] |].
              split; [reflexivity |].
              split; [first_failure H 1%nat |].
              intros _. eexists. apply drop_app_length.
        -- simpl. split; [split; [discriminate | intros [[=] _]] |].
           split; [reflexivity |].
           split; [first_failure H 0%nat |].
           intros _. eexists. apply drop_app_length.
        -- simpl. split; [split; [discriminate | intros [[=] _]] |].
           split; [reflexivity |].
           split; [first_failure H 0%nat |].
           intros _. eexists. apply drop_app_length.
      * destruct (Hnone w) as [Ha Hb]. split; [exact Ha |]. split; [exact Hb |].
        simpl. split; [intros _; apply drop_all |].
        intros Hn. exfalso. apply Hn. intros i Hi. simpl in Hi. lia.
    + destruct (Hnone w) as [Ha Hb]. split; [exact Ha |]. split; [exact Hb |].
      simpl. split; [intros _; apply drop_all |].
      intros Hn. exfalso. apply Hn. intros i Hi. simpl in Hi. lia.
  - rewrite (badge_ignores collection b a w Hcoll). simpl.
    split; [split; [discriminate | intros [[=] _]] |].
    split; [reflexivity |].
    split; [intros _; apply drop_all |].
    intros Hn. exfalso. apply Hn. intros i Hi. simpl in Hi. lia.
Qed.

(** ** The generator: what a run returns and writes *)

Lemma batch_commit_ok (batch : list BatchUpdate) (w w' : World) :
  batch_commit batch w = (Ok tt, w') ->
  calls w' = calls w ++ [CallCommit batch] /\
  events (db w') = fold_left apply_update batch (events (db w)) /\
  outcome_at 0 w = Succeeds.
Proof.
  unfold batch_commit, outcome_at. run_M.
  destruct (schedule w) as [| [| |] sched]; simpl; try discriminate;
    (destruct (forallb _ batch); simpl; [| discriminate]);
    intros [= <-]; simpl; auto.
Qed.

Lemma remind_selected_success (now : Timestamp) (docs : list (string * EventData))
    (w w' : World) :
  remind_selected now docs w = (Ok RSuccess, w') ->
  docs <> [] /\
  calls w' = calls w ++ flat_map (event_adds now) docs
                     ++ [CallCommit (flat_map event_updates docs)] /\
  events (db w')
  = fold_left apply_update (flat_map event_updates docs) (events (db w)).
Proof.
  destruct (decide (docs = [])) as [-> | Hne]; [discriminate |].
  rewrite (remind_selected_unfold now docs w Hne).
  set (w0 := mkWorld _ _ _ _ _).
  destruct (remind_events_runs now docs [] [] w0)
    as (r1 & w1 & cs & Hrun & (Hc1 & He1 & _) & _ & Hok & _).
  rewrite Hrun. simpl in Hc1, He1.
  destruct r1 as [st | e]; [| discriminate].
  destruct (Hok st eq_refl) as [-> Hbatch]. simpl in Hbatch. rewrite Hbatch.
  destruct (batch_commit _ w1) as [[[] | e] w2] eqn:Hcommit; [| discriminate].
  apply batch_commit_ok in Hcommit as (Hc2 & He2 & _).
  destruct (Promise_all_world (snd st) w2) as (Hd3 & Hc3 & _).
  destruct (Promise_all (snd st) w2) as [[[] | e] w3]; [| discriminate].
  simpl in Hd3, Hc3. intros [= <-]. simpl. rewrite Hd3, Hc3.
  split; [exact Hne |]. split.
  - rewrite Hc2, Hc1, <- app_assoc. reflexivity.
  - rewrite He2, He1. reflexivity.
Qed.

Lemma generator_success (now : Timestamp) (w : World) :
  fst (sendEventReminders now w) = Ok RSuccess ->
  selected now (db w) <> [] /\
  issued_by (sendEventReminders now) w
  = CallQueryEvents (oneHourLater now) (twoHoursLater now)
    :: flat_map (event_adds now) (selected now (db w))
       ++ [CallCommit (flat_map event_updates (selected now (db w)))] /\
  events (db (snd (sendEventReminders now w)))
  = fold_left apply_update (flat_map event_updates (selected now (db w)))
      (events (db w)).
Proof.
  unfold issued_by, sendEventReminders, try_catch.
  rewrite sendEventReminders_body_unfold.
  destruct (outcome_at 0 w); try discriminate.
  destruct (remind_selected _ _ _) as [[v | e] w'] eqn:Hrun; [| discriminate].
  simpl. intros [= ->].
  apply remind_selected_success in Hrun as (Hne & Hc & He). simpl in Hc, He.
  split; [exact Hne |]. split; [| exact He].
  rewrite Hc, <- app_assoc. apply drop_app_length.
Qed.

Lemma selected_empty (now : Timestamp) (s : Store) :
  (forall id e, events s !! id = Some e ->
                in_window (oneHourLater now) (twoHoursLater now) e = false) ->
  selected now s = [].
Proof.
  intros Hnone. destruct (selected now s) as [| doc docs] eqn:Hsel; [reflexivity |].
  assert (Hin : doc ∈ selected now s) by (rewrite Hsel; left).
  apply selected_lookup in Hin as [Hev Hwin].
  rewrite (Hnone _ _ Hev) in Hwin. discriminate.
Qed.

(** X8. When the query is answered and no event document starts in the
    window of the run, the generator does nothing more: it has issued
    the query and nothing else, not even an empty commit, writes that
    it found no upcoming events and returns [null], with the store as
    it was. *)
Theorem no_events_no_work (now : Timestamp) (w : World) :
  outcome_at 0 w = Succeeds ->
  (forall id e, events (db w) !! id = Some e ->
                in_window (oneHourLater now) (twoHoursLater now) e = false) ->
  sendEventReminders now w
  = (Ok RNull,
     mkWorld (db w)
       (calls w ++ [CallQueryEvents (oneHourLater now) (twoHoursLater now)])
       (console w ++ [Log "No upcoming events found for reminders"])
       (tail (schedule w)) (unhandled w)).
Proof.
  intros Hq Hnone. unfold sendEventReminders, try_catch.
  rewrite sendEventReminders_body_unfold, Hq, (selected_empty now (db w) Hnone).
  reflexivity.
Qed.

Lemma no_events_no_work_witness :
  outcome_at 0 token_world = Succeeds /\
  (forall id e, events (db token_world) !! id = Some e ->
                in_window (oneHourLater run_time) (twoHoursLater run_time) e = false) /\
  sendEventReminders run_time token_world
  = (Ok RNull,
     mkWorld (db token_world)
       (calls token_world
        ++ [CallQueryEvents (oneHourLater run_time) (twoHoursLater run_time)])
       (console token_world ++ [Log "No upcoming events found for reminders"])
       (tail (schedule token_world)) (unhandled token_world)).
Proof.
  assert (H1 : outcome_at 0 token_world = Succeeds) by reflexivity.
  assert (H2 : forall id e, events (db token_world) !! id = Some e ->
                 in_window (oneHourLater run_time) (twoHoursLater run_time) e = false).
  { intros id e H. simpl in H. rewrite lookup_empty in H. discriminate H. }
  exact (conj H1 (conj H2 (no_events_no_work run_time token_world H1 H2))).
Defined.

Lemma flagged_selection_plans_nothing (now : Timestamp)
    (docs : list (string * EventData)) :
  (forall doc, doc ∈ docs -> reminderSent (snd doc) = Some true) ->
  flat_map (event_adds now) docs = [] /\ flat_map event_updates docs = [].
Proof.
  induction docs as [| doc docs IH]; intros Hall; simpl; [auto |].
  destruct IH as [-> ->]; [intros d Hd; apply Hall; right; exact Hd |].
  unfold event_adds, event_updates. rewrite (Hall doc) by left. auto.
Qed.

(** X9. When every call succeeds and every event document of the
    window was reminded of already, the run still commits its batch,
    which is empty: it issues the query and that commit and no creation
    of a record, leaves the event documents as they are, and returns
    [{ success: true }]. *)
Theorem reminded_events_empty_batch (now : Timestamp) (w : World) :
  all_succeed (schedule w) ->
  selected now (db w) <> [] ->
  (forall doc, doc ∈ selected now (db w) -> reminderSent (snd doc) = Some true) ->
  issued_by (sendEventReminders now) w
  = [CallQueryEvents (oneHourLater now) (twoHoursLater now); CallCommit []] /\
  events (db (snd (sendEventReminders now w))) = events (db w) /\
  fst (sendEventReminders now w) = Ok RSuccess.
Proof.
  intros Hall Hne Hflagged.
  destruct (flagged_selection_plans_nothing now _ Hflagged) as [Hadds Hupd].
  destruct (generator_run now w) as (adds & tl & -> & _ & _ & _ & _ & Hfree).
  destruct (Hfree Hall Hne) as (-> & -> & -> & ->).
  { intros id e Hdoc Hno. destruct Hno. exact (Hflagged (id, e) Hdoc). }
  rewrite Hadds, Hupd. auto.
Qed.

Lemma reminded_world_selected :
  selected run_time (db reminded_world) = [("E2", reminded_event)].
Proof. vm_compute. reflexivity. Qed.

Lemma reminded_events_empty_batch_witness :
  all_succeed (schedule reminded_world) /\
  selected run_time (db reminded_world) <> [] /\
  (forall doc, doc ∈ selected run_time (db reminded_world) ->
               reminderSent (snd doc) = Some true) /\
  issued_by (sendEventReminders run_time) reminded_world
  = [CallQueryEvents (oneHourLater run_time) (twoHoursLater run_time); CallCommit []] /\
  events (db (snd (sendEventReminders run_time reminded_world)))
  = events (db reminded_world) /\
  fst (sendEventReminders run_time reminded_world) = Ok RSuccess.
Proof.
  assert (H1 : all_succeed (schedule reminded_world)) by constructor.
  assert (H2 : selected run_time (db reminded_world) <> [])
    by (rewrite reminded_world_selected; discriminate).
  assert (H3 : forall doc, doc ∈ selected run_time (db reminded_world) ->
                 reminderSent (snd doc) = Some true).
  { intros doc Hdoc. rewrite reminded_world_selected in Hdoc.
    apply list_elem_of_singleton in Hdoc. rewrite Hdoc. reflexivity. }
  exact (conj H1 (conj H2 (conj H3
           (reminded_events_empty_batch run_time reminded_world H1 H2 H3)))).
Defined.

Lemma set_reminderSent_twice (b : bool) (e : EventData) :
  set_reminderSent b (set_reminderSent b e) = set_reminderSent b e.
Proof. reflexivity. Qed.

(** A committed batch, document by document. *)
Lemma apply_updates_lookup (batch : list BatchUpdate) :
  forall (evs : gmap string EventData) (eventId : string),
    Forall (fun u => update_reminderSent u = true) batch ->
    fold_left apply_update batch evs !! eventId
    = if existsb (fun u => String.eqb (update_ref u) eventId) batch
      then set_reminderSent true <$> evs !! eventId
      else evs !! eventId.
Proof.
  induction batch as [| u batch IH]; intros evs eventId Hall; simpl; [reflexivity |].
  inversion Hall as [| u' batch' Hu Hbatch]; subst.
  rewrite (IH _ eventId Hbatch). unfold apply_update. rewrite Hu.
  destruct (String.eqb_spec (update_ref u) eventId) as [-> | Hne]; simpl.
  - rewrite lookup_alter_eq.
    destruct (existsb _ batch); [| reflexivity].
    destruct (evs !! eventId); reflexivity.
  - rewrite lookup_alter_ne by exact Hne. reflexivity.
Qed.

Lemma due_spec (now : Timestamp) (s : Store) (eventId : string) (e : EventData) :
  events s !! eventId = Some e ->
  existsb (fun u => String.eqb (update_ref u) eventId)
    (flat_map event_updates (selected now s))
  = due now e.
Proof.
  intros Hev. apply eq_true_iff_eq. rewrite existsb_exists. unfold due.
  rewrite andb_true_iff, negb_true_iff. split.
  - intros (u & Hu & Href). apply String.eqb_eq in Href.
    apply in_flat_map in Hu as (doc & Hdoc & Hu).
    apply list_elem_of_In, selected_lookup in Hdoc as [Hdoc Hwin].
    unfold event_updates in Hu.
    destruct (truthy_bool (reminderSent (snd doc))) eqn:Hflag; [inversion Hu |].
    destruct Hu as [<- | []]. simpl in Href. subst eventId.
    rewrite Hev in Hdoc. injection Hdoc as ->. auto.
  - intros [Hwin Hflag]. exists (mkBatchUpdate eventId true).
    split; [| apply String.eqb_refl].
    apply in_flat_map. exists (eventId, e). split.
    + apply list_elem_of_In, selected_lookup. auto.
    + unfold event_updates. simpl. rewrite Hflag. left. reflexivity.
Qed.

(** The event documents after the batch of a run is committed. *)
Lemma committed_events (now : Timestamp) (s : Store) :
  fold_left apply_update (flat_map event_updates (selected now s)) (events s)
  = remind now <$> events s.
Proof.
  apply map_eq. intros eventId.
  rewrite (apply_updates_lookup _ _ _ (event_updates_set_true _)), lookup_fmap.
  destruct (events s !! eventId) as [e |] eqn:Hev; simpl.
  - rewrite (due_spec now s eventId e Hev). unfold remind.
    destruct (due now e); reflexivity.
  - destruct (existsb _ _); reflexivity.
Qed.

(** X10. The generator returns [{ success: true }] only after the whole
    run was done: the query answered at least one event document,
    every creation the loop has for these documents was issued, in the
    order of the query's answer, the batch with one write per event
    that was due was committed last, and every document of the window
    has [reminderSent] true. *)
Theorem success_means_all_done (now : Timestamp) (w : World) :
  fst (sendEventReminders now w) = Ok RSuccess ->
  selected now (db w) <> [] /\
  issued_by (sendEventReminders now) w
  = CallQueryEvents (oneHourLater now) (twoHoursLater now)
    :: flat_map (event_adds now) (selected now (db w))
       ++ [CallCommit (flat_map event_updates (selected now (db w)))] /\
  events (db (snd (sendEventReminders now w))) = remind now <$> events (db w) /\
  forall id e,
    (id, e) ∈ selected now (db w) ->
    exists e',
      events (db (snd (sendEventReminders now w))) !! id = Some e' /\
      reminderSent e' = Some true.
Proof.
  intros Hok. apply generator_success in Hok as (Hne & Hissued & Hev).
  rewrite committed_events in Hev.
  split; [exact Hne |]. split; [exact Hissued |]. split; [exact Hev |].
  intros id e Hsel. apply selected_lookup in Hsel as [Hlook Hwin]. simpl in *.
  rewrite Hev, lookup_fmap, Hlook. simpl. eexists. split; [reflexivity |].
  unfold remind, due. rewrite Hwin. simpl.
  destruct (reminderSent e) as [[|] |] eqn:Hflag; simpl; auto.
Qed.

Lemma success_means_all_done_witness :
  fst (sendEventReminders run_time events_world) = Ok RSuccess /\
  selected run_time (db events_world) <> [] /\
  issued_by (sendEventReminders run_time) events_world
  = CallQueryEvents (oneHourLater run_time) (twoHoursLater run_time)
    :: flat_map (event_adds run_time) (selected run_time (db events_world))
       ++ [CallCommit (flat_map event_updates (selected run_time (db events_world)))] /\
  events (db (snd (sendEventReminders run_time events_world)))
  = remind run_time <$> events (db events_world) /\
  forall id e,
    (id, e) ∈ selected run_time (db events_world) ->
    exists e',
      events (db (snd (sendEventReminders run_time events_world))) !! id = Some e' /\
      reminderSent e' = Some true.
Proof.
  assert (H1 : fst (sendEventReminders run_time events_world) = Ok RSuccess)
    by (vm_compute; reflexivity).
  exact (conj H1 (success_means_all_done run_time events_world H1)).
Defined.

(** ** What no handler does to the store *)

Lemma store_kept_refl (s : Store) : store_kept s s.
Proof. unfold store_kept. auto. Qed.

Lemma store_kept_trans (s1 s2 s3 : Store) :
  store_kept s1 s2 -> store_kept s2 s3 -> store_kept s1 s3.
Proof.
  unfold store_kept. intros (Hu1 & Hc1 & Ht1 & He1) (Hu2 & Hc2 & Ht2 & He2).
  split; [etrans; eauto |]. split; [etrans; eauto |].
  split; congruence.
Qed.

Lemma keeps_store_same {A} (m : M A) :
  (forall w, db (snd (m w)) = db w) -> keeps_store m.
Proof. intros H w. rewrite H. apply store_kept_refl. Qed.

Lemma keeps_store_ret {A} (a : A) : keeps_store (ret a).
Proof. apply keeps_store_same. reflexivity. Qed.

Lemma keeps_store_throw {A} (e : Error) : keeps_store (throw (A := A) e).
Proof. apply keeps_store_same. reflexivity. Qed.

Lemma keeps_store_bind {A B} (m : M A) (k : A -> M B) :
  keeps_store m -> (forall a, keeps_store (k a)) -> keeps_store (bind m k).
Proof.
  intros Hm Hk w. unfold bind. specialize (Hm w).
  destruct (m w) as [[a | e] w1]; simpl in *; [| exact Hm].
  eapply store_kept_trans; [exact Hm | apply Hk].
Qed.

Lemma keeps_store_try_catch {A} (body : M A) (handler : Error -> M A) :
  keeps_store body -> (forall e, keeps_store (handler e)) ->
  keeps_store (try_catch body handler).
Proof.
  intros Hm Hk w. unfold try_catch. specialize (Hm w).
  destruct (body w) as [[a | e] w1]; simpl in *; [exact Hm |].
  eapply store_kept_trans; [exact Hm | apply Hk].
Qed.

Lemma keeps_store_console_log (text : string) : keeps_store (console_log text).
Proof. apply keeps_store_same. reflexivity. Qed.

Lemma keeps_store_console_error (text : string) (e : Error) :
  keeps_store (console_error text e).
Proof. apply keeps_store_same. reflexivity. Qed.

Lemma keeps_store_await_call {A} (c : Call) (e : Error) (k : M A) :
  keeps_store k -> keeps_store (await_call c e k).
Proof.
  intros Hk. unfold await_call.
  apply keeps_store_bind; [apply keeps_store_same; reflexivity |]. intros _.
  apply keeps_store_bind.
  - apply keeps_store_same. intros w. unfold next_outcome.
    destruct (schedule w); reflexivity.
  - intros [| |]; [exact Hk | apply keeps_store_throw | apply keeps_store_throw].
Qed.

Lemma insert_notification_kept (collection : string) (d : NotificationData)
    (s : Store) :
  store_kept s (insert_notification collection d s).
Proof.
  assert (Hfresh : forall m : gmap string NotificationData, m ⊆ <[fresh (dom m) := d]> m).
  { intros m. apply insert_subseteq, not_elem_of_dom, is_fresh. }
  unfold insert_notification, store_kept.
  destruct (String.eqb collection "user_notifications"); simpl; [auto |].
  destruct (String.eqb collection "creator_notifications"); simpl; auto.
Qed.

Lemma keeps_store_collection_add (collection : string) (d : NotificationData) :
  keeps_store (collection_add collection d).
Proof.
  intros w. rewrite collection_add_cases.
  destruct (refused d); [apply store_kept_refl |].
  destruct (default Succeeds (head (schedule w))); simpl;
    first [apply insert_notification_kept | apply store_kept_refl].
Qed.

Lemma erase_flag_updates (batch : list BatchUpdate) :
  forall evs : gmap string EventData,
    erase_flag <$> fold_left apply_update batch evs = erase_flag <$> evs.
Proof.
  induction batch as [| u batch IH]; intros evs; simpl; [reflexivity |].
  rewrite IH. apply map_eq. intros id. unfold apply_update.
  rewrite !lookup_fmap.
  destruct (decide (update_ref u = id)) as [<- | Hne].
  - rewrite lookup_alter_eq. destruct (evs !! update_ref u); reflexivity.
  - rewrite lookup_alter_ne by exact Hne. reflexivity.
Qed.

Lemma keeps_store_batch_commit (batch : list BatchUpdate) :
  keeps_store (batch_commit batch).
Proof.
  intros w. unfold batch_commit. run_M.
  destruct (schedule w) as [| [| |] sched]; simpl; try apply store_kept_refl;
    (destruct (forallb _ batch); simpl; [| apply store_kept_refl]);
    unfold store_kept; simpl; rewrite erase_flag_updates; auto.
Qed.

Lemma keeps_store_Promise_all (promises : list Promise) :
  keeps_store (Promise_all promises).
Proof.
  apply keeps_store_same. intros w. apply Promise_all_world.
Qed.

Lemma keeps_store_remind_attendees (now : Timestamp) (eventId : string)
    (event : EventData) (ids : list string) :
  forall promises, keeps_store (remind_attendees now eventId event ids promises).
Proof.
  induction ids as [| a ids IH]; intros promises; simpl.
  - apply keeps_store_ret.
  - apply keeps_store_bind; [apply keeps_store_collection_add |].
    intros p. apply IH.
Qed.

Lemma keeps_store_remind_event (now : Timestamp) (eventDoc : string * EventData)
    (batch : list BatchUpdate) (promises : list Promise) :
  keeps_store (remind_event now eventDoc batch promises).
Proof.
  unfold remind_event.
  destruct (truthy_bool (reminderSent (snd eventDoc))); [apply keeps_store_ret |].
  apply keeps_store_bind.
  - destruct (truthy_string (creatorId (snd eventDoc))); [| apply keeps_store_ret].
    apply keeps_store_bind; [apply keeps_store_collection_add |].
    intros p. apply keeps_store_ret.
  - intros ps. apply keeps_store_bind; [| intros; apply keeps_store_ret].
    destruct (attendees (snd eventDoc)) as [ids |]; [| apply keeps_store_ret].
    destruct (0 <? List.length ids)%nat;
      [apply keeps_store_remind_attendees | apply keeps_store_ret].
Qed.

Lemma keeps_store_remind_events (now : Timestamp) (docs : list (string * EventData)) :
  forall batch promises, keeps_store (remind_events now docs batch promises).
Proof.
  induction docs as [| doc docs IH]; intros batch promises; simpl.
  - apply keeps_store_ret.
  - apply keeps_store_bind; [apply keeps_store_remind_event |].
    intros st. apply IH.
Qed.

Lemma keeps_store_generator (now : Timestamp) : keeps_store (sendEventReminders now).
Proof.
  unfold sendEventReminders.
  apply keeps_store_try_catch.
  - unfold sendEventReminders_body, query_events.
    apply keeps_store_bind.
    + apply keeps_store_await_call.
      apply keeps_store_bind; [apply keeps_store_same; reflexivity |].
      intros s. apply keeps_store_ret.
    + intros docs. unfold remind_selected. destruct docs as [| doc docs].
      * apply keeps_store_bind; [apply keeps_store_console_log |].
        intros _. apply keeps_store_ret.
      * apply keeps_store_bind; [apply keeps_store_console_log |]. intros _.
        apply keeps_store_bind; [apply keeps_store_remind_events |]. intros st.
        apply keeps_store_bind; [apply keeps_store_batch_commit |]. intros _.
        apply keeps_store_bind; [apply keeps_store_Promise_all |]. intros _.
        apply keeps_store_bind; [apply keeps_store_console_log |]. intros _.
        apply keeps_store_ret.
  - intros e. apply keeps_store_bind; [apply keeps_store_console_error |].
    intros _. apply keeps_store_ret.
Qed.

Lemma keeps_store_handler (t : Trigger) : keeps_store (handler t).
Proof.
  destruct t as [c i n | c b a | now]; simpl.
  - apply keeps_store_same. intros w. apply dispatcher_db.
  - apply keeps_store_same. intros w. apply badge_db.
  - apply keeps_store_generator.
Qed.

(** X12. Over any sequence of invocations of the three handlers:
    every notification record that was in the store is still there,
    under its id and with the same content; the token documents are the
    same; and the event documents are the same but for their
    [reminderSent] field, none created and none deleted. The two
    document triggers leave the whole store as it is. *)
Theorem handlers_keep_the_store (ts : list Trigger) (w : World) :
  (forall id d,
     user_notifications (db w) !! id = Some d ->
     user_notifications (db (run_all ts w)) !! id = Some d) /\
  (forall id d,
     creator_notifications (db w) !! id = Some d ->
     creator_notifications (db (run_all ts w)) !! id = Some d) /\
  user_tokens (db (run_all ts w)) = user_tokens (db w) /\
  erase_flag <$> events (db (run_all ts w)) = erase_flag <$> events (db w) /\
  (forall c i n b a,
     db (snd (handler (OnCreate c i n) w)) = db w /\
     db (snd (handler (OnUpdate c b a) w)) = db w).
Proof.
  assert (Hkept : store_kept (db w) (db (run_all ts w))).
  { revert w. induction ts as [| t ts IH]; intros w; simpl.
    - apply store_kept_refl.
    - eapply store_kept_trans; [apply (keeps_store_handler t w) | apply IH]. }
  destruct Hkept as (Hu & Hc & Ht & He).
  split; [intros id d Hd; exact (lookup_weaken _ _ _ _ Hd Hu) |].
  split; [intros id d Hd; exact (lookup_weaken _ _ _ _ Hd Hc) |].
  split; [exact Ht |]. split; [exact He |].
  intros c i n b a. simpl. split; [apply dispatcher_db | apply badge_db].
Qed.

(** ** A second run *)

Lemma nothing_issued_for_flagged (now : Timestamp) (w : World)
    (eventId : string) (event : EventData) :
  events (db w) !! eventId = Some event ->
  reminderSent event = Some true ->
  List.filter (notifies eventId) (issued_by (sendEventReminders now) w) = [] /\
  updates_of eventId (batch_writes (issued_by (sendEventReminders now) w)) = [].
Proof.
  intros Hev Hflag.
  assert (Hdoc : forall doc, doc ∈ selected now (db w) -> fst doc = eventId ->
                   truthy_bool (reminderSent (snd doc)) = true).
  { intros doc Hdoc Heq. apply selected_lookup in Hdoc as [Hdoc _].
    rewrite Heq, Hev in Hdoc. injection Hdoc as <-. rewrite Hflag. reflexivity. }
  destruct (generator_run now w) as (adds & tl & -> & Hp & Htl & _).
  split.
  - apply filter_none. intros c Hc.
    apply elem_of_cons in Hc as [-> | Hc]; [reflexivity |].
    apply elem_of_app in Hc as [Hc | Hc].
    + destruct Hp as [k Hk].
      assert (Hin : c ∈ flat_map (event_adds now) (selected now (db w)))
        by (rewrite Hk; apply elem_of_app; auto).
      apply list_elem_of_In, in_flat_map in Hin as (doc & Hsel & Hin).
      apply list_elem_of_In in Hsel, Hin.
      rewrite (notifies_event_adds now doc eventId c Hin).
      apply String.eqb_neq. intros Heq.
      apply elem_of_event_adds in Hin as [Hunflagged _].
      rewrite (Hdoc doc Hsel Heq) in Hunflagged. discriminate.
    + destruct Htl as [-> | ->]; [inversion Hc |].
      apply list_elem_of_singleton in Hc as ->. reflexivity.
  - change (CallQueryEvents (oneHourLater now) (twoHoursLater now) :: adds ++ tl)
      with ([CallQueryEvents (oneHourLater now) (twoHoursLater now)] ++ adds ++ tl).
    rewrite !batch_writes_app, (batch_writes_adds now _ adds Hp). simpl.
    destruct Htl as [-> | ->]; [reflexivity |]. simpl. rewrite app_nil_r.
    apply filter_none. intros u Hu.
    apply list_elem_of_In, in_flat_map in Hu as (doc & Hsel & Hu).
    apply list_elem_of_In in Hsel, Hu.
    rewrite (update_ref_event_updates doc eventId u Hu).
    apply String.eqb_neq. intros Heq.
    unfold event_updates in Hu. rewrite (Hdoc doc Hsel Heq) in Hu. inversion Hu.
Qed.

(** After a run that returned [{ success: true }], every document of
    its window has [reminderSent] true. *)
Lemma flagged_after_success (now : Timestamp) (w : World)
    (eventId : string) (event : EventData) :
  fst (sendEventReminders now w) = Ok RSuccess ->
  (eventId, event) ∈ selected now (db w) ->
  exists event',
    events (db (snd (sendEventReminders now w))) !! eventId = Some event' /\
    reminderSent event' = Some true.
Proof.
  intros Hok Hsel. apply generator_success in Hok as (_ & _ & Hev).
  rewrite committed_events in Hev.
  apply selected_lookup in Hsel as [Hlook Hwin]. simpl in *.
  rewrite Hev, lookup_fmap, Hlook. simpl. eexists. split; [reflexivity |].
  unfold remind, due. rewrite Hwin. simpl.
  destruct (reminderSent event) as [[|] |] eqn:Hflag; simpl; auto.
Qed.

(** X13. No event is reminded of twice: after a run that returned
    [{ success: true }], a later run, at whatever time, on the store
    the first one left and whatever its own calls do, issues no
    creation of a record and no batch write for any event the first
    run selected. *)
Theorem no_second_reminder
    (now later : Timestamp) (w w2 : World) (eventId : string) (event : EventData) :
  fst (sendEventReminders now w) = Ok RSuccess ->
  (eventId, event) ∈ selected now (db w) ->
  db w2 = db (snd (sendEventReminders now w)) ->
  List.filter (notifies eventId) (issued_by (sendEventReminders later) w2) = [] /\
  updates_of eventId (batch_writes (issued_by (sendEventReminders later) w2)) = [].
Proof.
  intros Hok Hsel Hdb.
  destruct (flagged_after_success now w eventId event Hok Hsel)
    as (event' & Hev & Hflag).
  rewrite <- Hdb in Hev.
  exact (nothing_issued_for_flagged later w2 eventId event' Hev Hflag).
Qed.

Lemma no_second_reminder_witness :
  fst (sendEventReminders run_time events_world) = Ok RSuccess /\
  ("E1", launch_event) ∈ selected run_time (db events_world) /\
  db (snd (sendEventReminders run_time events_world))
  = db (snd (sendEventReminders run_time events_world)) /\
  List.filter (notifies "E1")
    (issued_by (sendEventReminders run_time)
       (snd (sendEventReminders run_time events_world))) = [] /\
  updates_of "E1"
    (batch_writes
       (issued_by (sendEventReminders run_time)
          (snd (sendEventReminders run_time events_world)))) = [].
Proof.
  assert (H1 : fst (sendEventReminders run_time events_world) = Ok RSuccess)
    by (vm_compute; reflexivity).
  exact (conj H1 (conj launch_selected (conj eq_refl
           (no_second_reminder run_time run_time events_world _ "E1" launch_event
              H1 launch_selected eq_refl)))).
Defined.

(** ** The records a run creates *)

Lemma elem_of_event_adds_targets (now : Timestamp) (doc : string * EventData)
    (c : Call) :
  c ∈ event_adds now doc ->
  truthy_bool (reminderSent (snd doc)) = false /\
  ((c = CallAdd "creator_notifications" (creator_reminder now (fst doc) (snd doc)) /\
    truthy_string (creatorId (snd doc)) = true) \/
   (exists ids a,
      attendees (snd doc) = Some ids /\ a ∈ ids /\
      c = CallAdd "user_notifications"
            (attendee_reminder now (fst doc) (snd doc) a))).
Proof.
  unfold event_adds, attendee_adds.
  destruct (truthy_bool (reminderSent (snd doc))); [intros H; inversion H |].
  intros H. split; [reflexivity |].
  apply elem_of_app in H as [H | H].
  - destruct (truthy_string (creatorId (snd doc))); [| inversion H].
    apply list_elem_of_singleton in H. auto.
  - destruct (attendees (snd doc)) as [ids |]; simpl in H; [| inversion H].
    apply list_elem_of_fmap in H as (a & -> & Ha). right. exists ids, a. auto.
Qed.

(** Every creation a run issues is one the loop has for a due event. *)
Lemma issued_add_origin (now : Timestamp) (w : World) (collection : string)
    (d : NotificationData) :
  CallAdd collection d ∈ issued_by (sendEventReminders now) w ->
  exists id e,
    events (db w) !! id = Some e /\ due now e = true /\
    ((collection = "creator_notifications" /\ d = creator_reminder now id e /\
      truthy_string (creatorId e) = true) \/
     (collection = "user_notifications" /\
      exists ids a, attendees e = Some ids /\ a ∈ ids /\
                    d = attendee_reminder now id e a)).
Proof.
  destruct (generator_run now w) as (adds & tl & -> & [k Hk] & Htl & _).
  intros H. apply elem_of_cons in H as [[=] | H].
  apply elem_of_app in H as [H | H].
  - assert (Hin : CallAdd collection d ∈ flat_map (event_adds now) (selected now (db w)))
      by (rewrite Hk; apply elem_of_app; auto).
    apply list_elem_of_In, in_flat_map in Hin as ([id e] & Hsel & Hin).
    apply list_elem_of_In in Hsel, Hin.
    apply selected_lookup in Hsel as [Hev Hwin]. simpl in Hev, Hwin.
    apply elem_of_event_adds_targets in Hin as [Hunflagged Hc]. simpl in *.
    exists id, e. split; [exact Hev |].
    split; [unfold due; rewrite Hwin, Hunflagged; reflexivity |].
    destruct Hc as [[[= -> ->] Hcreator] | (ids & a & Hids & Ha & [= -> ->])].
    + left. auto.
    + right. split; [reflexivity |]. exists ids, a. auto.
  - destruct Htl as [-> | ->]; [inversion H |].
    apply list_elem_of_singleton in H. discriminate H.
Qed.

(** X14. Whatever the calls do, every record a run of the generator
    creates is a reminder of an event that is due: the event document
    exists, starts in the window and was not reminded of yet. The
    record is unread, of type [eventStartingSoon], stamped with the time
    of the run and linked to [event/<eventId>]; it is either in
    [creator_notifications], marked [eventCreator] and addressed to the
    event's (truthy) creatorId, or in [user_notifications], marked
    [user] and addressed to an entry of the event's attendees. *)
Theorem every_record_is_a_due_reminder
    (now : Timestamp) (w : World) (collection : string) (d : NotificationData) :
  CallAdd collection d ∈ issued_by (sendEventReminders now) w ->
  exists id e,
    events (db w) !! id = Some e /\ due now e = true /\
    status d = Some "unread" /\ type d = Some "eventStartingSoon" /\
    title d = Some "Event Starting Soon" /\ createdAt d = Some now /\
    actionLink d = Some ("event/" +:+ id) /\
    metadata d = Some (reminder_metadata id e) /\
    ((collection = "creator_notifications" /\
      recipientType d = Some "eventCreator" /\
      recipientId d = creatorId e /\ truthy_string (creatorId e) = true) \/
     (collection = "user_notifications" /\
      recipientType d = Some "user" /\
      exists ids a, attendees e = Some ids /\ a ∈ ids /\ recipientId d = Some a)).
Proof.
  intros H. apply issued_add_origin in H as (id & e & Hev & Hdue & Horigin).
  exists id, e. split; [exact Hev |]. split; [exact Hdue |].
  destruct Horigin as [(-> & -> & Hcreator) | (-> & ids & a & Hids & Ha & ->)]; simpl.
  - repeat (split; [reflexivity |]). left. auto.
  - repeat (split; [reflexivity |]). right.
    split; [reflexivity |]. split; [reflexivity |]. exists ids, a. auto.
Qed.

Lemma launch_creator_add_issued :
  CallAdd "creator_notifications" (creator_reminder run_time "E1" launch_event)
    ∈ issued_by (sendEventReminders run_time) events_world.
Proof.
  apply list_elem_of_In. vm_compute.
  repeat (first [left; reflexivity | right]).
Qed.

Lemma every_record_is_a_due_reminder_witness :
  CallAdd "creator_notifications" (creator_reminder run_time "E1" launch_event)
    ∈ issued_by (sendEventReminders run_time) events_world /\
  exists id e,
    events (db events_world) !! id = Some e /\ due run_time e = true /\
    status (creator_reminder run_time "E1" launch_event) = Some "unread" /\
    type (creator_reminder run_time "E1" launch_event) = Some "eventStartingSoon" /\
    title (creator_reminder run_time "E1" launch_event) = Some "Event Starting Soon" /\
    createdAt (creator_reminder run_time "E1" launch_event) = Some run_time /\
    actionLink (creator_reminder run_time "E1" launch_event)
    = Some ("event/" +:+ id) /\
    metadata (creator_reminder run_time "E1" launch_event)
    = Some (reminder_metadata id e) /\
    (("creator_notifications" = "creator_notifications" /\
      recipientType (creator_reminder run_time "E1" launch_event)
      = Some "eventCreator" /\
      recipientId (creator_reminder run_time "E1" launch_event) = creatorId e /\
      truthy_string (creatorId e) = true) \/
     ("creator_notifications" = "user_notifications" /\
      recipientType (creator_reminder run_time "E1" launch_event) = Some "user" /\
      exists ids a, attendees e = Some ids /\ a ∈ ids /\
                    recipientId (creator_reminder run_time "E1" launch_event)
                    = Some a)).
Proof.
  exact (conj launch_creator_add_issued
           (every_record_is_a_due_reminder run_time events_world _ _
              launch_creator_add_issued)).
Defined.

(** ** From the generator to the dispatcher *)

Lemma reminder_payload (nid : string) (d : NotificationData)
    (id : string) (e : EventData) :
  metadata d = Some (reminder_metadata id e) ->
  type d = Some "eventStartingSoon" ->
  actionLink d = Some ("event/" +:+ id) ->
  messageData nid d !! "eventId" = Some id /\
  messageData nid d !! "actionLink" = Some ("event/" +:+ id) /\
  messageData nid d !! "type" = Some "eventStartingSoon" /\
  messageData nid d !! "notificationId" = Some nid /\
  messageData nid d !! "click_action" = Some "FLUTTER_NOTIFICATION_CLICK" /\
  (forall t, startTime e = Some t ->
             messageData nid d !! "startTime" = Some (Number_toString (Number_of_Z (toMillis t)))) /\
  (forall s, name e = Some s -> messageData nid d !! "eventName" = Some s) /\
  (forall s, venueAddress e = Some s ->
             messageData nid d !! "venueAddress" = Some s).
Proof.
  intros Hmd Htype Hlink. unfold messageData. rewrite Hmd.
  repeat split; try (intros x Hx);
    rewrite add_metadata_lookup; simpl; rewrite ?Hx; simpl;
    rewrite ?fixed_fields_lookup; simpl; rewrite ?Htype, ?Hlink; reflexivity.
Qed.

(** X15. The records the generator creates are dispatched: they are
    written to the two collections the dispatcher watches, and a
    message the dispatcher sends for one of them carries, in its data
    payload, the id of the event, the event's start in milliseconds,
    its name and venue when it has them, the link [event/<eventId>],
    the type [eventStartingSoon] and the id of the record, none of
    them overwritten by the metadata; it is titled
    [Event Starting Soon]. *)
Theorem reminders_are_dispatched
    (now : Timestamp) (w w2 : World) (collection nid : string)
    (d : NotificationData) (m : Message) :
  CallAdd collection d ∈ issued_by (sendEventReminders now) w ->
  CallSend m ∈ issued_by (sendNotificationToUser collection nid d) w2 ->
  is_notification_collection collection = true /\
  exists id e t,
    events (db w) !! id = Some e /\ startTime e = Some t /\
    msg_data m !! "eventId" = Some id /\
    msg_data m !! "startTime" = Some (Number_toString (Number_of_Z (toMillis t))) /\
    msg_data m !! "actionLink" = Some ("event/" +:+ id) /\
    msg_data m !! "type" = Some "eventStartingSoon" /\
    msg_data m !! "notificationId" = Some nid /\
    (forall s, name e = Some s -> msg_data m !! "eventName" = Some s) /\
    (forall s, venueAddress e = Some s -> msg_data m !! "venueAddress" = Some s) /\
    msg_notification m
    = Some (mkDisplay (Some "Event Starting Soon") (message d) None).
Proof.
  intros Hadd Hsend.
  apply issued_add_origin in Hadd as (id & e & Hev & Hdue & Horigin).
  apply dispatcher_sends_notification_message in Hsend
    as (r & tokdoc & tok & _ & _ & _ & ->).
  unfold due in Hdue. apply andb_true_iff in Hdue as [Hwin _].
  unfold in_window in Hwin. destruct (startTime e) as [t |] eqn:Ht; [| discriminate].
  assert (Hd : metadata d = Some (reminder_metadata id e) /\
               type d = Some "eventStartingSoon" /\
               actionLink d = Some ("event/" +:+ id) /\
               title d = Some "Event Starting Soon" /\ imageUrl d = None /\
               is_notification_collection collection = true).
  { destruct Horigin as [(-> & -> & _) | (-> & ids & a & _ & _ & ->)];
      repeat split. }
  destruct Hd as (Hmd & Htype & Hlink & Htitle & Himage & Hcoll).
  split; [exact Hcoll |].
  destruct (reminder_payload nid d id e Hmd Htype Hlink)
    as (H1 & H2 & H3 & H4 & _ & H6 & H7 & H8).
  exists id, e, t. simpl. rewrite Htitle, Himage.
  repeat (split; [first [assumption | apply H6; exact Ht] |]). reflexivity.
Qed.

Lemma launch_reminder_sent :
  CallSend (notification_message "R1" (creator_reminder run_time "E1" launch_event)
              "tok")
    ∈ issued_by (sendNotificationToUser "creator_notifications" "R1"
                   (creator_reminder run_time "E1" launch_event))
        (mkWorld (mkStore ∅ ∅ (<["C1" := mkTokenDoc (Some "tok")]> ∅) ∅) [] [] [] ∅).
Proof. rewrite dispatcher_issued. right. left. Qed.

Lemma reminders_are_dispatched_witness :
  CallAdd "creator_notifications" (creator_reminder run_time "E1" launch_event)
    ∈ issued_by (sendEventReminders run_time) events_world /\
  CallSend (notification_message "R1" (creator_reminder run_time "E1" launch_event)
              "tok")
    ∈ issued_by (sendNotificationToUser "creator_notifications" "R1"
                   (creator_reminder run_time "E1" launch_event))
        (mkWorld (mkStore ∅ ∅ (<["C1" := mkTokenDoc (Some "tok")]> ∅) ∅) [] [] [] ∅) /\
  is_notification_collection "creator_notifications" = true /\
  exists id e t,
    events (db events_world) !! id = Some e /\ startTime e = Some t /\
    msg_data (notification_message "R1"
                (creator_reminder run_time "E1" launch_event) "tok") !! "eventId"
    = Some id /\
    msg_data (notification_message "R1"
                (creator_reminder run_time "E1" launch_event) "tok") !! "startTime"
    = Some (Number_toString (Number_of_Z (toMillis t))) /\
    msg_data (notification_message "R1"
                (creator_reminder run_time "E1" launch_event) "tok") !! "actionLink"
    = Some ("event/" +:+ id) /\
    msg_data (notification_message "R1"
                (creator_reminder run_time "E1" launch_event) "tok") !! "type"
    = Some "eventStartingSoon" /\
    msg_data (notification_message "R1"
                (creator_reminder run_time "E1" launch_event) "tok") !! "notificationId"
    = Some "R1" /\
    (forall s, name e = Some s ->
       msg_data (notification_message "R1"
                   (creator_reminder run_time "E1" launch_event) "tok") !! "eventName"
       = Some s) /\
    (forall s, venueAddress e = Some s ->
       msg_data (notification_message "R1"
                   (creator_reminder run_time "E1" launch_event) "tok")
         !! "venueAddress"
       = Some s) /\
    msg_notification (notification_message "R1"
                        (creator_reminder run_time "E1" launch_event) "tok")
    = Some (mkDisplay (Some "Event Starting Soon")
              (message (creator_reminder run_time "E1" launch_event)) None).
Proof.
  exact (conj launch_creator_add_issued (conj launch_reminder_sent
           (reminders_are_dispatched run_time events_world _ _ "R1" _ _
              launch_creator_add_issued launch_reminder_sent))).
Defined.

(** ** The calls of a run, in order *)

(** X16. Whatever the calls do, a run of the generator issues the
    events query first, then creations of records only, and then at
    most one commit, which is its last call: it never sends a message,
    never reads a token, and issues every creation before the commit. *)
Theorem generator_call_order (now : Timestamp) (w : World) :
  exists adds,
    Forall (fun c => is_add c = true) adds /\
    (issued_by (sendEventReminders now) w
     = CallQueryEvents (oneHourLater now) (twoHoursLater now) :: adds \/
     exists batch,
       issued_by (sendEventReminders now) w
       = CallQueryEvents (oneHourLater now) (twoHoursLater now)
         :: adds ++ [CallCommit batch]).
Proof.
  destruct (generator_run now w) as (adds & tl & -> & [k Hk] & Htl & _).
  exists adds. split.
  - apply Forall_forall. intros c Hc.
    assert (Hin : c ∈ flat_map (event_adds now) (selected now (db w)))
      by (rewrite Hk; apply elem_of_app; auto).
    apply list_elem_of_In, in_flat_map in Hin as (doc & _ & Hin).
    apply list_elem_of_In, elem_of_event_adds in Hin as [_ [-> | [a ->]]];
      reflexivity.
  - destruct Htl as [-> | ->]; [left; rewrite app_nil_r; reflexivity |].
    right. eexists. reflexivity.
Qed.

(** ** The loop, outcome by outcome *)

Lemma collection_add_exact (collection : string) (d : NotificationData) (w : World) :
  refused d = false ->
  exists w',
    collection_add collection d w
    = (match default Succeeds (head (schedule w)) with
       | Succeeds => Ok Fulfilled
       | Throws => Thrown AddFailed
       | Rejects => Ok (Rejected AddFailed)
       end, w') /\
    schedule w' = tail (schedule w).
Proof.
  intros Href. rewrite collection_add_cases, Href.
  destruct (default Succeeds (head (schedule w))); eexists; split; reflexivity.
Qed.

Lemma remind_attendees_exact (now : Timestamp) (eventId : string) (event : EventData)
    (ids : list string) :
  forallb accepted (attendee_adds now eventId event ids) = true ->
  forall (promises : list Promise) (w : World),
  exists w',
    remind_attendees now eventId event ids promises w
    = (if existsb is_throw (outcomes (List.length ids) (schedule w))
       then Thrown AddFailed
       else Ok (promises
                ++ map promise_of (outcomes (List.length ids) (schedule w))),
       w') /\
    (existsb is_throw (outcomes (List.length ids) (schedule w)) = false ->
     schedule w' = drop (List.length ids) (schedule w)).
Proof.
  induction ids as [| a ids IH]; intros Hacc promises w.
  - exists w. simpl. rewrite app_nil_r. split; [reflexivity |].
    intros _. rewrite drop_0. reflexivity.
  - simpl in Hacc. apply andb_true_iff in Hacc as [Ha Hacc].
    apply negb_true_iff in Ha. specialize (IH Hacc).
    cbn [remind_attendees List.length]. unfold bind.
    destruct (collection_add_exact "user_notifications"
                (attendee_reminder now eventId event a) w Ha) as (w1 & -> & Hs1).
    rewrite outcomes_S. cbn [existsb map].
    destruct (default Succeeds (head (schedule w))) eqn:Ho; simpl.
    + destruct (IH (promises ++ [Fulfilled]) w1) as (w' & -> & Hs').
      rewrite Hs1 in *. exists w'. rewrite <- app_assoc. simpl.
      split; [reflexivity |].
      intros H. rewrite (Hs' H). destruct (schedule w); simpl; rewrite ?drop_nil; reflexivity.
    + exists w1. split; [reflexivity | discriminate].
    + destruct (IH (promises ++ [Rejected AddFailed]) w1) as (w' & -> & Hs').
      rewrite Hs1 in *. exists w'. rewrite <- app_assoc. simpl.
      split; [reflexivity |].
      intros H. rewrite (Hs' H). destruct (schedule w); simpl; rewrite ?drop_nil; reflexivity.
Qed.

Lemma length_attendee_adds (now : Timestamp) (eventId : string) (event : EventData)
    (ids : list string) :
  List.length (attendee_adds now eventId event ids) = List.length ids.
Proof. unfold attendee_adds. apply length_map. Qed.

Lemma tail_drop (n : nat) (sched : list Outcome) :
  drop n (tail sched) = drop (S n) sched.
Proof. destruct sched; simpl; rewrite ?drop_nil; reflexivity. Qed.

Lemma remind_event_exact (now : Timestamp) (eventDoc : string * EventData)
    (batch : list BatchUpdate) (promises : list Promise) (w : World) :
  forallb accepted (event_adds now eventDoc) = true ->
  exists w',
    remind_event now eventDoc batch promises w
    = (if existsb is_throw
            (outcomes (List.length (event_adds now eventDoc)) (schedule w))
       then Thrown AddFailed
       else Ok (batch ++ event_updates eventDoc,
                promises
                ++ map promise_of
                     (outcomes (List.length (event_adds now eventDoc)) (schedule w))),
       w') /\
    (existsb is_throw
       (outcomes (List.length (event_adds now eventDoc)) (schedule w)) = false ->
     schedule w' = drop (List.length (event_adds now eventDoc)) (schedule w)).
Proof.
  unfold remind_event, event_adds, event_updates.
  destruct (truthy_bool (reminderSent (snd eventDoc))).
  - intros _. exists w. simpl. rewrite !app_nil_r. split; [reflexivity |].
    intros _. rewrite drop_0. reflexivity.
  - set (ids := default [] (attendees (snd eventDoc))).
    assert (Hstep : forall ps w1,
              match attendees (snd eventDoc) with
              | Some ids0 =>
                  if (0 <? List.length ids0)%nat
                  then remind_attendees now (fst eventDoc) (snd eventDoc) ids0 ps
                  else ret ps
              | None => ret ps
              end w1
              = remind_attendees now (fst eventDoc) (snd eventDoc) ids ps w1).
    { intros ps w1. subst ids.
      destruct (attendees (snd eventDoc)) as [[| a l] |]; reflexivity. }
    rewrite forallb_app. intros Hacc. apply andb_true_iff in Hacc as [Hc Hids].
    destruct (truthy_string (creatorId (snd eventDoc))).
    + simpl in Hc. rewrite andb_true_r in Hc. apply negb_true_iff in Hc.
      rewrite length_app, length_attendee_adds.
      change (List.length [CallAdd "creator_notifications"
                             (creator_reminder now (fst eventDoc) (snd eventDoc))]
              + List.length ids)%nat with (S (List.length ids)).
      rewrite outcomes_S. cbn [existsb map]. unfold bind.
      destruct (collection_add_exact "creator_notifications"
                  (creator_reminder now (fst eventDoc) (snd eventDoc)) w Hc)
        as (w1 & -> & Hs1).
      destruct (default Succeeds (head (schedule w))); simpl.
      * rewrite Hstep.
        destruct (remind_attendees_exact now (fst eventDoc) (snd eventDoc) ids Hids
                    (promises ++ [Fulfilled]) w1) as (w' & -> & Hs').
        rewrite Hs1 in *. exists w'.
        destruct (existsb is_throw _) eqn:Hthrow; simpl.
        -- split; [reflexivity | discriminate].
        -- rewrite <- app_assoc. split; [reflexivity |].
           intros _. rewrite (Hs' eq_refl). apply tail_drop.
      * exists w1. split; [reflexivity | discriminate].
      * rewrite Hstep.
        destruct (remind_attendees_exact now (fst eventDoc) (snd eventDoc) ids Hids
                    (promises ++ [Rejected AddFailed]) w1) as (w' & -> & Hs').
        rewrite Hs1 in *. exists w'.
        destruct (existsb is_throw _) eqn:Hthrow; simpl.
        -- split; [reflexivity | discriminate].
        -- rewrite <- app_assoc. split; [reflexivity |].
           intros _. rewrite (Hs' eq_refl). apply tail_drop.
    + simpl. rewrite length_attendee_adds. unfold bind at 1. unfold ret at 1.
      unfold bind. rewrite Hstep.
      destruct (remind_attendees_exact now (fst eventDoc) (snd eventDoc) ids Hids
                  promises w) as (w' & -> & Hs').
      exists w'. destruct (existsb is_throw _) eqn:Hthrow; simpl.
      * split; [reflexivity | discriminate].
      * split; [reflexivity | intros _; exact (Hs' eq_refl)].
Qed.

Lemma remind_events_exact (now : Timestamp) (docs : list (string * EventData)) :
  forallb accepted (flat_map (event_adds now) docs) = true ->
  forall (batch : list BatchUpdate) (promises : list Promise) (w : World),
  exists w',
    remind_events now docs batch promises w
    = (if existsb is_throw
            (outcomes (List.length (flat_map (event_adds now) docs)) (schedule w))
       then Thrown AddFailed
       else Ok (batch ++ flat_map event_updates docs,
                promises
                ++ map promise_of
                     (outcomes (List.length (flat_map (event_adds now) docs))
                        (schedule w))),
       w') /\
    (existsb is_throw
       (outcomes (List.length (flat_map (event_adds now) docs)) (schedule w)) = false ->
     schedule w'
     = drop (List.length (flat_map (event_adds now) docs)) (schedule w)).
Proof.
  induction docs as [| doc docs IH]; intros Hacc batch promises w.
  - exists w. simpl. rewrite !app_nil_r. split; [reflexivity |].
    intros _. rewrite drop_0. reflexivity.
  - cbn [flat_map] in Hacc. rewrite forallb_app in Hacc.
    apply andb_true_iff in Hacc as [Hdoc Hacc]. specialize (IH Hacc).
    cbn [remind_events flat_map]. unfold bind.
    rewrite length_app, outcomes_app, existsb_app, map_app.
    destruct (remind_event_exact now doc batch promises w Hdoc) as (w1 & -> & Hs1).
    destruct (existsb is_throw (outcomes (List.length (event_adds now doc)) (schedule w)));
      simpl.
    + exists w1. split; [reflexivity | discriminate].
    + destruct (IH (batch ++ event_updates doc)
                  (promises ++ map promise_of
                     (outcomes (List.length (event_adds now doc)) (schedule w))) w1)
        as (w' & -> & Hs').
      rewrite (Hs1 eq_refl) in *. exists w'.
      destruct (existsb is_throw _) eqn:Hthrow.
      * split; [reflexivity | discriminate].
      * rewrite <- !app_assoc. split; [reflexivity |].
        intros _. rewrite (Hs' eq_refl), drop_drop. reflexivity.
Qed.

Lemma rejections_promise_of (os : list Outcome) :
  existsb is_throw os = false ->
  list_to_set_disj (rejections (map promise_of os)) = rejected os.
Proof.
  unfold rejected, rejections.
  induction os as [| [| |] os IH]; simpl; intros H; try discriminate;
    rewrite ?list_to_set_disj_cons, ?IH by exact H; reflexivity.
Qed.

Lemma first_rejection_exact (os : list Outcome) (w : World) :
  first_rejection (map promise_of os) w
  = (if forallb is_success os then Ok tt else Thrown AddFailed, w).
Proof.
  induction os as [| [| |] os IH]; simpl; auto.
Qed.

Lemma Promise_all_exact (os : list Outcome) (w : World) :
  Promise_all (map promise_of os) w
  = (if forallb is_success os then Ok tt else Thrown AddFailed,
     mkWorld (db w) (calls w) (console w) (schedule w)
       (unhandled w ∖ list_to_set_disj (rejections (map promise_of os)))).
Proof.
  unfold Promise_all, bind, subscribe. rewrite first_rejection_exact. reflexivity.
Qed.

Lemma batch_commit_exact (batch : list BatchUpdate) (w : World) :
  Forall (fun u => is_Some (events (db w) !! update_ref u)) batch ->
  exists w',
    batch_commit batch w
    = (if is_success (outcome_at 0 w) then Ok tt else Thrown CommitFailed, w') /\
    calls w' = calls w ++ [CallCommit batch] /\
    console w' = console w /\
    unhandled w' = unhandled w /\
    events (db w')
    = if is_success (outcome_at 0 w)
      then fold_left apply_update batch (events (db w))
      else events (db w).
Proof.
  intros Hexist.
  assert (Hall : forallb (fun u => bool_decide (is_Some (events (db w) !! update_ref u)))
                   batch = true).
  { apply forallb_forall. intros u Hu. apply bool_decide_eq_true.
    rewrite Forall_forall in Hexist. apply Hexist, list_elem_of_In, Hu. }
  unfold batch_commit, outcome_at. run_M.
  destruct (schedule w) as [| [| |] sched]; simpl; rewrite ?Hall;
    eexists; repeat split; reflexivity.
Qed.

(** A run past the query when the SDK lets every reminder through, by
    the behaviour of the creations and of the commit. *)
Lemma remind_selected_exact (now : Timestamp) (docs : list (string * EventData))
    (w : World) :
  docs <> [] ->
  (forall doc, doc ∈ docs -> events (db w) !! fst doc = Some (snd doc)) ->
  forallb accepted (flat_map (event_adds now) docs) = true ->
  exists w' cs,
    calls w' = calls w ++ cs /\
    if existsb is_throw
         (outcomes (List.length (flat_map (event_adds now) docs)) (schedule w))
    then
      remind_selected now docs w = (Thrown AddFailed, w') /\
      cs `prefix_of` flat_map (event_adds now) docs /\
      events (db w') = events (db w) /\
      unhandled w' = unhandled w ⊎ rejected (outcomes (List.length cs) (schedule w))
    else
      cs = flat_map (event_adds now) docs
           ++ [CallCommit (flat_map event_updates docs)] /\
      if is_success
           (default Succeeds
              (schedule w !! List.length (flat_map (event_adds now) docs)))
      then
        events (db w')
        = fold_left apply_update (flat_map event_updates docs) (events (db w)) /\
        unhandled w'
        = unhandled w
          ⊎ rejected (outcomes (List.length (flat_map (event_adds now) docs))
                        (schedule w)) /\
        fst (remind_selected now docs w)
        = (if forallb is_success
                (outcomes (List.length (flat_map (event_adds now) docs)) (schedule w))
           then Ok RSuccess else Thrown AddFailed) /\
        snd (remind_selected now docs w)
        = (if forallb is_success
                (outcomes (List.length (flat_map (event_adds now) docs)) (schedule w))
           then mkWorld (db w') (calls w')
                  (console w'
                   ++ [Log ("Sent "
                            +:+ pretty (List.length (flat_map (event_adds now) docs))
                            +:+ " reminder notifications")])
                  (schedule w') (unhandled w)
           else mkWorld (db w') (calls w') (console w') (schedule w') (unhandled w))
      else
        remind_selected now docs w = (Thrown CommitFailed, w') /\
        events (db w') = events (db w) /\
        unhandled w'
        = unhandled w
          ⊎ rejected (outcomes (List.length (flat_map (event_adds now) docs))
                        (schedule w)).
Proof.
  intros Hne Hdocs Hacc. rewrite (remind_selected_unfold now docs w Hne).
  set (w0 := mkWorld _ _ _ _ _).
  destruct (remind_events_runs now docs [] [] w0)
    as (r1 & w1 & cs & Hrun & (Hc1 & He1 & _ & _ & _ & Hu1 & _) & Hp & Hok & _).
  destruct (remind_events_exact now docs Hacc [] [] w0) as (w1' & Hexact & Hs1).
  rewrite Hrun in Hexact. simpl in Hc1, He1, Hu1, Hexact, Hs1. rewrite Hrun.
  destruct (existsb is_throw _) eqn:Hthrow.
  - injection Hexact as -> <-. exists w1, cs. auto.
  - injection Hexact as -> <-. specialize (Hs1 eq_refl).
    destruct (Hok _ eq_refl) as [-> _]. cbn [fst snd app].
    destruct (batch_commit_exact (flat_map event_updates docs) w1)
      as (w2 & Hcommit & Hc2 & Hl2 & Hu2 & He2).
    { rewrite He1. apply updates_exist. exact Hdocs. }
    rewrite Hcommit.
    assert (Hnext : outcome_at 0 w1
                    = default Succeeds
                        (schedule w !! List.length (flat_map (event_adds now) docs))).
    { unfold outcome_at. rewrite Hs1, lookup_drop, Nat.add_0_r. reflexivity. }
    rewrite Hnext in *. exists w2, (flat_map (event_adds now) docs
                                   ++ [CallCommit (flat_map event_updates docs)]).
    split; [rewrite Hc2, Hc1, <- app_assoc; reflexivity |].
    split; [reflexivity |].
    destruct (is_success _).
    + rewrite Promise_all_exact, (rejections_promise_of _ Hthrow).
      split; [rewrite He2, He1; reflexivity |].
      split; [rewrite Hu2; exact Hu1 |].
      assert (Hback : unhandled w2
                      ∖ rejected (outcomes (List.length (flat_map (event_adds now) docs))
                                    (schedule w))
                      = unhandled w).
      { rewrite Hu2, Hu1. apply taken_up. }
      destruct (forallb is_success _); simpl; rewrite Hback; [| split; reflexivity].
      rewrite length_map. unfold outcomes. rewrite length_map, length_seq.
      split; reflexivity.
    + split; [reflexivity |]. split; [rewrite He2, He1; reflexivity |].
      rewrite Hu2. exact Hu1.
Qed.

(** A run past the query when the SDK refuses one of the reminders:
    the creation that is refused throws, if none throws before it. *)
Lemma remind_selected_refused (now : Timestamp) (docs : list (string * EventData))
    (w : World) :
  docs <> [] ->
  forallb accepted (flat_map (event_adds now) docs) = false ->
  exists w' cs,
    remind_selected now docs w = (Thrown AddFailed, w') /\
    calls w' = calls w ++ cs /\
    cs `prefix_of` flat_map (event_adds now) docs /\
    events (db w') = events (db w) /\
    unhandled w' = unhandled w ⊎ rejected (outcomes (List.length cs) (schedule w)).
Proof.
  intros Hne Hacc. rewrite (remind_selected_unfold now docs w Hne).
  set (w0 := mkWorld _ _ _ _ _).
  destruct (remind_events_runs now docs [] [] w0)
    as (r1 & w1 & cs & Hrun & (Hc1 & He1 & _ & _ & _ & Hu1 & Ha1) & Hp & Hok & Herr & _).
  rewrite Hrun. simpl in Hc1, He1, Hu1. destruct r1 as [st | e].
  - destruct (Hok st eq_refl) as [-> _]. congruence.
  - rewrite (Herr e eq_refl). exists w1, cs. auto.
Qed.

(** ** Failures during a run *)

Lemma generator_past_query (now : Timestamp) (w : World) :
  outcome_at 0 w = Succeeds ->
  sendEventReminders now w
  = try_catch (remind_selected now (selected now (db w)))
      (fun error => console_error "Error sending event reminders:" error ;; ret RNull)
      (after_query now w).
Proof.
  intros Hq. unfold sendEventReminders, try_catch.
  rewrite sendEventReminders_body_unfold, Hq. reflexivity.
Qed.

Lemma selected_in_store (now : Timestamp) (w : World) :
  forall doc, doc ∈ selected now (db (after_query now w)) ->
              events (db (after_query now w)) !! fst doc = Some (snd doc).
Proof. intros doc Hdoc. apply selected_lookup in Hdoc as [Hdoc _]. exact Hdoc. Qed.

Lemma commit_outcome_after_query (now : Timestamp) (w : World) :
  default Succeeds (schedule (after_query now w) !! creations now w)
  = commit_outcome now w.
Proof.
  unfold commit_outcome, outcome_at. simpl.
  destruct (schedule w); [rewrite lookup_nil |]; reflexivity.
Qed.

Lemma issued_after_query (now : Timestamp) (w w' : World) (cs : list Call) :
  calls w' = calls (after_query now w) ++ cs ->
  drop (List.length (calls w)) (calls w')
  = CallQueryEvents (oneHourLater now) (twoHoursLater now) :: cs.
Proof.
  intros ->. simpl. rewrite <- app_assoc. apply drop_app_length.
Qed.

(** X17. A rejected creation does not undo the flags. When the query is
    answered, every event that is due has a name and a venue address,
    no creation throws and the commit succeeds, the run has issued
    every creation, in the order of the query's answer, and the commit,
    and every event that was due has [reminderSent] true, whether or
    not the creations were fulfilled; the run returns
    [{ success: true }] if all of them were, and if one was rejected it
    returns [null] after writing that failure to the console. *)
Theorem rejected_creation_keeps_flags (now : Timestamp) (w : World) :
  outcome_at 0 w = Succeeds ->
  selected now (db w) <> [] ->
  reminders_accepted now (db w) ->
  existsb is_throw (creation_outcomes now w) = false ->
  commit_outcome now w = Succeeds ->
  issued_by (sendEventReminders now) w
  = CallQueryEvents (oneHourLater now) (twoHoursLater now)
    :: flat_map (event_adds now) (selected now (db w))
       ++ [CallCommit (flat_map event_updates (selected now (db w)))] /\
  events (db (snd (sendEventReminders now w))) = remind now <$> events (db w) /\
  (forallb is_success (creation_outcomes now w) = true ->
   fst (sendEventReminders now w) = Ok RSuccess) /\
  (forallb is_success (creation_outcomes now w) = false ->
   fst (sendEventReminders now w) = Ok RNull /\
   last (console (snd (sendEventReminders now w)))
   = Some (LogError "Error sending event reminders:" AddFailed)).
Proof.
  intros Hq Hne Hacc Hthrow Hcommit. unfold issued_by.
  rewrite (generator_past_query now w Hq).
  destruct (remind_selected_exact now (selected now (db w)) (after_query now w) Hne
              (selected_in_store now w) (reminders_accepted_plan now (db w) Hacc))
    as (w' & cs & Hc & Hcases).
  change (List.length (flat_map (event_adds now) (selected now (db w))))
    with (creations now w) in Hcases.
  change (outcomes (creations now w) (schedule (after_query now w)))
    with (creation_outcomes now w) in Hcases.
  rewrite Hthrow, commit_outcome_after_query, Hcommit in Hcases. simpl in Hcases.
  destruct Hcases as (-> & Hev & _ & Hfst & Hsnd).
  rewrite committed_events in Hev.
  unfold try_catch.
  destruct (remind_selected now (selected now (db w)) (after_query now w))
    as [r w''] eqn:Hrun. simpl in Hfst, Hsnd. subst r w''.
  destruct (forallb is_success (creation_outcomes now w)); simpl.
  - split; [apply (issued_after_query now w w' _ Hc) |].
    split; [exact Hev |]. split; [reflexivity | discriminate].
  - split; [apply (issued_after_query now w w' _ Hc) |].
    split; [exact Hev |]. split; [discriminate |].
    intros _. split; [reflexivity | apply last_snoc].
Qed.

Lemma rejected_creation_keeps_flags_witness :
  outcome_at 0 rejected_creation_world = Succeeds /\
  selected run_time (db rejected_creation_world) <> [] /\
  reminders_accepted run_time (db rejected_creation_world) /\
  existsb is_throw (creation_outcomes run_time rejected_creation_world) = false /\
  commit_outcome run_time rejected_creation_world = Succeeds /\
  issued_by (sendEventReminders run_time) rejected_creation_world
  = CallQueryEvents (oneHourLater run_time) (twoHoursLater run_time)
    :: flat_map (event_adds run_time) (selected run_time (db rejected_creation_world))
       ++ [CallCommit
             (flat_map event_updates (selected run_time (db rejected_creation_world)))] /\
  events (db (snd (sendEventReminders run_time rejected_creation_world)))
  = remind run_time <$> events (db rejected_creation_world) /\
  (forallb is_success (creation_outcomes run_time rejected_creation_world) = true ->
   fst (sendEventReminders run_time rejected_creation_world) = Ok RSuccess) /\
  (forallb is_success (creation_outcomes run_time rejected_creation_world) = false ->
   fst (sendEventReminders run_time rejected_creation_world) = Ok RNull /\
   last (console (snd (sendEventReminders run_time rejected_creation_world)))
   = Some (LogError "Error sending event reminders:" AddFailed)).
Proof.
  assert (H1 : outcome_at 0 rejected_creation_world = Succeeds) by reflexivity.
  assert (H2 : selected run_time (db rejected_creation_world) <> [])
    by (vm_compute; discriminate).
  assert (H3 : existsb is_throw (creation_outcomes run_time rejected_creation_world)
               = false) by (vm_compute; reflexivity).
  assert (H4 : commit_outcome run_time rejected_creation_world = Succeeds)
    by (vm_compute; reflexivity).
  exact (conj H1 (conj H2 (conj events_world_accepted (conj H3 (conj H4
           (rejected_creation_keeps_flags run_time rejected_creation_world
              H1 H2 events_world_accepted H3 H4)))))).
Defined.

(** X18. A creation that throws ends the run on the spot. When the
    query is answered and one of the creations throws, the run commits
    nothing: no batch is committed, every event document is as it was,
    the failure is written to the console and the run returns
    [null]. *)
Theorem thrown_creation_aborts_run (now : Timestamp) (w : World) :
  outcome_at 0 w = Succeeds ->
  existsb is_throw (creation_outcomes now w) = true ->
  fst (sendEventReminders now w) = Ok RNull /\
  batch_writes (issued_by (sendEventReminders now) w) = [] /\
  events (db (snd (sendEventReminders now w))) = events (db w) /\
  last (console (snd (sendEventReminders now w)))
  = Some (LogError "Error sending event reminders:" AddFailed).
Proof.
  intros Hq Hthrow.
  assert (Hne : selected now (db w) <> []).
  { intros Hnil. unfold creation_outcomes, creations in Hthrow.
    rewrite Hnil in Hthrow. discriminate Hthrow. }
  unfold issued_by. rewrite (generator_past_query now w Hq).
  assert (Hrun : exists w' cs,
            remind_selected now (selected now (db w)) (after_query now w)
            = (Thrown AddFailed, w') /\
            calls w' = calls (after_query now w) ++ cs /\
            cs `prefix_of` flat_map (event_adds now) (selected now (db w)) /\
            events (db w') = events (db w)).
  { destruct (forallb accepted (flat_map (event_adds now) (selected now (db w))))
      eqn:Hacc.
    - destruct (remind_selected_exact now (selected now (db w)) (after_query now w)
                  Hne (selected_in_store now w) Hacc) as (w' & cs & Hc & Hcases).
      change (List.length (flat_map (event_adds now) (selected now (db w))))
        with (creations now w) in Hcases.
      change (outcomes (creations now w) (schedule (after_query now w)))
        with (creation_outcomes now w) in Hcases.
      rewrite Hthrow in Hcases. destruct Hcases as (Hrun & Hp & Hev & _).
      exists w', cs. auto.
    - destruct (remind_selected_refused now (selected now (db w)) (after_query now w)
                  Hne Hacc) as (w' & cs & Hrun & Hc & Hp & Hev & _).
      exists w', cs. auto. }
  destruct Hrun as (w' & cs & Hrun & Hc & Hp & Hev).
  unfold try_catch. rewrite Hrun. simpl.
  split; [reflexivity |]. split; [| split; [exact Hev | apply last_snoc]].
  rewrite (issued_after_query now w w' cs Hc).
  change (CallQueryEvents (oneHourLater now) (twoHoursLater now) :: cs)
    with ([CallQueryEvents (oneHourLater now) (twoHoursLater now)] ++ cs).
  rewrite batch_writes_app. simpl. exact (batch_writes_adds now _ cs Hp).
Qed.

Lemma thrown_creation_aborts_run_witness :
  outcome_at 0 thrown_creation_world = Succeeds /\
  existsb is_throw (creation_outcomes run_time thrown_creation_world) = true /\
  fst (sendEventReminders run_time thrown_creation_world) = Ok RNull /\
  batch_writes (issued_by (sendEventReminders run_time) thrown_creation_world) = [] /\
  events (db (snd (sendEventReminders run_time thrown_creation_world)))
  = events (db thrown_creation_world) /\
  last (console (snd (sendEventReminders run_time thrown_creation_world)))
  = Some (LogError "Error sending event reminders:" AddFailed).
Proof.
  assert (H1 : outcome_at 0 thrown_creation_world = Succeeds) by reflexivity.
  assert (H2 : existsb is_throw (creation_outcomes run_time thrown_creation_world)
               = true) by (vm_compute; reflexivity).
  exact (conj H1 (conj H2
           (thrown_creation_aborts_run run_time thrown_creation_world H1 H2))).
Defined.

(** X19. A failed commit sets no flag. When the query is answered,
    every event that is due has a name and a venue address and no
    creation throws, but the commit fails: every creation was issued
    before it, in the order of the query's answer, and every event
    document is as it was, so the events stay due; the failure is
    written to the console and the run returns [null]. *)
Theorem failed_commit_sets_no_flag (now : Timestamp) (w : World) :
  outcome_at 0 w = Succeeds ->
  selected now (db w) <> [] ->
  reminders_accepted now (db w) ->
  existsb is_throw (creation_outcomes now w) = false ->
  commit_outcome now w <> Succeeds ->
  fst (sendEventReminders now w) = Ok RNull /\
  issued_by (sendEventReminders now) w
  = CallQueryEvents (oneHourLater now) (twoHoursLater now)
    :: flat_map (event_adds now) (selected now (db w))
       ++ [CallCommit (flat_map event_updates (selected now (db w)))] /\
  events (db (snd (sendEventReminders now w))) = events (db w) /\
  last (console (snd (sendEventReminders now w)))
  = Some (LogError "Error sending event reminders:" CommitFailed).
Proof.
  intros Hq Hne Hacc Hthrow Hcommit. unfold issued_by.
  rewrite (generator_past_query now w Hq).
  destruct (remind_selected_exact now (selected now (db w)) (after_query now w) Hne
              (selected_in_store now w) (reminders_accepted_plan now (db w) Hacc))
    as (w' & cs & Hc & Hcases).
  change (List.length (flat_map (event_adds now) (selected now (db w))))
    with (creations now w) in Hcases.
  change (outcomes (creations now w) (schedule (after_query now w)))
    with (creation_outcomes now w) in Hcases.
  rewrite Hthrow, commit_outcome_after_query in Hcases.
  destruct Hcases as [-> Hcases].
  destruct (commit_outcome now w); [congruence | |]; simpl in Hcases;
    destruct Hcases as (Hrun & Hev & _); unfold try_catch; rewrite Hrun; simpl;
    (split; [reflexivity |]);
    (split; [apply (issued_after_query now w w' _ Hc) |]);
    (split; [exact Hev | apply last_snoc]).
Qed.

Lemma failed_commit_sets_no_flag_witness :
  outcome_at 0 commit_failure_world = Succeeds /\
  selected run_time (db commit_failure_world) <> [] /\
  reminders_accepted run_time (db commit_failure_world) /\
  existsb is_throw (creation_outcomes run_time commit_failure_world) = false /\
  commit_outcome run_time commit_failure_world <> Succeeds /\
  fst (sendEventReminders run_time commit_failure_world) = Ok RNull /\
  issued_by (sendEventReminders run_time) commit_failure_world
  = CallQueryEvents (oneHourLater run_time) (twoHoursLater run_time)
    :: flat_map (event_adds run_time) (selected run_time (db commit_failure_world))
       ++ [CallCommit
             (flat_map event_updates (selected run_time (db commit_failure_world)))] /\
  events (db (snd (sendEventReminders run_time commit_failure_world)))
  = events (db commit_failure_world) /\
  last (console (snd (sendEventReminders run_time commit_failure_world)))
  = Some (LogError "Error sending event reminders:" CommitFailed).
Proof.
  assert (H1 : outcome_at 0 commit_failure_world = Succeeds) by reflexivity.
  assert (H2 : selected run_time (db commit_failure_world) <> [])
    by (vm_compute; discriminate).
  assert (H3 : existsb is_throw (creation_outcomes run_time commit_failure_world)
               = false) by (vm_compute; reflexivity).
  assert (H4 : commit_outcome run_time commit_failure_world <> Succeeds)
    by (vm_compute; discriminate).
  exact (conj H1 (conj H2 (conj events_world_accepted (conj H3 (conj H4
           (failed_commit_sets_no_flag run_time commit_failure_world
              H1 H2 events_world_accepted H3 H4)))))).
Defined.

(** When the run past the query throws, the console has the line of the
    query's answer and nothing more. *)
Lemma remind_selected_thrown_console (now : Timestamp)
    (docs : list (string * EventData)) (w : World) (e : Error) :
  docs <> [] ->
  fst (remind_selected now docs w) = Thrown e ->
  console (snd (remind_selected now docs w))
  = console w
    ++ [Log ("Found " +:+ pretty (List.length docs) +:+ " events for reminders")].
Proof.
  intros Hne. rewrite (remind_selected_unfold now docs w Hne).
  set (w0 := mkWorld _ _ _ _ _).
  destruct (remind_events_runs now docs [] [] w0)
    as (r1 & w1 & cs & Hrun & (_ & _ & _ & Hcon & _) & _).
  rewrite Hrun. destruct r1 as [st | e1]; simpl; [| intros _; exact Hcon].
  destruct (batch_commit_run (fst st) w1) as (r2 & w2 & Hc & _ & Hcon2 & _).
  rewrite Hc. destruct r2 as [[] | e2]; simpl.
  - destruct (Promise_all_world (snd st) w2) as (_ & _ & Hcon3 & _).
    destruct (Promise_all (snd st) w2) as [[[] | e3] w3]; simpl in *; [discriminate |].
    intros _. rewrite Hcon3, Hcon2, Hcon. reflexivity.
  - intros _. rewrite Hcon2, Hcon. reflexivity.
Qed.

(** X24. The rejections a run leaves unhandled. When the query is
    answered, every event that is due has a name and a venue address
    and no creation throws: if the commit succeeds, [Promise.all]
    subscribes to every creation, and when the handler returns no
    rejection of the run is without a subscriber; if the commit fails,
    the run ends in the [catch] before [Promise.all], the console has
    the line of the query's answer and the commit's error and nothing
    else, and every creation of the run that was rejected is left
    without a subscriber, an unhandled rejection. *)
Theorem unawaited_rejections (now : Timestamp) (w : World) :
  outcome_at 0 w = Succeeds ->
  selected now (db w) <> [] ->
  reminders_accepted now (db w) ->
  existsb is_throw (creation_outcomes now w) = false ->
  (commit_outcome now w = Succeeds ->
   unhandled (snd (sendEventReminders now w)) = unhandled w) /\
  (commit_outcome now w <> Succeeds ->
   unhandled (snd (sendEventReminders now w))
   = unhandled w ⊎ rejected (creation_outcomes now w) /\
   logged_by (sendEventReminders now) w
   = [Log ("Found " +:+ pretty (List.length (selected now (db w)))
           +:+ " events for reminders");
      LogError "Error sending event reminders:" CommitFailed]).
Proof.
  intros Hq Hne Hacc Hthrow. unfold logged_by.
  rewrite (generator_past_query now w Hq).
  destruct (remind_selected_exact now (selected now (db w)) (after_query now w) Hne
              (selected_in_store now w) (reminders_accepted_plan now (db w) Hacc))
    as (w' & cs & Hc & Hcases).
  change (List.length (flat_map (event_adds now) (selected now (db w))))
    with (creations now w) in Hcases.
  change (outcomes (creations now w) (schedule (after_query now w)))
    with (creation_outcomes now w) in Hcases.
  rewrite Hthrow, commit_outcome_after_query in Hcases.
  destruct Hcases as [-> Hcases]. split; intros Hcommit.
  - rewrite Hcommit in Hcases. simpl in Hcases.
    destruct Hcases as (_ & _ & Hfst & Hsnd). unfold try_catch.
    destruct (remind_selected now (selected now (db w)) (after_query now w))
      as [r w''] eqn:Hrun. simpl in Hfst, Hsnd. subst r w''.
    destruct (forallb is_success (creation_outcomes now w)); reflexivity.
  - pose proof (remind_selected_thrown_console now (selected now (db w))
                  (after_query now w) CommitFailed Hne) as Hcon.
    destruct (commit_outcome now w); [congruence | |]; simpl in Hcases;
      destruct Hcases as (Hrun & _ & Hu); rewrite Hrun in Hcon;
      specialize (Hcon eq_refl); simpl in Hcon;
      unfold try_catch; rewrite Hrun; simpl;
      (split; [exact Hu |]);
      rewrite Hcon, <- app_assoc, drop_app_length; reflexivity.
Qed.

Lemma unawaited_rejections_witness :
  outcome_at 0 escaping_world = Succeeds /\
  selected run_time (db escaping_world) <> [] /\
  reminders_accepted run_time (db escaping_world) /\
  existsb is_throw (creation_outcomes run_time escaping_world) = false /\
  commit_outcome run_time escaping_world <> Succeeds /\
  rejected (creation_outcomes run_time escaping_world) = {[+ AddFailed +]} /\
  unhandled (snd (sendEventReminders run_time escaping_world))
  = unhandled escaping_world ⊎ rejected (creation_outcomes run_time escaping_world) /\
  logged_by (sendEventReminders run_time) escaping_world
  = [Log ("Found " +:+ pretty (List.length (selected run_time (db escaping_world)))
          +:+ " events for reminders");
     LogError "Error sending event reminders:" CommitFailed].
Proof.
  assert (H1 : outcome_at 0 escaping_world = Succeeds) by reflexivity.
  assert (H2 : selected run_time (db escaping_world) <> [])
    by (vm_compute; discriminate).
  assert (H3 : existsb is_throw (creation_outcomes run_time escaping_world) = false)
    by (vm_compute; reflexivity).
  assert (H4 : commit_outcome run_time escaping_world <> Succeeds)
    by (vm_compute; discriminate).
  assert (H5 : rejected (creation_outcomes run_time escaping_world) = {[+ AddFailed +]})
    by (vm_compute; reflexivity).
  exact (conj H1 (conj H2 (conj events_world_accepted (conj H3 (conj H4 (conj H5
           (proj2 (unawaited_rejections run_time escaping_world
                     H1 H2 events_world_accepted H3) H4))))))).
Defined.

(** X25. The two document handlers await every call they issue:
    whatever the trigger hands them and whatever the calls do, they
    leave no rejection without a subscriber. *)
Theorem document_handlers_await_every_call
    (collection nid : string) (n beforeData afterData : NotificationData)
    (w : World) :
  unhandled (snd (sendNotificationToUser collection nid n w)) = unhandled w /\
  unhandled (snd (updateBadgeCount collection beforeData afterData w)) = unhandled w.
Proof.
  split.
  - unfold sendNotificationToUser, sendNotificationToUser_body.
    destruct (negb (is_notification_collection collection)); [reflexivity |].
    destruct (truthy (recipientId n)) as [r |]; [| reflexivity].
    run_M. destruct (schedule w) as [| [| |] sched]; simpl; try reflexivity;
      (destruct (user_tokens (db w) !! r) as [d |]; [| reflexivity]);
      (destruct (truthy (token d)) as [tok |]; [| reflexivity]);
      simpl; try reflexivity;
      destruct sched as [| [| |] sched']; reflexivity.
  - unfold updateBadgeCount, updateBadgeCount_body.
    destruct (negb (is_notification_collection collection)); [reflexivity |].
    destruct (unread_to_other beforeData afterData); [| reflexivity].
    destruct (truthy (recipientId afterData)) as [r |]; [| reflexivity].
    run_M. destruct (schedule w) as [| [| |] sched]; simpl; try reflexivity;
      try (destruct sched as [| [| |] sched']; simpl; try reflexivity);
      (destruct (user_tokens (db w) !! r) as [d |]; [| reflexivity]);
      (destruct (truthy (token d)) as [tok |]; [| reflexivity]);
      simpl; try reflexivity;
      try (destruct sched' as [| [| |] sched'']; reflexivity).
Qed.

(** X11. The flags of a run are written all or none, never before the
    reminders, and nothing else of an event document is written:
    after a run, whatever the calls did, the event documents are either
    exactly as before, or exactly as before with [reminderSent] true on
    every event that was due (the events that start in the window and
    were not reminded of yet), and in that case the run has issued
    every creation of a record, in the order of the query's answer,
    and then the commit. No document is created or deleted and no
    other field changes. *)
Theorem flags_all_or_none (now : Timestamp) (w : World) :
  events (db (snd (sendEventReminders now w))) = events (db w) \/
  (events (db (snd (sendEventReminders now w))) = remind now <$> events (db w) /\
   issued_by (sendEventReminders now) w
   = CallQueryEvents (oneHourLater now) (twoHoursLater now)
     :: flat_map (event_adds now) (selected now (db w))
        ++ [CallCommit (flat_map event_updates (selected now (db w)))]).
Proof.
  destruct (outcome_at 0 w) eqn:Hq.
  - unfold issued_by. rewrite (generator_past_query now w Hq).
    destruct (decide (selected now (db w) = [])) as [Hnil | Hne].
    { left. rewrite Hnil. reflexivity. }
    destruct (forallb accepted (flat_map (event_adds now) (selected now (db w))))
      eqn:Hacc.
    2:{ destruct (remind_selected_refused now (selected now (db w))
                    (after_query now w) Hne Hacc) as (w' & cs & Hrun & _ & _ & Hev & _).
        left. unfold try_catch. rewrite Hrun. exact Hev. }
    destruct (remind_selected_exact now (selected now (db w)) (after_query now w) Hne
                (selected_in_store now w) Hacc) as (w' & cs & Hc & Hcases).
    unfold try_catch.
    destruct (existsb is_throw _).
    + destruct Hcases as (-> & _ & Hev & _). left. exact Hev.
    + destruct Hcases as [-> Hcases]. destruct (is_success _).
      * destruct Hcases as (Hev & _ & Hfst & Hsnd). right.
        destruct (remind_selected now (selected now (db w)) (after_query now w))
          as [r w''] eqn:Hrun. simpl in Hfst, Hsnd. subst r w''.
        rewrite committed_events in Hev.
        destruct (forallb is_success _); simpl;
          (split; [exact Hev | apply (issued_after_query now w w' _ Hc)]).
      * destruct Hcases as (-> & Hev & _). left. exact Hev.
  - left. unfold sendEventReminders, try_catch.
    rewrite sendEventReminders_body_unfold, Hq. reflexivity.
  - left. unfold sendEventReminders, try_catch.
    rewrite sendEventReminders_body_unfold, Hq. reflexivity.
Qed.

(** X20. When the events query fails, the run ends there: it has
    issued nothing but the query, the store is as it was, the failure
    is written to the console after the handler's label, and the run
    returns [null]. *)
Theorem failed_query_ends_run (now : Timestamp) (w : World) :
  outcome_at 0 w <> Succeeds ->
  sendEventReminders now w
  = (Ok RNull,
     mkWorld (db w)
       (calls w ++ [CallQueryEvents (oneHourLater now) (twoHoursLater now)])
       (console w ++ [LogError "Error sending event reminders:" QueryFailed])
       (tail (schedule w)) (unhandled w)).
Proof.
  intros Hq. unfold sendEventReminders, try_catch.
  rewrite sendEventReminders_body_unfold.
  destruct (outcome_at 0 w); [congruence | reflexivity | reflexivity].
Qed.

Lemma failed_query_ends_run_witness :
  outcome_at 0 query_failure_world <> Succeeds /\
  sendEventReminders run_time query_failure_world
  = (Ok RNull,
     mkWorld (db query_failure_world)
       (calls query_failure_world
        ++ [CallQueryEvents (oneHourLater run_time) (twoHoursLater run_time)])
       (console query_failure_world
        ++ [LogError "Error sending event reminders:" QueryFailed])
       (tail (schedule query_failure_world)) (unhandled query_failure_world)).
Proof.
  assert (H1 : outcome_at 0 query_failure_world <> Succeeds) by discriminate.
  exact (conj H1 (failed_query_ends_run run_time query_failure_world H1)).
Defined.

(** ** The records in the store *)

Lemma store_kept_collection (s s' : Store) (collection : string) :
  store_kept s s' ->
  notification_collection collection s ⊆ notification_collection collection s'.
Proof.
  intros (Hu & Hc & _). unfold notification_collection.
  destruct (String.eqb collection "user_notifications"); [exact Hu |].
  destruct (String.eqb collection "creator_notifications"); [exact Hc | reflexivity].
Qed.

Lemma adds_to_app (collection : string) (cs1 cs2 : list Call) :
  adds_to collection (cs1 ++ cs2)
  = (adds_to collection cs1 + adds_to collection cs2)%nat.
Proof. unfold adds_to. rewrite List.filter_app, length_app. reflexivity. Qed.

Lemma created_refl (w : World) : all_succeed (schedule w) -> created w w [].
Proof.
  intros Hall. split; [exact Hall |]. split; [rewrite app_nil_r; reflexivity |].
  split; [apply store_kept_refl |].
  split; [intros c d H; inversion H |]. intros c _. unfold adds_to. simpl. lia.
Qed.

Lemma created_trans (w1 w2 w3 : World) (cs1 cs2 : list Call) :
  created w1 w2 cs1 -> created w2 w3 cs2 -> created w1 w3 (cs1 ++ cs2).
Proof.
  intros (_ & Hc1 & Hk1 & Hin1 & Hsz1) (Hall & Hc2 & Hk2 & Hin2 & Hsz2).
  split; [exact Hall |].
  split; [rewrite Hc2, Hc1, app_assoc; reflexivity |].
  split; [eapply store_kept_trans; eauto |]. split.
  - intros c d H. apply elem_of_app in H as [H | H]; [| exact (Hin2 c d H)].
    destruct (Hin1 c d H) as [id Hid]. exists id.
    exact (lookup_weaken _ _ _ _ Hid (store_kept_collection _ _ c Hk2)).
  - intros c Hc. rewrite (Hsz2 c Hc), (Hsz1 c Hc), adds_to_app. lia.
Qed.

(** A step that issues no creation and leaves the notification
    collections and the schedule alone. *)
Lemma created_quiet (w w' : World) (cs : list Call) :
  all_succeed (schedule w') ->
  calls w' = calls w ++ cs ->
  Forall (fun c => is_add c = false) cs ->
  user_notifications (db w') = user_notifications (db w) ->
  creator_notifications (db w') = creator_notifications (db w) ->
  user_tokens (db w') = user_tokens (db w) ->
  erase_flag <$> events (db w') = erase_flag <$> events (db w) ->
  created w w' cs.
Proof.
  intros Hall Hc Hcs Hu Hcr Ht He.
  assert (Hnone : forall c, adds_to c cs = 0%nat).
  { intros c. unfold adds_to. rewrite filter_none; [reflexivity |].
    intros x Hx. rewrite Forall_forall in Hcs. specialize (Hcs x Hx).
    destruct x; try reflexivity. discriminate. }
  split; [exact Hall |]. split; [exact Hc |].
  split; [unfold store_kept; rewrite Hu, Hcr; auto |]. split.
  - intros c d Hin. rewrite Forall_forall in Hcs. specialize (Hcs _ Hin).
    discriminate.
  - intros c _. rewrite Hnone, Nat.add_0_r. unfold notification_collection.
    rewrite Hu, Hcr. reflexivity.
Qed.

Lemma creates_bind {A B} (m : M A) (k : A -> M B) :
  creates m -> (forall a, creates (k a)) -> creates (bind m k).
Proof.
  intros Hm Hk w Hall. unfold bind.
  destruct (Hm w Hall) as [cs1 Hc1].
  destruct (m w) as [[a | e] w1]; simpl in Hc1; [| eauto].
  destruct (Hk a w1 (proj1 Hc1)) as [cs2 Hc2].
  exists (cs1 ++ cs2). exact (created_trans _ _ _ _ _ Hc1 Hc2).
Qed.

Lemma creates_try_catch {A} (body : M A) (handler : Error -> M A) :
  creates body -> (forall e, creates (handler e)) -> creates (try_catch body handler).
Proof.
  intros Hm Hk w Hall. unfold try_catch.
  destruct (Hm w Hall) as [cs1 Hc1].
  destruct (body w) as [[a | e] w1]; simpl in Hc1; [eauto |].
  destruct (Hk e w1 (proj1 Hc1)) as [cs2 Hc2].
  exists (cs1 ++ cs2). exact (created_trans _ _ _ _ _ Hc1 Hc2).
Qed.

Lemma creates_same {A} (m : M A) :
  (forall w, db (snd (m w)) = db w /\ calls (snd (m w)) = calls w /\
             schedule (snd (m w)) = schedule w) ->
  creates m.
Proof.
  intros H w Hall. destruct (H w) as (Hdb & Hc & Hs). exists [].
  apply created_quiet; rewrite ?Hdb, ?Hs, ?Hc, ?app_nil_r; auto.
Qed.

Lemma creates_ret {A} (a : A) : creates (ret a).
Proof. apply creates_same. intros w. repeat split. Qed.

Lemma creates_throw {A} (e : Error) : creates (throw (A := A) e).
Proof. apply creates_same. intros w. repeat split. Qed.

Lemma creates_console_log (text : string) : creates (console_log text).
Proof. apply creates_same. intros w. repeat split. Qed.

Lemma creates_console_error (text : string) (e : Error) :
  creates (console_error text e).
Proof. apply creates_same. intros w. repeat split. Qed.

Lemma creates_Promise_all (promises : list Promise) : creates (Promise_all promises).
Proof.
  apply creates_same. intros w.
  destruct (Promise_all_world promises w) as (Hd & Hc & _ & Hs & _). auto.
Qed.

(** An awaited call that is no creation. *)
Lemma creates_await_call {A} (c : Call) (e : Error) (k : M A) :
  is_add c = false -> creates k -> creates (await_call c e k).
Proof.
  intros Hc Hk w Hall. destruct (all_succeed_next w Hall) as [_ Htail].
  set (w1 := mkWorld (db w) (calls w ++ [c]) (console w) (tail (schedule w))
               (unhandled w)).
  assert (Hrun : await_call c e k w = k w1).
  { unfold await_call, bind, issue, next_outcome. simpl.
    unfold all_succeed in Hall.
    destruct (schedule w) as [| o sched] eqn:Hs; simpl.
    - reflexivity.
    - inversion Hall; subst. reflexivity. }
  rewrite Hrun. destruct (Hk w1 Htail) as [cs Hcs]. exists ([c] ++ cs).
  refine (created_trans w w1 _ [c] cs _ Hcs).
  apply created_quiet; auto.
Qed.

Lemma creates_collection_add (collection : string) (d : NotificationData) :
  is_notification_collection collection = true ->
  creates (collection_add collection d).
Proof.
  intros Hcoll w Hall.
  destruct (refused d) eqn:Href.
  { rewrite collection_add_cases, Href. exists []. apply created_refl. exact Hall. }
  destruct (all_succeed_next w Hall) as [Hnext Htail].
  destruct (add_creates_one_document collection d w Hcoll Href Hnext)
    as (Hr & id & Hfresh & Hdb & Hsz).
  pose proof (keeps_store_collection_add collection d w) as Hkept.
  assert (Hhead : default Succeeds (head (schedule w)) = Succeeds).
  { unfold outcome_at in Hnext. destruct (schedule w); [reflexivity | exact Hnext]. }
  assert (Hinsert : db (snd (collection_add collection d w))
                    = insert_notification collection d (db w)).
  { rewrite collection_add_cases, Href, Hhead. reflexivity. }
  exists [CallAdd collection d].
  split; [rewrite collection_add_cases, Href, Hhead; exact Htail |].
  split; [rewrite collection_add_cases, Href, Hhead; reflexivity |].
  split; [exact Hkept |]. split.
  - intros c d' Hin. apply list_elem_of_singleton in Hin as [= -> ->].
    exists id. rewrite Hdb. apply lookup_insert_eq.
  - intros c Hc. unfold adds_to. simpl.
    destruct (String.eqb_spec collection c) as [-> | Hne]; simpl.
    + rewrite Hsz. lia.
    + assert (Hother : notification_collection c
                         (db (snd (collection_add collection d w)))
                       = notification_collection c (db w)).
      { rewrite Hinsert. clear Hinsert Hdb Hsz Hr Hkept.
        unfold is_notification_collection in Hcoll, Hc.
        apply orb_true_iff in Hcoll, Hc. rewrite !String.eqb_eq in Hcoll, Hc.
        destruct Hcoll as [Hcoll | Hcoll], Hc as [Hc' | Hc']; subst collection c;
          first [congruence | reflexivity]. }
      rewrite Hother. lia.
Qed.

Lemma creates_remind_attendees (now : Timestamp) (eventId : string)
    (event : EventData) (ids : list string) :
  forall promises, creates (remind_attendees now eventId event ids promises).
Proof.
  induction ids as [| a ids IH]; intros promises; simpl.
  - apply creates_ret.
  - apply creates_bind; [apply creates_collection_add; reflexivity |].
    intros p. apply IH.
Qed.

Lemma creates_remind_event (now : Timestamp) (eventDoc : string * EventData)
    (batch : list BatchUpdate) (promises : list Promise) :
  creates (remind_event now eventDoc batch promises).
Proof.
  unfold remind_event.
  destruct (truthy_bool (reminderSent (snd eventDoc))); [apply creates_ret |].
  apply creates_bind.
  - destruct (truthy_string (creatorId (snd eventDoc))); [| apply creates_ret].
    apply creates_bind; [apply creates_collection_add; reflexivity |].
    intros p. apply creates_ret.
  - intros ps. apply creates_bind; [| intros; apply creates_ret].
    destruct (attendees (snd eventDoc)) as [ids |]; [| apply creates_ret].
    destruct (0 <? List.length ids)%nat;
      [apply creates_remind_attendees | apply creates_ret].
Qed.

Lemma creates_remind_events (now : Timestamp) (docs : list (string * EventData)) :
  forall batch promises, creates (remind_events now docs batch promises).
Proof.
  induction docs as [| doc docs IH]; intros batch promises; simpl.
  - apply creates_ret.
  - apply creates_bind; [apply creates_remind_event |].
    intros st. apply IH.
Qed.

Lemma creates_batch_commit (batch : list BatchUpdate) : creates (batch_commit batch).
Proof.
  unfold batch_commit. apply creates_await_call; [reflexivity |].
  intros w Hall. exists []. unfold bind, read_db, write_db, throw.
  destruct (forallb _ batch); simpl.
  - apply created_quiet; simpl; rewrite ?app_nil_r, ?erase_flag_updates; auto.
  - apply created_refl. exact Hall.
Qed.

Lemma creates_generator (now : Timestamp) : creates (sendEventReminders now).
Proof.
  unfold sendEventReminders. apply creates_try_catch.
  - unfold sendEventReminders_body, query_events.
    apply creates_bind.
    + apply creates_await_call; [reflexivity |].
      apply creates_bind; [apply creates_same; intros w; repeat split |].
      intros s. apply creates_ret.
    + intros docs. unfold remind_selected. destruct docs as [| doc docs].
      * apply creates_bind; [apply creates_console_log |].
        intros _. apply creates_ret.
      * apply creates_bind; [apply creates_console_log |]. intros _.
        apply creates_bind; [apply creates_remind_events |]. intros st.
        apply creates_bind; [apply creates_batch_commit |]. intros _.
        apply creates_bind; [apply creates_Promise_all |]. intros _.
        apply creates_bind; [apply creates_console_log |]. intros _.
        apply creates_ret.
  - intros e. apply creates_bind; [apply creates_console_error |].
    intros _. apply creates_ret.
Qed.

(** X21. The creations of a run in which every call succeeds are in
    the store afterwards: each record whose creation was issued is
    there under some id, and each of the two notification collections
    has grown by exactly the number of creations issued for it, the
    records it held before being kept. *)
Theorem created_records_are_stored (now : Timestamp) (w : World) :
  all_succeed (schedule w) ->
  (forall collection d,
     CallAdd collection d ∈ issued_by (sendEventReminders now) w ->
     exists id,
       notification_collection collection (db (snd (sendEventReminders now w))) !! id
       = Some d) /\
  (forall collection,
     is_notification_collection collection = true ->
     size (notification_collection collection (db (snd (sendEventReminders now w))))
     = (size (notification_collection collection (db w))
        + adds_to collection (issued_by (sendEventReminders now) w))%nat).
Proof.
  intros Hall.
  destruct (creates_generator now w Hall) as (cs & _ & Hc & _ & Hin & Hsz).
  unfold issued_by. rewrite Hc, drop_app_length. auto.
Qed.

Lemma created_records_are_stored_witness :
  all_succeed (schedule events_world) /\
  (forall collection d,
     CallAdd collection d ∈ issued_by (sendEventReminders run_time) events_world ->
     exists id,
       notification_collection collection
         (db (snd (sendEventReminders run_time events_world))) !! id
       = Some d) /\
  (forall collection,
     is_notification_collection collection = true ->
     size (notification_collection collection
             (db (snd (sendEventReminders run_time events_world))))
     = (size (notification_collection collection (db events_world))
        + adds_to collection (issued_by (sendEventReminders run_time) events_world))%nat).
Proof.
  assert (H1 : all_succeed (schedule events_world)) by constructor.
  exact (conj H1 (created_records_are_stored run_time events_world H1)).
Defined.
